(** * WinFuse: the transact engine and the protocol encoders

    A shallow embedding of [src/winfuse/fuse.c] (instance life cycle and
    [FuseDeviceTransact]) and of [src/winfuse/proto.c] (the FUSE request
    encoders and [FuseAttrToFileInfo]), and the properties the
    specification states about them.

    Conventions.
    - A [UINTn] is a [Z] in [0, 2^n); every place where C truncates is
      written out with [to_UINT32] / [to_UINT64].
    - An [NTSTATUS] is the 32-bit pattern of the status; [NT_SUCCESS] tests
      that the sign bit is clear.
    - A structure is a record, the request payload union is an inductive
      type, a counted string is the list of its [Length] bytes.
    - An [ASSERT] does not change what a routine computes; the asserted
      condition is given as a boolean of its own ([..._assert]).
    - Kernel objects that the two files only call into (the I/O queue, the
      cache, the context dispatcher, the host framework) are kept in an
      explicit state that is threaded through, together with a log of the
      calls that were made, in program order.

    Layout: the embedding of the two files, then the vocabulary of the
    statements and the sample data, then the theorems. *)

From Stdlib Require Import ZArith List Bool Lia.
From Stdlib.Strings Require Import Byte.
From stdpp Require Import base option list gmap.
Import ListNotations.

Local Open Scope Z_scope.

(** ** Machine integers *)

Definition to_UINT32 (x : Z) : Z := x mod 2 ^ 32.
Definition to_UINT64 (x : Z) : Z := x mod 2 ^ 64.

Definition is_UINT16 (x : Z) : Prop := 0 <= x < 2 ^ 16.
Definition is_UINT32 (x : Z) : Prop := 0 <= x < 2 ^ 32.
Definition is_UINT64 (x : Z) : Prop := 0 <= x < 2 ^ 64.

(** ** Windows constants (public SDK values) *)

Definition STATUS_SUCCESS : Z := 0x00000000.
Definition STATUS_TIMEOUT : Z := 0x00000102.
Definition STATUS_INVALID_PARAMETER : Z := 0xC000000D.
Definition STATUS_ACCESS_DENIED : Z := 0xC0000022.
Definition STATUS_BUFFER_TOO_SMALL : Z := 0xC0000023.
Definition STATUS_THREAD_IS_TERMINATING : Z := 0xC000004B.
Definition STATUS_INSUFFICIENT_RESOURCES : Z := 0xC000009A.
Definition STATUS_CANCELLED : Z := 0xC0000120.

(** [NT_SUCCESS(s)] is [((NTSTATUS)(s)) >= 0] on a signed 32-bit value. *)
Definition NT_SUCCESS (s : Z) : bool := s <? 2 ^ 31.

Definition FILE_READ_DATA : Z := 0x0001.
Definition FILE_WRITE_DATA : Z := 0x0002.

Definition FILE_ATTRIBUTE_DIRECTORY : Z := 0x00000010.
Definition FILE_ATTRIBUTE_REPARSE_POINT : Z := 0x00000400.
Definition IO_REPARSE_TAG_SYMLINK : Z := 0xA000000C.
Definition IO_REPARSE_TAG_NFS : Z := 0x80000014.

(** ** Protocol constants

    [winfuse/proto.h] is not part of the excerpt.  The constants and the
    [FUSE_PROTO_REQ_SIZE] macro it defines are parameters of the
    development; [fuse7] below gives the values of the FUSE 7 wire format,
    on which the model is evaluated. *)

Inductive REQ_MEMBER : Set :=
  | m_init | m_lookup | m_forget | m_batch_forget | m_getattr | m_open.

Class FUSE_PROTO : Type := {
  FUSE_PROTO_VERSION : Z;
  FUSE_PROTO_MINOR_VERSION : Z;
  FUSE_PROTO_REQ_HEADER_SIZE : Z;
  FUSE_PROTO_RSP_HEADER_SIZE : Z;
  FUSE_PROTO_REQ_SIZEMIN : Z;
  FUSE_PROTO_REQ_SIZE : REQ_MEMBER -> Z;
  sizeof_FUSE_PROTO_FORGET_ONE : Z;
  FUSE_PROTO_OPCODE_LOOKUP : Z;
  FUSE_PROTO_OPCODE_FORGET : Z;
  FUSE_PROTO_OPCODE_GETATTR : Z;
  FUSE_PROTO_OPCODE_OPEN : Z;
  FUSE_PROTO_OPCODE_INIT : Z;
  FUSE_PROTO_OPCODE_OPENDIR : Z;
  FUSE_PROTO_OPCODE_BATCH_FORGET : Z
}.

Definition fuse7 : FUSE_PROTO := {|
  FUSE_PROTO_VERSION := 7;
  FUSE_PROTO_MINOR_VERSION := 29;
  FUSE_PROTO_REQ_HEADER_SIZE := 40;
  FUSE_PROTO_RSP_HEADER_SIZE := 16;
  FUSE_PROTO_REQ_SIZEMIN := 8192;
  FUSE_PROTO_REQ_SIZE := fun m =>
    match m with
    | m_init => 56 | m_lookup => 40 | m_forget => 48
    | m_batch_forget => 48 | m_getattr => 56 | m_open => 48
    end;
  sizeof_FUSE_PROTO_FORGET_ONE := 16;
  FUSE_PROTO_OPCODE_LOOKUP := 1;
  FUSE_PROTO_OPCODE_FORGET := 2;
  FUSE_PROTO_OPCODE_GETATTR := 3;
  FUSE_PROTO_OPCODE_OPEN := 14;
  FUSE_PROTO_OPCODE_INIT := 26;
  FUSE_PROTO_OPCODE_OPENDIR := 27;
  FUSE_PROTO_OPCODE_BATCH_FORGET := 42
|}.

(** What the encoders take for granted about the constants: the opcodes are
    [UINT32] values, a request of any kind fits the minimum request size,
    at least one forget tuple fits after a batch-forget request, and the
    minimum request size is far from the end of the [UINT32] range. *)
Definition proto_ok `{PROTO : FUSE_PROTO} : Prop :=
  (is_UINT32 FUSE_PROTO_OPCODE_LOOKUP /\ is_UINT32 FUSE_PROTO_OPCODE_FORGET /\
   is_UINT32 FUSE_PROTO_OPCODE_GETATTR /\ is_UINT32 FUSE_PROTO_OPCODE_OPEN /\
   is_UINT32 FUSE_PROTO_OPCODE_INIT /\ is_UINT32 FUSE_PROTO_OPCODE_OPENDIR /\
   is_UINT32 FUSE_PROTO_OPCODE_BATCH_FORGET) /\
  (forall m, 0 <= FUSE_PROTO_REQ_SIZE m <= FUSE_PROTO_REQ_SIZEMIN) /\
  0 < sizeof_FUSE_PROTO_FORGET_ONE /\
  FUSE_PROTO_REQ_SIZE m_batch_forget + sizeof_FUSE_PROTO_FORGET_ONE
    <= FUSE_PROTO_REQ_SIZEMIN /\
  FUSE_PROTO_REQ_SIZEMIN + 2 ^ 16 < 2 ^ 32 /\
  sizeof_FUSE_PROTO_FORGET_ONE < 2 ^ 16 /\
  0 < FUSE_PROTO_RSP_HEADER_SIZE.

(** Helpers of [winfuse/driver.h] that the excerpt calls and does not
    define: the errno map and the time conversion, both pure. *)
Class FUSE_HELPERS : Type := {
  FuseNtStatusFromErrno : Z -> Z;
  FuseUnixTimeToFileTime : Z -> Z -> Z;
  sizeof_FSP_FSCTL_TRANSACT_RSP : Z
}.

Definition helpers0 : FUSE_HELPERS := {|
  FuseNtStatusFromErrno := fun e => if e =? 0 then STATUS_SUCCESS else 0xC0000001;
  FuseUnixTimeToFileTime := fun sec nsec =>
    to_UINT64 (sec * 10000000 + nsec / 100 + 116444736000000000);
  sizeof_FSP_FSCTL_TRANSACT_RSP := 128
|}.

(** ** Wire messages *)

Record FUSE_PROTO_FORGET_ONE : Set := {
  one_nodeid : Z;
  one_nlookup : Z
}.

(** The [req] union of a request.  Each encoder writes the member of its
    opcode; [req_raw] stands for payload bytes no encoder has written. *)
Inductive FUSE_PROTO_REQ_UNION : Set :=
  | req_raw
  | req_init (major minor max_readahead flags : Z)
  | req_lookup (name : list byte)
  | req_forget (nlookup : Z)
  | req_batch_forget (count : Z) (items : list FUSE_PROTO_FORGET_ONE)
  | req_open (flags : Z).

Record FUSE_PROTO_REQ : Set := {
  req_len : Z;
  req_opcode : Z;
  req_unique : Z;
  req_nodeid : Z;
  req_uid : Z;
  req_gid : Z;
  req_pid : Z;
  req : FUSE_PROTO_REQ_UNION
}.

Record FUSE_PROTO_RSP : Set := {
  rsp_len : Z;
  rsp_error : Z;
  rsp_unique : Z
}.

(** [RtlZeroMemory(FuseRequest, FUSE_PROTO_REQ_HEADER_SIZE)]: the header
    fields are cleared, the payload keeps what it held. *)
Definition zero_header (r : FUSE_PROTO_REQ) : FUSE_PROTO_REQ :=
  {| req_len := 0; req_opcode := 0; req_unique := 0; req_nodeid := 0;
     req_uid := 0; req_gid := 0; req_pid := 0; req := req r |}.

Definition set_req (u : FUSE_PROTO_REQ_UNION) (r : FUSE_PROTO_REQ) : FUSE_PROTO_REQ :=
  {| req_len := req_len r; req_opcode := req_opcode r; req_unique := req_unique r;
     req_nodeid := req_nodeid r; req_uid := req_uid r; req_gid := req_gid r;
     req_pid := req_pid r; req := u |}.

(** ** Host framework messages *)

Record FSP_FSCTL_TRANSACT_REQ : Set := {
  ireq_Kind : Z;
  ireq_Hint : Z
}.

Record FSP_FSCTL_TRANSACT_RSP : Set := {
  irsp_Size : Z;
  irsp_Kind : Z;
  irsp_Hint : Z;
  irsp_Status : Z        (* IoStatus.Status *)
}.

(** ** Contexts *)

Record LOOKUP_SCRATCH : Set := {
  Name : list byte;              (* STRING: Length bytes at Buffer *)
  GrantedAccess : Z
}.

Record FORGET_SCRATCH : Set := {
  ForgetList : list Z            (* inode numbers of the queued cache items *)
}.

(** The routines a context can carry in [Fini]. *)
Inductive FINI_HOOK : Set :=
  | FuseProtoPostForget_ContextFini.

Record FUSE_CONTEXT : Set := {
  Address : Z;                   (* (UINT_PTR)Context *)
  InternalRequest : option FSP_FSCTL_TRANSACT_REQ;
  InternalResponse : FSP_FSCTL_TRANSACT_RSP;
  OrigUid : Z;
  OrigGid : Z;
  OrigPid : Z;
  Ino : Z;
  Lookup : LOOKUP_SCRATCH;
  Forget : FORGET_SCRATCH;
  CoroState : Z;
  Fini : option FINI_HOOK;
  FuseRequest : FUSE_PROTO_REQ;              (* the buffer it points to *)
  FuseResponse : option FUSE_PROTO_RSP
}.

Definition Name_Length (c : FUSE_CONTEXT) : Z := Z.of_nat (length (Name (Lookup c))).

Definition with_FuseRequest (r : FUSE_PROTO_REQ) (c : FUSE_CONTEXT) : FUSE_CONTEXT :=
  {| Address := Address c; InternalRequest := InternalRequest c;
     InternalResponse := InternalResponse c; OrigUid := OrigUid c;
     OrigGid := OrigGid c; OrigPid := OrigPid c; Ino := Ino c;
     Lookup := Lookup c; Forget := Forget c; CoroState := CoroState c; Fini := Fini c;
     FuseRequest := r; FuseResponse := FuseResponse c |}.

Definition with_FuseResponse (r : option FUSE_PROTO_RSP) (c : FUSE_CONTEXT) : FUSE_CONTEXT :=
  {| Address := Address c; InternalRequest := InternalRequest c;
     InternalResponse := InternalResponse c; OrigUid := OrigUid c;
     OrigGid := OrigGid c; OrigPid := OrigPid c; Ino := Ino c;
     Lookup := Lookup c; Forget := Forget c; CoroState := CoroState c; Fini := Fini c;
     FuseRequest := FuseRequest c; FuseResponse := r |}.

Definition with_CoroState (s : Z) (c : FUSE_CONTEXT) : FUSE_CONTEXT :=
  {| Address := Address c; InternalRequest := InternalRequest c;
     InternalResponse := InternalResponse c; OrigUid := OrigUid c;
     OrigGid := OrigGid c; OrigPid := OrigPid c; Ino := Ino c;
     Lookup := Lookup c; Forget := Forget c; CoroState := s; Fini := Fini c;
     FuseRequest := FuseRequest c; FuseResponse := FuseResponse c |}.

Definition with_ForgetList (l : list Z) (c : FUSE_CONTEXT) : FUSE_CONTEXT :=
  {| Address := Address c; InternalRequest := InternalRequest c;
     InternalResponse := InternalResponse c; OrigUid := OrigUid c;
     OrigGid := OrigGid c; OrigPid := OrigPid c; Ino := Ino c;
     Lookup := Lookup c; Forget := {| ForgetList := l |}; CoroState := CoroState c; Fini := Fini c;
     FuseRequest := FuseRequest c; FuseResponse := FuseResponse c |}.

Definition with_Fini (f : option FINI_HOOK) (c : FUSE_CONTEXT) : FUSE_CONTEXT :=
  {| Address := Address c; InternalRequest := InternalRequest c;
     InternalResponse := InternalResponse c; OrigUid := OrigUid c;
     OrigGid := OrigGid c; OrigPid := OrigPid c; Ino := Ino c;
     Lookup := Lookup c; Forget := Forget c; CoroState := CoroState c; Fini := f;
     FuseRequest := FuseRequest c; FuseResponse := FuseResponse c |}.

Definition with_InternalResponse (r : FSP_FSCTL_TRANSACT_RSP) (c : FUSE_CONTEXT) : FUSE_CONTEXT :=
  {| Address := Address c; InternalRequest := InternalRequest c;
     InternalResponse := r; OrigUid := OrigUid c;
     OrigGid := OrigGid c; OrigPid := OrigPid c; Ino := Ino c;
     Lookup := Lookup c; Forget := Forget c; CoroState := CoroState c; Fini := Fini c;
     FuseRequest := FuseRequest c; FuseResponse := FuseResponse c |}.

Definition with_Status (s : Z) (r : FSP_FSCTL_TRANSACT_RSP) : FSP_FSCTL_TRANSACT_RSP :=
  {| irsp_Size := irsp_Size r; irsp_Kind := irsp_Kind r; irsp_Hint := irsp_Hint r;
     irsp_Status := s |}.

Definition with_Hint (h : Z) (r : FSP_FSCTL_TRANSACT_RSP) : FSP_FSCTL_TRANSACT_RSP :=
  {| irsp_Size := irsp_Size r; irsp_Kind := irsp_Kind r; irsp_Hint := h;
     irsp_Status := irsp_Status r |}.

(** * proto.c *)

Section Proto.
Context `{PROTO : FUSE_PROTO} `{HELPERS : FUSE_HELPERS}.

(** [FuseProtoInitRequest]: the seven header fields; the parameters are
    converted to [UINT32], [UINT32] and [UINT64] at the call. *)
Definition FuseProtoInitRequest (Context : FUSE_CONTEXT) (len opcode nodeid : Z)
  : FUSE_CONTEXT :=
  with_FuseRequest
    {| req_len := to_UINT32 len;
       req_opcode := to_UINT32 opcode;
       req_unique := to_UINT64 (Address Context);
       req_nodeid := to_UINT64 nodeid;
       req_uid := OrigUid Context;
       req_gid := OrigGid Context;
       req_pid := OrigPid Context;
       req := req (FuseRequest Context) |}
    Context.

Definition write_req (u : FUSE_PROTO_REQ_UNION) (Context : FUSE_CONTEXT) : FUSE_CONTEXT :=
  with_FuseRequest (set_req u (FuseRequest Context)) Context.

(** Modelled from the spec: the coroutine macros of [winfuse/coro.h], which
    the excerpt uses and does not define.  [CoroState] holds the resume
    label; it is 0 when the routine is entered for the first time,
    [coro_yield] stores the label of the statement that follows it and
    leaves the block, [coro_break] leaves the block with no label stored. *)
Definition coro_yield (label : Z) (Context : FUSE_CONTEXT) : FUSE_CONTEXT :=
  with_CoroState label Context.

Definition coro_break (Context : FUSE_CONTEXT) : FUSE_CONTEXT :=
  with_CoroState 0 Context.

(** Is the routine suspended at a [coro_yield]? *)
Definition coro_active (Context : FUSE_CONTEXT) : bool :=
  negb (CoroState Context =? 0).

(** The tail shared by the send routines:
    [if (0 != Context->FuseResponse->error) ...Status = FuseNtStatusFromErrno(error)].
    A context is resumed past its yield only with a response attached. *)
Definition status_from_response (Context : FUSE_CONTEXT) : FUSE_CONTEXT :=
  match FuseResponse Context with
  | Some r =>
      if negb (rsp_error r =? 0)
      then with_InternalResponse
             (with_Status (FuseNtStatusFromErrno (rsp_error r)) (InternalResponse Context))
             Context
      else Context
  | None => Context
  end.

Definition FuseProtoSendInit (Context : FUSE_CONTEXT) : FUSE_CONTEXT :=
  if CoroState Context =? 0 then
    let c := FuseProtoInitRequest Context
               (FUSE_PROTO_REQ_SIZE m_init) FUSE_PROTO_OPCODE_INIT 0 in
    let c := write_req (req_init FUSE_PROTO_VERSION FUSE_PROTO_MINOR_VERSION 0 0) c in
    coro_yield 1 c
  else coro_break (status_from_response Context).

(** [ASSERT(FUSE_PROTO_REQ_SIZEMIN >= Context->FuseRequest->len)]. *)
Definition len_within_SIZEMIN (Context : FUSE_CONTEXT) : bool :=
  FUSE_PROTO_REQ_SIZEMIN >=? req_len (FuseRequest Context).

Definition FuseProtoSendLookup (Context : FUSE_CONTEXT) : FUSE_CONTEXT :=
  if CoroState Context =? 0 then
    let c := FuseProtoInitRequest Context
               (to_UINT32 (FUSE_PROTO_REQ_SIZE m_lookup + Name_Length Context + 1))
               FUSE_PROTO_OPCODE_LOOKUP (Ino Context) in
    (* RtlCopyMemory of the name, then name[Length] = '\0' *)
    let c := write_req (req_lookup (Name (Lookup Context) ++ [x00])) c in
    coro_yield 1 c
  else coro_break (status_from_response Context).


(** Modelled from the spec: [FuseCacheForgetNextItem] of the cache, which is
    not part of the excerpt: `ForgetNextItem(list) -> (inode | empty)`.  It
    unlinks the first item of the list and yields its inode number. *)
Definition FuseCacheForgetNextItem (l : list Z) : option (Z * list Z) :=
  match l with
  | [] => None
  | ino :: rest => Some (ino, rest)
  end.

(** [FuseProtoFillForget].  [Ino0] is the content of the local [Ino] before
    the call, which is what the request carries should the list be empty
    (the routine asserts that it is not). *)
Definition FuseProtoFillForget (Ino0 : Z) (Context : FUSE_CONTEXT) : FUSE_CONTEXT :=
  let '(Ino, rest) :=
    match FuseCacheForgetNextItem (ForgetList (Forget Context)) with
    | Some (ino, rest) => (ino, rest)
    | None => (Ino0, ForgetList (Forget Context))
    end in
  let c := with_ForgetList rest Context in
  let c := FuseProtoInitRequest c
             (FUSE_PROTO_REQ_SIZE m_forget) FUSE_PROTO_OPCODE_FORGET Ino in
  write_req (req_forget 1) c.

Definition FuseProtoFillForget_assert (Context : FUSE_CONTEXT) : bool :=
  bool_decide (is_Some (FuseCacheForgetNextItem (ForgetList (Forget Context)))).

(** The loop of [FuseProtoFillBatchForget].  [P] and [EndP] are byte
    offsets from the start of the request.  The result is the final [P],
    the tuples written from the initial [P] on, and the list left over.
    The list is only consulted when [EndP > P] (the [&&] short-circuits). *)
Fixpoint FillBatchForget_loop (EndP P : Z) (l : list Z) {struct l}
  : Z * list FUSE_PROTO_FORGET_ONE * list Z :=
  if EndP >? P then
    match l with
    | [] => (P, [], [])
    | Ino :: rest =>
        let '(P', items, remaining) :=
          FillBatchForget_loop EndP (P + sizeof_FUSE_PROTO_FORGET_ONE) rest in
        (P', {| one_nodeid := to_UINT64 Ino; one_nlookup := 1 |} :: items, remaining)
    end
  else (P, [], l).

Definition FuseProtoFillBatchForget (Context : FUSE_CONTEXT) : FUSE_CONTEXT :=
  let StartP := FUSE_PROTO_REQ_SIZE m_batch_forget in
  let EndP := StartP + (FUSE_PROTO_REQ_SIZEMIN - FUSE_PROTO_REQ_SIZE m_batch_forget) in
  let '(P', items, remaining) :=
    FillBatchForget_loop EndP StartP (ForgetList (Forget Context)) in
  let c := with_ForgetList remaining Context in
  let c := FuseProtoInitRequest c (to_UINT32 P') FUSE_PROTO_OPCODE_BATCH_FORGET 0 in
  write_req
    (req_batch_forget
       (to_UINT32 ((P' - StartP) / sizeof_FUSE_PROTO_FORGET_ONE)) items)
    c.

Definition FuseProtoFillBatchForget_assert (Context : FUSE_CONTEXT) : bool :=
  len_within_SIZEMIN (FuseProtoFillBatchForget Context).

Definition FuseProtoSendGetattr (Context : FUSE_CONTEXT) : FUSE_CONTEXT :=
  if CoroState Context =? 0 then
    let c := FuseProtoInitRequest Context
               (FUSE_PROTO_REQ_SIZE m_getattr) FUSE_PROTO_OPCODE_GETATTR (Ino Context) in
    coro_yield 1 c
  else coro_break (status_from_response Context).

Definition FuseProtoSendCreate (Context : FUSE_CONTEXT) : FUSE_CONTEXT :=
  coro_break Context.

Definition FuseProtoSendOpen (Context : FUSE_CONTEXT) : FUSE_CONTEXT :=
  if CoroState Context =? 0 then
    let c := FuseProtoInitRequest Context
               (FUSE_PROTO_REQ_SIZE m_open) FUSE_PROTO_OPCODE_OPEN (Ino Context) in
    let sel := Z.land (GrantedAccess (Lookup Context))
                 (Z.lor FILE_READ_DATA FILE_WRITE_DATA) in
    let flags :=
      if sel =? FILE_READ_DATA then 0            (* O_RDONLY *)
      else if sel =? FILE_WRITE_DATA then 1      (* O_WRONLY *)
      else if sel =? Z.lor FILE_READ_DATA FILE_WRITE_DATA then 2   (* O_RDWR *)
      else 0                                     (* default: *) in
    let c := write_req (req_open flags) c in
    coro_yield 1 c
  else coro_break (status_from_response Context).

Definition FuseProtoSendOpendir (Context : FUSE_CONTEXT) : FUSE_CONTEXT :=
  if CoroState Context =? 0 then
    let c := FuseProtoInitRequest Context
               (FUSE_PROTO_REQ_SIZE m_open) FUSE_PROTO_OPCODE_OPENDIR (Ino Context) in
    coro_yield 1 c
  else coro_break (status_from_response Context).

End Proto.

(** ** Attribute mapping *)

Record FUSE_PROTO_ATTR : Set := {
  attr_ino : Z;
  attr_size : Z;
  attr_atime : Z;
  attr_mtime : Z;
  attr_ctime : Z;
  attr_atimensec : Z;
  attr_mtimensec : Z;
  attr_ctimensec : Z;
  attr_mode : Z
}.

Record FSP_FSCTL_FILE_INFO : Set := {
  FileAttributes : Z;
  ReparseTag : Z;
  AllocationSize : Z;
  FileSize : Z;
  CreationTime : Z;
  LastAccessTime : Z;
  LastWriteTime : Z;
  ChangeTime : Z;
  IndexNumber : Z;
  HardLinks : Z;
  EaSize : Z
}.

Record FSP_FSCTL_VOLUME_PARAMS : Set := {
  SectorSize : Z;                        (* UINT16 *)
  SectorsPerAllocationUnit : Z;          (* UINT16 *)
  CaseSensitiveSearch : bool;
  CasePreservedNames : bool;
  PersistentAcls : bool;
  ReparsePoints : bool;
  ReparsePointsAccessCheck : bool;
  NamedStreams : bool;
  ReadOnlyVolume : bool;
  PostCleanupWhenModifiedOnly : bool;
  PassQueryDirectoryFileName : bool;
  DeviceControl : bool;
  DirectoryMarkerAsNextOffset : bool
}.

(** The file type bits of a POSIX mode, in the octal of the source. *)
Definition S_IFMT : Z := 61440.     (* 0170000 *)
Definition S_IFIFO : Z := 4096.     (* 0010000 *)
Definition S_IFCHR : Z := 8192.     (* 0020000 *)
Definition S_IFDIR : Z := 16384.    (* 0040000 *)
Definition S_IFBLK : Z := 24576.    (* 0060000 *)
Definition S_IFLNK : Z := 40960.    (* 0120000 *)
Definition S_IFSOCK : Z := 49152.   (* 0140000 *)

Definition mode_attributes (mode : Z) : Z * Z :=
  let t := Z.land mode S_IFMT in
  if t =? S_IFDIR then (FILE_ATTRIBUTE_DIRECTORY, 0)
  else if (t =? S_IFIFO) || (t =? S_IFCHR) || (t =? S_IFBLK) || (t =? S_IFSOCK)
  then (FILE_ATTRIBUTE_REPARSE_POINT, IO_REPARSE_TAG_NFS)
  else if t =? S_IFLNK then (FILE_ATTRIBUTE_REPARSE_POINT, IO_REPARSE_TAG_SYMLINK)
  else (0, 0).

Section AttrToFileInfo.
Context `{HELPERS : FUSE_HELPERS}.

(** [FuseAttrToFileInfo].  All arithmetic is [UINT64].  The division traps
    when the allocation unit is zero: the routine then yields no file info. *)
Definition FuseAttrToFileInfo (VolumeParams : FSP_FSCTL_VOLUME_PARAMS)
    (Attr : FUSE_PROTO_ATTR) : option FSP_FSCTL_FILE_INFO :=
  let AllocationUnit :=
    to_UINT64 (to_UINT64 (SectorSize VolumeParams) *
               to_UINT64 (SectorsPerAllocationUnit VolumeParams)) in
  let '(attributes, tag) := mode_attributes (attr_mode Attr) in
  let size := attr_size Attr in
  if AllocationUnit =? 0 then None
  else
    let ctime := FuseUnixTimeToFileTime (attr_ctime Attr) (attr_ctimensec Attr) in
    Some {|
      FileAttributes := attributes;
      ReparseTag := tag;
      FileSize := size;
      AllocationSize :=
        to_UINT64 (to_UINT64 (to_UINT64 (size + AllocationUnit) - 1)
                     / AllocationUnit * AllocationUnit);
      LastAccessTime := FuseUnixTimeToFileTime (attr_atime Attr) (attr_atimensec Attr);
      LastWriteTime := FuseUnixTimeToFileTime (attr_mtime Attr) (attr_mtimensec Attr);
      ChangeTime := ctime;
      CreationTime := ctime;
      IndexNumber := attr_ino Attr;
      HardLinks := 0;
      EaSize := 0
    |}.

End AttrToFileInfo.

(** * The I/O queue, the cache and the instance *)

(** Modelled from the spec: the I/O queue of [winfuse/ioq.c], which is not
    part of the excerpt.  "Pending list: FIFO of contexts waiting to emit
    their next request.  Enqueue at tail, dequeue at head.  Processing map:
    mapping from correlation ID to context ... Insert on emit, remove on
    response arrival." *)
Record FUSE_IOQ : Type := {
  PendingList : list FUSE_CONTEXT;
  ProcessMap : gmap Z FUSE_CONTEXT
}.

Definition FuseIoqEmpty : FUSE_IOQ := {| PendingList := []; ProcessMap := ∅ |}.

(** Modelled from the spec: `PostPending(ctx)`: append to pending FIFO. *)
Definition FuseIoqPostPending (Ioq : FUSE_IOQ) (Context : FUSE_CONTEXT) : FUSE_IOQ :=
  {| PendingList := PendingList Ioq ++ [Context]; ProcessMap := ProcessMap Ioq |}.

(** Modelled from the spec: `NextPending()`: pop head of pending; ctx or null. *)
Definition FuseIoqNextPending (Ioq : FUSE_IOQ) : option FUSE_CONTEXT * FUSE_IOQ :=
  match PendingList Ioq with
  | [] => (None, Ioq)
  | Context :: rest =>
      (Some Context, {| PendingList := rest; ProcessMap := ProcessMap Ioq |})
  end.

(** Modelled from the spec: `StartProcessing(ctx)`: insert into processing
    map by `ctx.unique`, the unique being the context's address. *)
Definition FuseIoqStartProcessing (Ioq : FUSE_IOQ) (Context : FUSE_CONTEXT) : FUSE_IOQ :=
  {| PendingList := PendingList Ioq;
     ProcessMap := <[ to_UINT64 (Address Context) := Context ]> (ProcessMap Ioq) |}.

(** Modelled from the spec: `EndProcessing(unique)`: remove and return; ctx
    or null. *)
Definition FuseIoqEndProcessing (Ioq : FUSE_IOQ) (unique : Z)
  : option FUSE_CONTEXT * FUSE_IOQ :=
  match ProcessMap Ioq !! unique with
  | Some Context =>
      (Some Context,
       {| PendingList := PendingList Ioq; ProcessMap := delete unique (ProcessMap Ioq) |})
  | None => (None, Ioq)
  end.

(** Modelled from the spec: the cache of [winfuse/cache.c], which is not
    part of the excerpt: "a mapping from (parent-inode, normalized-name) to
    a cache item holding the child inode number", with the case folding
    chosen at creation.  The excerpt creates it, deletes it and hands it to
    the contexts; it never looks inside. *)
Record FUSE_CACHE_ITEM : Set := {
  item_parent : Z;
  item_name : list byte;
  item_ino : Z
}.

Record FUSE_CACHE : Set := {
  CacheCapacity : Z;
  CacheCaseInsensitive : bool;
  CacheItems : list FUSE_CACHE_ITEM
}.

Record FUSE_INSTANCE : Type := {
  VolumeParams : FSP_FSCTL_VOLUME_PARAMS;
  Ioq : FUSE_IOQ;
  Cache : FUSE_CACHE;
  VersionMajor : Z                        (* UINT32 *)
}.

Definition with_Ioq (q : FUSE_IOQ) (i : FUSE_INSTANCE) : FUSE_INSTANCE :=
  {| VolumeParams := VolumeParams i; Ioq := q; Cache := Cache i;
     VersionMajor := VersionMajor i |}.

Definition with_Cache (c : FUSE_CACHE) (i : FUSE_INSTANCE) : FUSE_INSTANCE :=
  {| VolumeParams := VolumeParams i; Ioq := Ioq i; Cache := c;
     VersionMajor := VersionMajor i |}.

(** Modelled from the spec: a context pointer as [FuseContextCreate] hands
    it out.  "The source encodes early-failure contexts by tagging the
    pointer": the pointer is either a live context or a bare status, and
    [FuseContextIsStatus] / [FuseContextToStatus] tell which. *)
Inductive FUSE_CONTEXT_PTR : Set :=
  | ContextAlive (Context : FUSE_CONTEXT)
  | ContextStatus (Status : Z).

Definition FuseContextIsStatus (p : FUSE_CONTEXT_PTR) : bool :=
  match p with ContextStatus _ => true | ContextAlive _ => false end.

Definition FuseContextToStatus (p : FUSE_CONTEXT_PTR) : Z :=
  match p with ContextStatus s => s | ContextAlive _ => STATUS_SUCCESS end.

(** Below, a test [FuseContextIsStatus(Context)] followed by uses of the
    context or of [FuseContextToStatus(Context)] is written as a match on
    the pointer. *)

(** * fuse.c *)

(** The calls that leave the two files, in the order they are made. *)
Inductive EVENT : Set :=
  | EvKeEnterCriticalRegion
  | EvKeLeaveCriticalRegion
  | EvIoqCreate
  | EvIoqDelete
  | EvCacheCreate (Capacity : Z) (CaseInsensitive : bool)
  | EvCacheDelete
  | EvRwlockInitialize
  | EvKeInitializeEvent
  | EvFileInstanceInit
  | EvIoqEndProcessing (unique : Z)
  | EvIoqNextPending
  | EvIoqPostPending (Context : Z)
  | EvIoqStartProcessing (Context : Z)
  | EvContextCreate
  | EvContextProcess (Context : Z)
  | EvContextDelete (Context : Z)
  | EvProviderSend (InternalResponse : FSP_FSCTL_TRANSACT_RSP)
  | EvProviderReceive
  | EvWaitInitEvent
  | EvFreeExternal (InternalRequest : FSP_FSCTL_TRANSACT_REQ).

Record PROCESS_RESULT : Type := {
  Continue : bool;
  ProcessContext : FUSE_CONTEXT;       (* the context after the step *)
  ProcessCache : FUSE_CACHE;           (* the cache after the step *)
  ProcessRequest : FUSE_PROTO_REQ      (* the request buffer after the step *)
}.

(** The collaborators of the two files: the context dispatcher and life
    cycle of [winfuse/context.c], the constructors of the queue and of the
    cache, and the host framework.  None of them is part of the excerpt; a
    call is given what they answer.
    - [FuseIoqCreate] and [FuseCacheCreate] are the statuses the two
      constructors return; [FuseContextCreate r] is the context pointer
      handed out for the internal request [r] (none for a self-generated
      context); [FuseContextDelete cache ctx] is the cache once the
      context and what its [Fini] hook releases are gone.
    - [FuseContextProcess cache ctx rsp (Some (buf, len))] resumes a context
      with a response and/or a request buffer.
    - [FspFsextProviderTransact_send rsp] is the form
      [FspFsextProviderTransact(dev, file, rsp, 0)];
      [FspFsextProviderTransact_receive] is the form
      [FspFsextProviderTransact(dev, file, 0, &InternalRequest)], the status
      and what it left in [InternalRequest].
    - [VersionMajor_after_wait] is what [Instance->VersionMajor] holds when
      it is read again after the wait on the init event. *)
Class COLLABORATORS : Type := {
  FuseIoqCreate : Z;
  FuseCacheCreate : Z;
  FuseContextCreate : option FSP_FSCTL_TRANSACT_REQ -> FUSE_CONTEXT_PTR;
  FuseContextProcess :
    FUSE_CACHE -> FUSE_CONTEXT -> option FUSE_PROTO_RSP ->
    option (FUSE_PROTO_REQ * Z) -> PROCESS_RESULT;
  FuseContextDelete : FUSE_CACHE -> FUSE_CONTEXT -> FUSE_CACHE;
  FspFsextProviderTransact_send : FSP_FSCTL_TRANSACT_RSP -> Z;
  FspFsextProviderTransact_receive : Z * option FSP_FSCTL_TRANSACT_REQ;
  FsRtlCancellableWaitForSingleObject : Z;
  VersionMajor_after_wait : Z
}.

(** The I/O request packet of a transact call.  The method is buffered:
    there is one system buffer, read as a response on the way in
    ([SystemBuffer_rsp]) and written as a request on the way out
    ([SystemBuffer_req] is what its bytes amount to as a request before the
    header is cleared). *)
Record IRP : Set := {
  InputBufferLength : Z;
  OutputBufferLength : Z;
  SystemBuffer_rsp : FUSE_PROTO_RSP;
  SystemBuffer_req : FUSE_PROTO_REQ;
  IoStatus_Information : Z
}.

(** What a call leaves behind. *)
Record STATE : Type := {
  Instance : FUSE_INSTANCE;
  Information : Z;                     (* Irp->IoStatus.Information *)
  Buffer : FUSE_PROTO_REQ;             (* the system buffer, as a request *)
  Log : list EVENT
}.

Definition emit (e : EVENT) (s : STATE) : STATE :=
  {| Instance := Instance s; Information := Information s; Buffer := Buffer s;
     Log := Log s ++ [e] |}.

Definition put_Instance (i : FUSE_INSTANCE) (s : STATE) : STATE :=
  {| Instance := i; Information := Information s; Buffer := Buffer s; Log := Log s |}.

Definition put_Information (n : Z) (s : STATE) : STATE :=
  {| Instance := Instance s; Information := n; Buffer := Buffer s; Log := Log s |}.

Definition put_Buffer (b : FUSE_PROTO_REQ) (s : STATE) : STATE :=
  {| Instance := Instance s; Information := Information s; Buffer := b; Log := Log s |}.

Definition put_Ioq (q : FUSE_IOQ) (s : STATE) : STATE :=
  put_Instance (with_Ioq q (Instance s)) s.

Definition put_Cache (c : FUSE_CACHE) (s : STATE) : STATE :=
  put_Instance (with_Cache c (Instance s)) s.

Section Fuse.
Context `{PROTO : FUSE_PROTO} `{HELPERS : FUSE_HELPERS} `{ENV : COLLABORATORS}.

(** ** Steps on the state, one per call out of [FuseDeviceTransact] *)

Definition do_PostPending (Context : FUSE_CONTEXT) (s : STATE) : STATE :=
  put_Ioq (FuseIoqPostPending (Ioq (Instance s)) Context)
    (emit (EvIoqPostPending (Address Context)) s).

Definition do_StartProcessing (Context : FUSE_CONTEXT) (s : STATE) : STATE :=
  put_Ioq (FuseIoqStartProcessing (Ioq (Instance s)) Context)
    (emit (EvIoqStartProcessing (Address Context)) s).

Definition do_Delete (Context : FUSE_CONTEXT) (s : STATE) : STATE :=
  put_Cache (FuseContextDelete (Cache (Instance s)) Context)
    (emit (EvContextDelete (Address Context)) s).

Definition do_Send (rsp : FSP_FSCTL_TRANSACT_RSP) (s : STATE) : Z * STATE :=
  (FspFsextProviderTransact_send rsp, emit (EvProviderSend rsp) s).

(** Resume [Context]; the context, the cache and the buffer come back
    changed. *)
Definition do_Process (Context : FUSE_CONTEXT) (rsp : option FUSE_PROTO_RSP)
    (out : option Z) (s : STATE) : bool * FUSE_CONTEXT * STATE :=
  let r := FuseContextProcess (Cache (Instance s)) Context rsp
             (option_map (fun n => (Buffer s, n)) out) in
  let s := emit (EvContextProcess (Address Context)) s in
  let s := put_Cache (ProcessCache r) s in
  let s := match out with Some _ => put_Buffer (ProcessRequest r) s | None => s end in
  (Continue r, ProcessContext r, s).

(** The [exit:] label. *)
Definition transact_exit (InternalRequest : option FSP_FSCTL_TRANSACT_REQ)
    (Result : Z) (s : STATE) : Z * STATE :=
  match InternalRequest with
  | Some r => (Result, emit (EvFreeExternal r) s)
  | None => (Result, s)
  end.

(** The end of the request half-step: [Information = FuseRequest->len],
    then [Result = STATUS_SUCCESS] and [exit:]. *)
Definition transact_done (InternalRequest : option FSP_FSCTL_TRANSACT_REQ)
    (s : STATE) : Z * STATE :=
  transact_exit InternalRequest STATUS_SUCCESS
    (put_Information (req_len (Buffer s)) s).

(** The dispatch on the outcome of the resume, for a live context
    (lines 261-299 with [FuseContextIsStatus(Context)] false). *)
Definition transact_dispatch (Context : FUSE_CONTEXT) (Continue : bool)
    (s : STATE) : Z * STATE :=
  if Continue then
    transact_done None (do_StartProcessing Context s)
  else
    match InternalRequest Context with
    | None =>
        let Hint := irsp_Hint (InternalResponse Context) in
        if (Hint =? FUSE_PROTO_OPCODE_FORGET) || (Hint =? FUSE_PROTO_OPCODE_BATCH_FORGET)
        then
          if negb (bool_decide (ForgetList (Forget Context) = []))
          then transact_done None (do_PostPending Context s)
          else transact_done None (do_Delete Context s)
        else transact_done None s
    | Some _ =>
        let '(Result, s) := do_Send (InternalResponse Context) s in
        let s := do_Delete Context s in
        if negb (NT_SUCCESS Result) then transact_exit None Result s
        else transact_done None s
    end.

(** The same dispatch for a status-only context: [Continue] is [FALSE] and
    the internal request is still held by the routine. *)
Definition transact_dispatch_status (Status : Z)
    (InternalRequest : FSP_FSCTL_TRANSACT_REQ) (s : STATE) : Z * STATE :=
  let InternalResponse :=
    {| irsp_Size := sizeof_FSP_FSCTL_TRANSACT_RSP;
       irsp_Kind := ireq_Kind InternalRequest;
       irsp_Hint := ireq_Hint InternalRequest;
       irsp_Status := Status |} in
  let '(Result, s) := do_Send InternalResponse s in
  if negb (NT_SUCCESS Result) then transact_exit (Some InternalRequest) Result s
  else transact_done (Some InternalRequest) s.

(** Lines 232-253: pull a new internal request from the host framework. *)
Definition transact_receive (Irp : IRP) (s : STATE) : Z * STATE :=
  let '(Result, InternalRequest) := FspFsextProviderTransact_receive in
  let s := emit EvProviderReceive s in
  if negb (NT_SUCCESS Result) then transact_exit InternalRequest Result s
  else
    match InternalRequest with
    | None => transact_exit None STATUS_SUCCESS (put_Information 0 s)
    | Some ireq =>
        let s := emit EvContextCreate s in
        match FuseContextCreate (Some ireq) with
        | ContextStatus Status => transact_dispatch_status Status ireq s
        | ContextAlive Context =>
            let '(Continue, Context, s) :=
              do_Process Context None (Some (OutputBufferLength Irp)) s in
            transact_dispatch Context Continue s
        end
    end.

(** Lines 212-230: nothing is pending. *)
Definition transact_idle (Irp : IRP) (s : STATE) : Z * STATE :=
  let VersionMajor0 := VersionMajor (Instance s) in
  if VersionMajor0 =? 0 then
    let Result := FsRtlCancellableWaitForSingleObject in
    let s := emit EvWaitInitEvent s in
    let Result :=
      if (Result =? STATUS_TIMEOUT) || (Result =? STATUS_THREAD_IS_TERMINATING)
      then STATUS_CANCELLED else Result in
    if negb (NT_SUCCESS Result) then transact_exit None Result s
    else if VersionMajor_after_wait =? to_UINT32 (-1)
    then transact_exit None STATUS_ACCESS_DENIED s
    else transact_receive Irp s
  else if VersionMajor0 =? to_UINT32 (-1)
  then transact_exit None STATUS_ACCESS_DENIED s
  else transact_receive Irp s.

(** The [request:] label: the request half-step. *)
Definition transact_request (Irp : IRP) (s : STATE) : Z * STATE :=
  let s := put_Information 0 s in
  if negb (OutputBufferLength Irp =? 0) then
    let s := put_Buffer (zero_header (Buffer s)) s in
    let '(next, q) := FuseIoqNextPending (Ioq (Instance s)) in
    let s := put_Ioq q (emit EvIoqNextPending s) in
    match next with
    | None => transact_idle Irp s
    | Some Context =>
        let '(Continue, Context, s) :=
          do_Process Context None (Some (OutputBufferLength Irp)) s in
        transact_dispatch Context Continue s
    end
  else transact_exit None STATUS_SUCCESS s.

(** Lines 179-201: the response half-step, then on to [request:]. *)
Definition transact_response (Irp : IRP) (s : STATE) : Z * STATE :=
  if negb (InputBufferLength Irp =? 0) then
    let FuseResponse := SystemBuffer_rsp Irp in
    let '(found, q) := FuseIoqEndProcessing (Ioq (Instance s)) (rsp_unique FuseResponse) in
    let s := put_Ioq q (emit (EvIoqEndProcessing (rsp_unique FuseResponse)) s) in
    match found with
    | None => transact_request Irp s
    | Some Context =>
        let '(Continue, Context, s) := do_Process Context (Some FuseResponse) None s in
        if Continue then transact_request Irp (do_PostPending Context s)
        else
          match InternalRequest Context with
          | None => transact_request Irp (do_Delete Context s)
          | Some _ =>
              let '(Result, s) := do_Send (InternalResponse Context) s in
              let s := do_Delete Context s in
              if negb (NT_SUCCESS Result) then transact_exit None Result s
              else transact_request Irp s
          end
    end
  else transact_request Irp s.

(** Lines 154-170: the parameter checks. *)
Definition bad_response (Irp : IRP) : bool :=
  negb (InputBufferLength Irp =? 0) &&
  ((FUSE_PROTO_RSP_HEADER_SIZE >? InputBufferLength Irp) ||
   (FUSE_PROTO_RSP_HEADER_SIZE >? rsp_len (SystemBuffer_rsp Irp)) ||
   (rsp_len (SystemBuffer_rsp Irp) >? InputBufferLength Irp)).

Definition small_request (Irp : IRP) : bool :=
  negb (OutputBufferLength Irp =? 0) &&
  (FUSE_PROTO_REQ_SIZEMIN >? OutputBufferLength Irp).

Definition transact_enter (Inst : FUSE_INSTANCE) (Irp : IRP) : STATE :=
  {| Instance := Inst; Information := IoStatus_Information Irp;
     Buffer := SystemBuffer_req Irp; Log := [] |}.

Definition FuseDeviceTransact (Inst : FUSE_INSTANCE) (Irp : IRP) : Z * STATE :=
  let s := transact_enter Inst Irp in
  if bad_response Irp then (STATUS_INVALID_PARAMETER, s)
  else if small_request Irp then (STATUS_BUFFER_TOO_SMALL, s)
  else transact_response Irp s.

(** ** Posting the self-generated contexts (proto.c) *)

(** [FuseProtoPostInit], on the queue of the instance. *)
Definition FuseProtoPostInit (Ioq : FUSE_IOQ) : Z * FUSE_IOQ * list EVENT :=
  match FuseContextCreate None with
  | ContextStatus Status => (Status, Ioq, [EvContextCreate])
  | ContextAlive Context =>
      let Context :=
        with_InternalResponse
          (with_Hint FUSE_PROTO_OPCODE_INIT (InternalResponse Context)) Context in
      (STATUS_SUCCESS, FuseIoqPostPending Ioq Context,
       [EvContextCreate; EvIoqPostPending (Address Context)])
  end.

(** [FuseProtoPostForget]: the context takes over the caller's list. *)
Definition FuseProtoPostForget (Ioq : FUSE_IOQ) (List : list Z)
  : Z * FUSE_IOQ * list EVENT :=
  match FuseContextCreate None with
  | ContextStatus Status => (Status, Ioq, [EvContextCreate])
  | ContextAlive Context =>
      let Context := with_Fini (Some FuseProtoPostForget_ContextFini) Context in
      let Context :=
        with_InternalResponse
          (with_Hint FUSE_PROTO_OPCODE_FORGET (InternalResponse Context)) Context in
      let Context := with_ForgetList List Context in
      (STATUS_SUCCESS, FuseIoqPostPending Ioq Context,
       [EvContextCreate; EvIoqPostPending (Address Context)])
  end.

(** ** Instance life cycle *)

(** Lines 47-58: the volume parameters FUSE operations need. *)
Definition force_VolumeParams (v : FSP_FSCTL_VOLUME_PARAMS) : FSP_FSCTL_VOLUME_PARAMS :=
  {| SectorSize := SectorSize v;
     SectorsPerAllocationUnit := SectorsPerAllocationUnit v;
     CaseSensitiveSearch := true;
     CasePreservedNames := true;
     PersistentAcls := true;
     ReparsePoints := true;
     ReparsePointsAccessCheck := false;
     NamedStreams := false;
     ReadOnlyVolume := false;
     PostCleanupWhenModifiedOnly := true;
     PassQueryDirectoryFileName := true;
     DeviceControl := true;
     DirectoryMarkerAsNextOffset := true |}.

(** The [fail:] label: [Cache] and [Ioq] are the two locals, non-null once
    the constructor has succeeded. *)
Definition DeviceInit_fail (Ioq : option FUSE_IOQ) (Cache : option FUSE_CACHE)
  : list EVENT :=
  match Cache with Some _ => [EvCacheDelete] | None => [] end ++
  match Ioq with Some _ => [EvIoqDelete] | None => [] end ++
  [EvKeLeaveCriticalRegion].

Record DEVICE_INIT : Type := {
  InitResult : Z;
  InitVolumeParams : FSP_FSCTL_VOLUME_PARAMS;
  InitInstance : FUSE_INSTANCE;
  InitLog : list EVENT
}.

(** [FuseDeviceInit].  A constructor hands out its object exactly when its
    status is a success; [Inst] is the device extension as the routine
    finds it. *)
Definition FuseDeviceInit (Inst : FUSE_INSTANCE) (Params : FSP_FSCTL_VOLUME_PARAMS)
  : DEVICE_INIT :=
  let Params := force_VolumeParams Params in
  let log := [EvKeEnterCriticalRegion; EvIoqCreate] in
  let Result := FuseIoqCreate in
  if negb (NT_SUCCESS Result) then
    {| InitResult := Result; InitVolumeParams := Params; InitInstance := Inst;
       InitLog := log ++ DeviceInit_fail None None |}
  else
    let Ioq := FuseIoqEmpty in
    let CaseInsensitive := negb (CaseSensitiveSearch Params) in
    let log := log ++ [EvCacheCreate 0 CaseInsensitive] in
    let Result := FuseCacheCreate in
    if negb (NT_SUCCESS Result) then
      {| InitResult := Result; InitVolumeParams := Params; InitInstance := Inst;
         InitLog := log ++ DeviceInit_fail (Some Ioq) None |}
    else
      let Cache := {| CacheCapacity := 0; CacheCaseInsensitive := CaseInsensitive;
                      CacheItems := [] |} in
      let log := log ++ [EvRwlockInitialize; EvKeInitializeEvent; EvFileInstanceInit] in
      let '(Result, Ioq', posted) := FuseProtoPostInit Ioq in
      let Inst := {| VolumeParams := Params; Ioq := Ioq'; Cache := Cache;
                     VersionMajor := VersionMajor Inst |} in
      let log := log ++ posted in
      if negb (NT_SUCCESS Result) then
        {| InitResult := Result; InitVolumeParams := Params; InitInstance := Inst;
           InitLog := log ++ DeviceInit_fail (Some Ioq) (Some Cache) |}
      else
        {| InitResult := STATUS_SUCCESS; InitVolumeParams := Params; InitInstance := Inst;
           InitLog := log ++ [EvKeLeaveCriticalRegion] |}.

End Fuse.

(** * Vocabulary of the statements *)

(** A context as the driver builds it: the address is a pointer value, the
    inode numbers are [UINT64], the name is a [STRING] (its [Length] is a
    [USHORT]). *)
Definition context_ok (c : FUSE_CONTEXT) : Prop :=
  is_UINT64 (Address c) /\
  is_UINT64 (Ino c) /\
  Forall is_UINT64 (ForgetList (Forget c)) /\
  is_UINT16 (Name_Length c).

(** The flags [FuseProtoSendOpen] derives from a granted access: bit 0 is
    FILE_READ_DATA, bit 1 is FILE_WRITE_DATA. *)
Definition open_flags (GrantedAccess : Z) : Z :=
  match Z.testbit GrantedAccess 0, Z.testbit GrantedAccess 1 with
  | _, false => 0         (* FILE_READ_DATA alone, or neither: O_RDONLY *)
  | false, true => 1      (* FILE_WRITE_DATA alone: O_WRONLY *)
  | true, true => 2       (* both: O_RDWR *)
  end.

(** [alloc] is [size] rounded up to a multiple of [unit]. *)
Definition rounded_up (size unit alloc : Z) : Prop :=
  alloc mod unit = 0 /\ size <= alloc < size + unit.

(** What the attribute mapping is to produce for [Attr] under [Params]. *)
Definition file_info_of `{HELPERS : FUSE_HELPERS} (Params : FSP_FSCTL_VOLUME_PARAMS)
    (Attr : FUSE_PROTO_ATTR) (FileInfo : FSP_FSCTL_FILE_INFO) : Prop :=
  let t := Z.land (attr_mode Attr) S_IFMT in
  (t = S_IFDIR ->
     FileAttributes FileInfo = FILE_ATTRIBUTE_DIRECTORY /\ ReparseTag FileInfo = 0) /\
  (t = S_IFIFO \/ t = S_IFCHR \/ t = S_IFBLK \/ t = S_IFSOCK ->
     FileAttributes FileInfo = FILE_ATTRIBUTE_REPARSE_POINT /\
     ReparseTag FileInfo = IO_REPARSE_TAG_NFS) /\
  (t = S_IFLNK ->
     FileAttributes FileInfo = FILE_ATTRIBUTE_REPARSE_POINT /\
     ReparseTag FileInfo = IO_REPARSE_TAG_SYMLINK) /\
  (t <> S_IFDIR -> t <> S_IFIFO -> t <> S_IFCHR -> t <> S_IFBLK -> t <> S_IFSOCK ->
   t <> S_IFLNK ->
     FileAttributes FileInfo = 0 /\ ReparseTag FileInfo = 0) /\
  FileSize FileInfo = attr_size Attr /\
  rounded_up (attr_size Attr)
    (SectorSize Params * SectorsPerAllocationUnit Params) (AllocationSize FileInfo) /\
  LastAccessTime FileInfo = FuseUnixTimeToFileTime (attr_atime Attr) (attr_atimensec Attr) /\
  LastWriteTime FileInfo = FuseUnixTimeToFileTime (attr_mtime Attr) (attr_mtimensec Attr) /\
  ChangeTime FileInfo = FuseUnixTimeToFileTime (attr_ctime Attr) (attr_ctimensec Attr) /\
  CreationTime FileInfo = ChangeTime FileInfo /\
  IndexNumber FileInfo = attr_ino Attr.

(** Volume parameters and attributes as their C types allow them. *)
Definition params_ok (Params : FSP_FSCTL_VOLUME_PARAMS) : Prop :=
  is_UINT16 (SectorSize Params) /\ is_UINT16 (SectorsPerAllocationUnit Params).

Definition attr_ok (Attr : FUSE_PROTO_ATTR) : Prop :=
  is_UINT64 (attr_size Attr) /\ is_UINT64 (attr_ino Attr) /\ is_UINT32 (attr_mode Attr).


(** How many tuples one BATCH_FORGET message takes: the loop goes on while
    the write position is before [FUSE_PROTO_REQ_SIZEMIN]. *)
Definition batch_capacity `{PROTO : FUSE_PROTO} : Z :=
  (FUSE_PROTO_REQ_SIZEMIN - FUSE_PROTO_REQ_SIZE m_batch_forget
     + sizeof_FUSE_PROTO_FORGET_ONE - 1) / sizeof_FUSE_PROTO_FORGET_ONE.

(** How many tuples fit between the batch-forget request and
    [FUSE_PROTO_REQ_SIZEMIN]. *)
Definition batch_fit `{PROTO : FUSE_PROTO} : Z :=
  (FUSE_PROTO_REQ_SIZEMIN - FUSE_PROTO_REQ_SIZE m_batch_forget)
    / sizeof_FUSE_PROTO_FORGET_ONE.

Definition forget_one (Ino : Z) : FUSE_PROTO_FORGET_ONE :=
  {| one_nodeid := Ino; one_nlookup := 1 |}.

(** The routines of proto.c that fill a request. *)
Inductive FILL_ROUTINE : Set :=
  | SendInit | SendLookup | FillForget (Ino0 : Z) | FillBatchForget
  | SendGetattr | SendOpen | SendOpendir.

Definition fill `{PROTO : FUSE_PROTO} `{HELPERS : FUSE_HELPERS}
    (f : FILL_ROUTINE) (c : FUSE_CONTEXT) : FUSE_CONTEXT :=
  match f with
  | SendInit => FuseProtoSendInit c
  | SendLookup => FuseProtoSendLookup c
  | FillForget Ino0 => FuseProtoFillForget Ino0 c
  | FillBatchForget => FuseProtoFillBatchForget c
  | SendGetattr => FuseProtoSendGetattr c
  | SendOpen => FuseProtoSendOpen c
  | SendOpendir => FuseProtoSendOpendir c
  end.

(** The unique a routine stamps on the request of a context. *)
Definition stamped `{PROTO : FUSE_PROTO} `{HELPERS : FUSE_HELPERS}
    (fc : FILL_ROUTINE * FUSE_CONTEXT) : Z :=
  req_unique (FuseRequest (fill (fst fc) (snd fc))).

(** * Sample data, on which the model is evaluated *)

Definition sample_context : FUSE_CONTEXT := {|
  Address := 0xFFFF800012345000;
  InternalRequest := None;
  InternalResponse := {| irsp_Size := 128; irsp_Kind := 0; irsp_Hint := 0; irsp_Status := 0 |};
  OrigUid := 1000; OrigGid := 1000; OrigPid := 4242;
  Ino := 1;
  Lookup := {| Name := [x66; x6f; x6f]; GrantedAccess := 0x120089 |};
  Forget := {| ForgetList := [] |};
  CoroState := 0;
  Fini := None;
  FuseRequest := {| req_len := 0; req_opcode := 0; req_unique := 0; req_nodeid := 0;
                    req_uid := 0; req_gid := 0; req_pid := 0; req := req_raw |};
  FuseResponse := None
|}.

Definition with_Address (a : Z) (c : FUSE_CONTEXT) : FUSE_CONTEXT :=
  {| Address := a; InternalRequest := InternalRequest c;
     InternalResponse := InternalResponse c; OrigUid := OrigUid c;
     OrigGid := OrigGid c; OrigPid := OrigPid c; Ino := Ino c;
     Lookup := Lookup c; Forget := Forget c; CoroState := CoroState c; Fini := Fini c;
     FuseRequest := FuseRequest c; FuseResponse := FuseResponse c |}.

Definition sample_params : FSP_FSCTL_VOLUME_PARAMS := {|
  SectorSize := 512; SectorsPerAllocationUnit := 8;
  CaseSensitiveSearch := false; CasePreservedNames := false; PersistentAcls := false;
  ReparsePoints := false; ReparsePointsAccessCheck := true; NamedStreams := true;
  ReadOnlyVolume := true; PostCleanupWhenModifiedOnly := false;
  PassQueryDirectoryFileName := false; DeviceControl := false;
  DirectoryMarkerAsNextOffset := false
|}.

Definition sample_attr : FUSE_PROTO_ATTR := {|
  attr_ino := 42; attr_size := 5000;
  attr_atime := 1600000000; attr_mtime := 1600000001; attr_ctime := 1600000002;
  attr_atimensec := 100; attr_mtimensec := 200; attr_ctimensec := 300;
  attr_mode := 33188                     (* 0100644: a regular file *)
|}.

(** Attributes whose size is the largest [UINT64]. *)
Definition huge_attr : FUSE_PROTO_ATTR := {|
  attr_ino := 42; attr_size := 2 ^ 64 - 1;
  attr_atime := 0; attr_mtime := 0; attr_ctime := 0;
  attr_atimensec := 0; attr_mtimensec := 0; attr_ctimensec := 0;
  attr_mode := 33188
|}.

(** 512-byte sectors, one sector per allocation unit. *)
Definition unit_512_params : FSP_FSCTL_VOLUME_PARAMS := {|
  SectorSize := 512; SectorsPerAllocationUnit := 1;
  CaseSensitiveSearch := true; CasePreservedNames := true; PersistentAcls := true;
  ReparsePoints := true; ReparsePointsAccessCheck := false; NamedStreams := false;
  ReadOnlyVolume := false; PostCleanupWhenModifiedOnly := true;
  PassQueryDirectoryFileName := true; DeviceControl := true;
  DirectoryMarkerAsNextOffset := true
|}.

(** Modelled from the spec: the step [FuseContextProcess] takes for a
    self-generated FORGET context; the dispatcher of [winfuse/context.c] is
    not part of the excerpt.  "Terminal with no internal request
    (self-generated FORGET/BATCH_FORGET finished its current batch)": the
    context is pointed at the output buffer, one fill routine of proto.c
    runs ([FuseProtoFillBatchForget] when [batch], else
    [FuseProtoFillForget]), and the step reports [Continue = FALSE]. *)
Definition FuseContextProcess_forget `{PROTO : FUSE_PROTO} (batch : bool) (Ino0 : Z)
    (cache : FUSE_CACHE) (Context : FUSE_CONTEXT) (rsp : option FUSE_PROTO_RSP)
    (out : option (FUSE_PROTO_REQ * Z)) : PROCESS_RESULT :=
  match out with
  | Some (buffer, _) =>
      let c := with_FuseRequest buffer Context in
      let c := if batch then FuseProtoFillBatchForget c
               else FuseProtoFillForget Ino0 c in
      {| Continue := false; ProcessContext := c; ProcessCache := cache;
         ProcessRequest := FuseRequest c |}
  | None =>
      {| Continue := false; ProcessContext := Context; ProcessCache := cache;
         ProcessRequest := FuseRequest Context |}
  end.

(** Collaborators whose dispatcher takes the FORGET step. *)
Definition forget_collaborators `{PROTO : FUSE_PROTO} (batch : bool) (Ino0 : Z)
    (E : COLLABORATORS) : COLLABORATORS :=
  {| FuseIoqCreate := FuseIoqCreate;
     FuseCacheCreate := FuseCacheCreate;
     FuseContextCreate := FuseContextCreate;
     FuseContextProcess := FuseContextProcess_forget batch Ino0;
     FuseContextDelete := FuseContextDelete;
     FspFsextProviderTransact_send := FspFsextProviderTransact_send;
     FspFsextProviderTransact_receive := FspFsextProviderTransact_receive;
     FsRtlCancellableWaitForSingleObject := FsRtlCancellableWaitForSingleObject;
     VersionMajor_after_wait := VersionMajor_after_wait |}.

(** A context that belongs to nobody but the driver and forgets inodes. *)
Definition is_forget_context `{PROTO : FUSE_PROTO} (c : FUSE_CONTEXT) : Prop :=
  InternalRequest c = None /\
  (irsp_Hint (InternalResponse c) = FUSE_PROTO_OPCODE_FORGET \/
   irsp_Hint (InternalResponse c) = FUSE_PROTO_OPCODE_BATCH_FORGET).

(** A transact call that brings no response and takes one request. *)
Definition request_only_irp `{PROTO : FUSE_PROTO} : IRP :=
  {| InputBufferLength := 0;
     OutputBufferLength := FUSE_PROTO_REQ_SIZEMIN;
     SystemBuffer_rsp := {| rsp_len := 0; rsp_error := 0; rsp_unique := 0 |};
     SystemBuffer_req := {| req_len := 0; req_opcode := 0; req_unique := 0;
                            req_nodeid := 0; req_uid := 0; req_gid := 0; req_pid := 0;
                            req := req_raw |};
     IoStatus_Information := 0 |}.

(** The instance after [n] such calls in a row. *)
Fixpoint after_calls `{PROTO : FUSE_PROTO} `{HELPERS : FUSE_HELPERS}
    `{ENV : COLLABORATORS} (n : nat) (Inst : FUSE_INSTANCE) : FUSE_INSTANCE :=
  match n with
  | O => Inst
  | S n => after_calls n (Instance (snd (FuseDeviceTransact Inst request_only_irp)))
  end.

(** [ceil (a / b)] for positive [b]. *)
Definition ceil_div (a b : Z) : Z := (a + b - 1) / b.

(** Sample collaborators: every constructor succeeds, a new context is a
    copy of [sample_context] bound to the request, the dispatcher sends a
    GETATTR, the host framework has no request and accepts every response,
    the wait on the init event is satisfied. *)
Definition sample_collaborators : COLLABORATORS := {|
  FuseIoqCreate := STATUS_SUCCESS;
  FuseCacheCreate := STATUS_SUCCESS;
  FuseContextCreate := fun r =>
    ContextAlive
      {| Address := Address sample_context; InternalRequest := r;
         InternalResponse := InternalResponse sample_context;
         OrigUid := 0; OrigGid := 0; OrigPid := 0; Ino := 1;
         Lookup := Lookup sample_context; Forget := Forget sample_context;
         CoroState := 0; Fini := None; FuseRequest := FuseRequest sample_context;
         FuseResponse := None |};
  FuseContextProcess := fun cache c rsp out =>
    let c := with_FuseResponse rsp c in
    let c := match out with Some (b, _) => with_FuseRequest b c | None => c end in
    let c := FuseProtoSendGetattr (PROTO := fuse7) (HELPERS := helpers0) c in
    {| Continue := coro_active c; ProcessContext := c; ProcessCache := cache;
       ProcessRequest := FuseRequest c |};
  FuseContextDelete := fun cache _ => cache;
  FspFsextProviderTransact_send := fun _ => STATUS_SUCCESS;
  FspFsextProviderTransact_receive := (STATUS_SUCCESS, None);
  FsRtlCancellableWaitForSingleObject := STATUS_SUCCESS;
  VersionMajor_after_wait := 7
|}.

(** Collaborators that run out of memory everywhere. *)
Definition failing_collaborators : COLLABORATORS := {|
  FuseIoqCreate := STATUS_SUCCESS;
  FuseCacheCreate := STATUS_INSUFFICIENT_RESOURCES;
  FuseContextCreate := fun _ => ContextStatus STATUS_INSUFFICIENT_RESOURCES;
  FuseContextProcess := FuseContextProcess (COLLABORATORS := sample_collaborators);
  FuseContextDelete := fun cache _ => cache;
  FspFsextProviderTransact_send := fun _ => STATUS_INSUFFICIENT_RESOURCES;
  FspFsextProviderTransact_receive := (STATUS_INSUFFICIENT_RESOURCES, None);
  FsRtlCancellableWaitForSingleObject := STATUS_TIMEOUT;
  VersionMajor_after_wait := 0
|}.

Definition sample_cache : FUSE_CACHE :=
  {| CacheCapacity := 0; CacheCaseInsensitive := false; CacheItems := [] |}.

(** An instance with nothing queued, at protocol version [major]. *)
Definition idle_instance (major : Z) : FUSE_INSTANCE :=
  {| VolumeParams := unit_512_params; Ioq := FuseIoqEmpty; Cache := sample_cache;
     VersionMajor := major |}.

(** A transact call with [InLen] bytes of input, a response header that
    announces [len] bytes for the request [unique], and [OutLen] bytes of
    output. *)
Definition sample_irp (InLen len unique OutLen : Z) : IRP :=
  {| InputBufferLength := InLen;
     OutputBufferLength := OutLen;
     SystemBuffer_rsp := {| rsp_len := len; rsp_error := 0; rsp_unique := unique |};
     SystemBuffer_req := FuseRequest sample_context;
     IoStatus_Information := 0 |}.

(** [s'] comes after [s]: its log continues the log of [s]. *)
Definition extends (s s' : STATE) : Prop := exists l, Log s' = Log s ++ l.

(** How many inodes one message of a FORGET context takes off its list. *)
Definition per_message `{PROTO : FUSE_PROTO} (batch : bool) : Z :=
  if batch then batch_capacity else 1.

(** The FUSE 7 constants with a minimum request size of 208 bytes: ten
    forget tuples of 16 bytes fit after the 48 bytes of a batch-forget
    request. *)
Definition ten_tuple_proto : FUSE_PROTO := {|
  FUSE_PROTO_VERSION := 7;
  FUSE_PROTO_MINOR_VERSION := 29;
  FUSE_PROTO_REQ_HEADER_SIZE := 40;
  FUSE_PROTO_RSP_HEADER_SIZE := 16;
  FUSE_PROTO_REQ_SIZEMIN := 208;
  FUSE_PROTO_REQ_SIZE := FUSE_PROTO_REQ_SIZE (FUSE_PROTO := fuse7);
  sizeof_FUSE_PROTO_FORGET_ONE := 16;
  FUSE_PROTO_OPCODE_LOOKUP := 1;
  FUSE_PROTO_OPCODE_FORGET := 2;
  FUSE_PROTO_OPCODE_GETATTR := 3;
  FUSE_PROTO_OPCODE_OPEN := 14;
  FUSE_PROTO_OPCODE_INIT := 26;
  FUSE_PROTO_OPCODE_OPENDIR := 27;
  FUSE_PROTO_OPCODE_BATCH_FORGET := 42
|}.

(** A FORGET context with seventeen inodes queued, alone in the pending
    queue of an instance. *)
Definition seventeen_context : FUSE_CONTEXT :=
  with_InternalResponse
    {| irsp_Size := 128; irsp_Kind := 0; irsp_Hint := 2; irsp_Status := 0 |}
    (with_ForgetList (map Z.of_nat (seq 1 17)) sample_context).

Definition seventeen_instance : FUSE_INSTANCE :=
  with_Ioq {| PendingList := [seventeen_context]; ProcessMap := ∅ |} (idle_instance 7).

(** * The rest of the two files *)

(** Calls made by the tear-down and expiration hooks that [FuseDeviceInit]
    and [FuseDeviceTransact] never make. *)
Inductive TEARDOWN_EVENT : Set :=
  | EvFileInstanceFini
  | EvRwlockFinalize
  | EvCacheExpirationRoutine (ExpirationTime : Z).

(** [FuseDeviceFini]: the calls it makes, in order. *)
Definition FuseDeviceFini : list (EVENT + TEARDOWN_EVENT) :=
  [inl EvKeEnterCriticalRegion;
   inl EvIoqDelete;
   inr EvFileInstanceFini;
   inl EvCacheDelete;
   inr EvRwlockFinalize;
   inl EvKeLeaveCriticalRegion].

(** [FuseDeviceExpirationRoutine]: the cache's expiration routine, inside a
    critical region. *)
Definition FuseDeviceExpirationRoutine (ExpirationTime : Z)
  : list (EVENT + TEARDOWN_EVENT) :=
  [inl EvKeEnterCriticalRegion;
   inr (EvCacheExpirationRoutine ExpirationTime);
   inl EvKeLeaveCriticalRegion].

(** How often an event satisfying [p] occurs in a log. *)
Fixpoint occurrences {A : Type} (p : A -> bool) (l : list A) : nat :=
  match l with
  | [] => O
  | e :: l => if p e then S (occurrences p l) else occurrences p l
  end.

Definition is_enter (e : EVENT + TEARDOWN_EVENT) : bool :=
  match e with inl EvKeEnterCriticalRegion => true | _ => false end.
Definition is_leave (e : EVENT + TEARDOWN_EVENT) : bool :=
  match e with inl EvKeLeaveCriticalRegion => true | _ => false end.
Definition is_ioq_create (e : EVENT + TEARDOWN_EVENT) : bool :=
  match e with inl EvIoqCreate => true | _ => false end.
Definition is_ioq_delete (e : EVENT + TEARDOWN_EVENT) : bool :=
  match e with inl EvIoqDelete => true | _ => false end.
Definition is_cache_create (e : EVENT + TEARDOWN_EVENT) : bool :=
  match e with inl (EvCacheCreate _ _) => true | _ => false end.
Definition is_cache_delete (e : EVENT + TEARDOWN_EVENT) : bool :=
  match e with inl EvCacheDelete => true | _ => false end.
Definition is_rwlock_initialize (e : EVENT + TEARDOWN_EVENT) : bool :=
  match e with inl EvRwlockInitialize => true | _ => false end.
Definition is_rwlock_finalize (e : EVENT + TEARDOWN_EVENT) : bool :=
  match e with inr EvRwlockFinalize => true | _ => false end.
Definition is_file_init (e : EVENT + TEARDOWN_EVENT) : bool :=
  match e with inl EvFileInstanceInit => true | _ => false end.
Definition is_file_fini (e : EVENT + TEARDOWN_EVENT) : bool :=
  match e with inr EvFileInstanceFini => true | _ => false end.

(** The log of [FuseDeviceInit] among the events of the whole life cycle. *)
Definition life (log : list EVENT) : list (EVENT + TEARDOWN_EVENT) := map inl log.

(** Events of one kind, for statements about what a call never does. *)
Definition is_wait (e : EVENT) : bool :=
  match e with EvWaitInitEvent => true | _ => false end.
Definition is_receive (e : EVENT) : bool :=
  match e with EvProviderReceive => true | _ => false end.
Definition is_create (e : EVENT) : bool :=
  match e with EvContextCreate => true | _ => false end.
Definition is_free (e : EVENT) : bool :=
  match e with EvFreeExternal _ => true | _ => false end.
Definition is_process (e : EVENT) : bool :=
  match e with EvContextProcess _ => true | _ => false end.
Definition is_send (e : EVENT) : bool :=
  match e with EvProviderSend _ => true | _ => false end.
Definition is_delete (e : EVENT) : bool :=
  match e with EvContextDelete _ => true | _ => false end.

(** The send routines of proto.c: the fill routines that suspend after the
    request and come back for the response. *)
Definition is_send_routine (f : FILL_ROUTINE) : bool :=
  match f with
  | SendInit | SendLookup | SendGetattr | SendOpen | SendOpendir => true
  | FillForget _ | FillBatchForget => false
  end.

(** The member of the request union a routine sizes its request by, for
    the routines whose request has a fixed size. *)
Definition fixed_size_member (f : FILL_ROUTINE) : option REQ_MEMBER :=
  match f with
  | SendInit => Some m_init
  | FillForget _ => Some m_forget
  | SendGetattr => Some m_getattr
  | SendOpen | SendOpendir => Some m_open
  | SendLookup | FillBatchForget => None
  end.

(** The inode numbers a FORGET or BATCH_FORGET request tells the daemon to
    forget. *)
Definition message_inodes (r : FUSE_PROTO_REQ) : list Z :=
  match req r with
  | req_forget _ => [req_nodeid r]
  | req_batch_forget _ items => map one_nodeid items
  | _ => []
  end.

(** The requests [n] request-only calls in a row hand out. *)
Fixpoint emitted `{PROTO : FUSE_PROTO} `{HELPERS : FUSE_HELPERS}
    `{ENV : COLLABORATORS} (n : nat) (Inst : FUSE_INSTANCE) : list FUSE_PROTO_REQ :=
  match n with
  | O => []
  | S n =>
      let r := FuseDeviceTransact Inst request_only_irp in
      Buffer (snd r) :: emitted n (Instance (snd r))
  end.

(** The FUSE 7 constants with a minimum request size of 200 bytes: the
    room after a batch-forget request (152 bytes) is not a whole number of
    16-byte tuples. *)
Definition ragged_proto : FUSE_PROTO := {|
  FUSE_PROTO_VERSION := 7;
  FUSE_PROTO_MINOR_VERSION := 29;
  FUSE_PROTO_REQ_HEADER_SIZE := 40;
  FUSE_PROTO_RSP_HEADER_SIZE := 16;
  FUSE_PROTO_REQ_SIZEMIN := 200;
  FUSE_PROTO_REQ_SIZE := FUSE_PROTO_REQ_SIZE (FUSE_PROTO := fuse7);
  sizeof_FUSE_PROTO_FORGET_ONE := 16;
  FUSE_PROTO_OPCODE_LOOKUP := 1;
  FUSE_PROTO_OPCODE_FORGET := 2;
  FUSE_PROTO_OPCODE_GETATTR := 3;
  FUSE_PROTO_OPCODE_OPEN := 14;
  FUSE_PROTO_OPCODE_INIT := 26;
  FUSE_PROTO_OPCODE_OPENDIR := 27;
  FUSE_PROTO_OPCODE_BATCH_FORGET := 42
|}.


(** How a call can end: with [STATUS_SUCCESS] and the I/O information
    either zero or the length of the request in the buffer, or with a
    failure status and the I/O information [info]. *)
Definition ends_well (info : Z) (r : Z * STATE) : Prop :=
  (fst r = STATUS_SUCCESS /\
   (Information (snd r) = 0 \/ Information (snd r) = req_len (Buffer (snd r)))) \/
  (NT_SUCCESS (fst r) = false /\ Information (snd r) = info).

(** The log of [r] continues the log of [s] by [l]. *)
Definition continues (s : STATE) (r : Z * STATE) (l : list EVENT) : Prop :=
  Log (snd r) = Log s ++ l.

(** No wait, no pull from the host, no context creation and no release of
    an internal request among the events [l]. *)
Definition quiet (l : list EVENT) : Prop :=
  occurrences is_wait l = O /\ occurrences is_receive l = O /\
  occurrences is_create l = O /\ occurrences is_free l = O.

(** Collaborators whose host has a request to give and whose context
    creation fails for it. *)
Definition busy_collaborators : COLLABORATORS := {|
  FuseIoqCreate := STATUS_SUCCESS;
  FuseCacheCreate := STATUS_SUCCESS;
  FuseContextCreate := fun _ => ContextStatus STATUS_INSUFFICIENT_RESOURCES;
  FuseContextProcess := FuseContextProcess (COLLABORATORS := sample_collaborators);
  FuseContextDelete := fun cache _ => cache;
  FspFsextProviderTransact_send := fun _ => STATUS_SUCCESS;
  FspFsextProviderTransact_receive := (STATUS_SUCCESS, Some {| ireq_Kind := 5; ireq_Hint := 9 |});
  FsRtlCancellableWaitForSingleObject := STATUS_SUCCESS;
  VersionMajor_after_wait := 7
|}.

(** A context bound to an internal request [r], suspended after it has
    emitted its request. *)
Definition suspended_context (r : option FSP_FSCTL_TRANSACT_REQ) : FUSE_CONTEXT :=
  {| Address := Address sample_context; InternalRequest := r;
     InternalResponse := InternalResponse sample_context;
     OrigUid := 0; OrigGid := 0; OrigPid := 0; Ino := 1;
     Lookup := Lookup sample_context; Forget := Forget sample_context;
     CoroState := 1; Fini := None; FuseRequest := FuseRequest sample_context;
     FuseResponse := None |}.

(** An instance with the contexts [l] pending and the contexts [m] in
    processing. *)
Definition queued_instance (l : list FUSE_CONTEXT) (m : gmap Z FUSE_CONTEXT)
  : FUSE_INSTANCE :=
  with_Ioq {| PendingList := l; ProcessMap := m |} (idle_instance 7).

(** * Properties of the encoders *)

Lemma fuse7_ok : proto_ok (PROTO := fuse7).
Proof.
  unfold proto_ok, is_UINT32. cbn.
  repeat split; try lia. all: destruct m; lia.
Qed.

Lemma sample_context_ok : context_ok sample_context.
Proof.
  unfold context_ok, is_UINT64, is_UINT16, Name_Length. cbn.
  repeat split; try lia; try discriminate. constructor.
Qed.

Section ProtoFacts.
Context `{PROTO : FUSE_PROTO} `{HELPERS : FUSE_HELPERS}.

Lemma to_UINT32_id x : is_UINT32 x -> to_UINT32 x = x.
Proof. unfold is_UINT32, to_UINT32. intros Hx. apply Z.mod_small. lia. Qed.

Lemma to_UINT64_id x : is_UINT64 x -> to_UINT64 x = x.
Proof. unfold is_UINT64, to_UINT64. intros Hx. apply Z.mod_small. lia. Qed.

(** The two low bits of an access mask select the open flags. *)
Lemma land_3_bits a :
  Z.land a 3 = Z.b2z (Z.testbit a 0) + 2 * Z.b2z (Z.testbit a 1).
Proof.
  change 3 with (Z.ones 2). rewrite Z.land_ones by lia.
  rewrite (Z.testbit_spec' a 0), (Z.testbit_spec' a 1) by lia.
  change (2 ^ 0) with 1. change (2 ^ 1) with 2. change (2 ^ 2) with 4.
  rewrite Z.div_1_r.
  pose proof (Z.div_mod a 4). pose proof (Z.mod_pos_bound a 4).
  pose proof (Z.div_mod a 2). pose proof (Z.mod_pos_bound a 2).
  pose proof (Z.div_mod (a / 2) 2). pose proof (Z.mod_pos_bound (a / 2) 2).
  lia.
Qed.

(** C10.  On its first entry [FuseProtoSendOpen] writes the open flags
    O_RDONLY (0) when the granted access has FILE_READ_DATA alone or neither
    of FILE_READ_DATA and FILE_WRITE_DATA, O_WRONLY (1) when it has
    FILE_WRITE_DATA alone and O_RDWR (2) when it has both; two granted
    accesses that agree on these two bits give the same flags. *)
Theorem FuseProtoSendOpen_flags (Context : FUSE_CONTEXT) :
  CoroState Context = 0 ->
  let GA := GrantedAccess (Lookup Context) in
  let flags := open_flags GA in
  req (FuseRequest (FuseProtoSendOpen Context)) = req_open flags /\
  (Z.land GA (Z.lor FILE_READ_DATA FILE_WRITE_DATA) = 0 -> flags = 0) /\
  (Z.land GA (Z.lor FILE_READ_DATA FILE_WRITE_DATA) = FILE_READ_DATA -> flags = 0) /\
  (Z.land GA (Z.lor FILE_READ_DATA FILE_WRITE_DATA) = FILE_WRITE_DATA -> flags = 1) /\
  (Z.land GA (Z.lor FILE_READ_DATA FILE_WRITE_DATA) = Z.lor FILE_READ_DATA FILE_WRITE_DATA
     -> flags = 2) /\
  (forall Context' : FUSE_CONTEXT,
     CoroState Context' = 0 ->
     Z.land (GrantedAccess (Lookup Context')) (Z.lor FILE_READ_DATA FILE_WRITE_DATA)
       = Z.land GA (Z.lor FILE_READ_DATA FILE_WRITE_DATA) ->
     req (FuseRequest (FuseProtoSendOpen Context'))
       = req (FuseRequest (FuseProtoSendOpen Context))).
Proof.
  intros Hentry GA flags.
  assert (Hsel : forall c, CoroState c = 0 ->
            req (FuseRequest (FuseProtoSendOpen c))
              = req_open (open_flags (GrantedAccess (Lookup c)))).
  { intros c Hc. unfold FuseProtoSendOpen. rewrite Hc. cbn.
    f_equal. change (Z.lor FILE_READ_DATA FILE_WRITE_DATA) with 3.
    rewrite land_3_bits. unfold open_flags, FILE_READ_DATA, FILE_WRITE_DATA.
    destruct (Z.testbit _ 0), (Z.testbit _ 1); reflexivity. }
  assert (Hbits : forall a, open_flags a =
            match Z.land a 3 with 2 => 1 | 3 => 2 | _ => 0 end).
  { intros a. rewrite land_3_bits. unfold open_flags.
    destruct (Z.testbit a 0), (Z.testbit a 1); reflexivity. }
  change (Z.lor FILE_READ_DATA FILE_WRITE_DATA) with 3.
  unfold FILE_READ_DATA, FILE_WRITE_DATA.
  repeat split.
  - apply Hsel, Hentry.
  - intros E. subst flags. rewrite Hbits, E. reflexivity.
  - intros E. subst flags. rewrite Hbits, E. reflexivity.
  - intros E. subst flags. rewrite Hbits, E. reflexivity.
  - intros E. subst flags. rewrite Hbits, E. reflexivity.
  - intros c' Hc' E. rewrite (Hsel c' Hc'), (Hsel Context Hentry).
    f_equal. rewrite !Hbits. subst GA. rewrite E. reflexivity.
Qed.

End ProtoFacts.

Lemma FuseProtoSendOpen_flags_witness :
  req (FuseRequest (FuseProtoSendOpen (PROTO := fuse7) (HELPERS := helpers0) sample_context))
    = req_open 0.
Proof.
  exact (proj1 (FuseProtoSendOpen_flags (PROTO := fuse7) (HELPERS := helpers0)
                  sample_context eq_refl)).
Defined.

(** ** The attribute mapping *)

Section AttrFacts.
Context `{HELPERS : FUSE_HELPERS}.

Lemma mode_attributes_cases mode :
  let t := Z.land mode S_IFMT in
  (t = S_IFDIR -> mode_attributes mode = (FILE_ATTRIBUTE_DIRECTORY, 0)) /\
  (t = S_IFIFO \/ t = S_IFCHR \/ t = S_IFBLK \/ t = S_IFSOCK ->
     mode_attributes mode = (FILE_ATTRIBUTE_REPARSE_POINT, IO_REPARSE_TAG_NFS)) /\
  (t = S_IFLNK ->
     mode_attributes mode = (FILE_ATTRIBUTE_REPARSE_POINT, IO_REPARSE_TAG_SYMLINK)) /\
  (t <> S_IFDIR -> t <> S_IFIFO -> t <> S_IFCHR -> t <> S_IFBLK -> t <> S_IFSOCK ->
   t <> S_IFLNK -> mode_attributes mode = (0, 0)).
Proof.
  intros t. unfold mode_attributes. fold t.
  repeat split.
  - intros ->. reflexivity.
  - intros [-> | [-> | [-> | ->]]]; reflexivity.
  - intros ->. reflexivity.
  - intros H1 H2 H3 H4 H5 H6.
    repeat match goal with
           | |- context [?a =? ?b] => destruct (Z.eqb_spec a b); try contradiction
           end.
    reflexivity.
Qed.

(** Rounding up in [UINT64]: exact as long as the sum does not leave the
    range. *)
Lemma round_up_UINT64 size unit :
  0 <= size -> 0 < unit -> size + unit - 1 < 2 ^ 64 ->
  rounded_up size unit
    (to_UINT64 (to_UINT64 (to_UINT64 (size + unit) - 1) / unit * unit)).
Proof.
  intros Hs Hu Hfit. unfold to_UINT64.
  rewrite Zminus_mod_idemp_l.
  rewrite (Z.mod_small (size + unit - 1)) by lia.
  pose proof (Z.div_mod (size + unit - 1) unit ltac:(lia)) as Hdm.
  pose proof (Z.mod_pos_bound (size + unit - 1) unit Hu) as Hmb.
  assert (Hq : 0 <= (size + unit - 1) / unit) by (apply Z.div_pos; lia).
  rewrite Z.mod_small by nia.
  unfold rounded_up. split.
  - apply Z.mod_mul. lia.
  - nia.
Qed.

(** C5 (amended).  For volume parameters and an attribute record within
    their C types, with a non-zero allocation unit
    [sector_size * sectors_per_allocation_unit] and a file size that can be
    rounded up to it within 64 bits, [FuseAttrToFileInfo] yields a file
    info with: the directory attribute and a zero tag for a directory mode;
    the reparse-point attribute and the NFS tag for FIFO, character-device,
    block-device and socket modes; the reparse-point attribute and the
    symlink tag for a symlink mode; zero attributes and a zero tag for any
    other mode; the file size copied; the allocation size equal to the file
    size rounded up to a multiple of the allocation unit; atime, mtime and
    ctime converted to the access, write and change times; the creation
    time equal to the change time; the inode number as the index number. *)
Theorem FuseAttrToFileInfo_correct (Params : FSP_FSCTL_VOLUME_PARAMS)
    (Attr : FUSE_PROTO_ATTR) :
  params_ok Params -> attr_ok Attr ->
  0 < SectorSize Params * SectorsPerAllocationUnit Params ->
  attr_size Attr + SectorSize Params * SectorsPerAllocationUnit Params - 1 < 2 ^ 64 ->
  exists FileInfo,
    FuseAttrToFileInfo Params Attr = Some FileInfo /\
    file_info_of Params Attr FileInfo.
Proof.
  intros [Hss Hspau] (Hsize & Hino & Hmode) Hunit Hfit.
  unfold is_UINT16 in Hss, Hspau. unfold is_UINT64 in Hsize.
  set (unit := SectorSize Params * SectorsPerAllocationUnit Params) in *.
  assert (Hu64 : to_UINT64 (to_UINT64 (SectorSize Params) *
                            to_UINT64 (SectorsPerAllocationUnit Params)) = unit).
  { rewrite (to_UINT64_id (SectorSize Params)) by (unfold is_UINT64; lia).
    rewrite (to_UINT64_id (SectorsPerAllocationUnit Params)) by (unfold is_UINT64; lia).
    apply to_UINT64_id. unfold is_UINT64. subst unit. nia. }
  unfold FuseAttrToFileInfo. rewrite Hu64.
  destruct (mode_attributes_cases (attr_mode Attr)) as (Hdir & Hnfs & Hlnk & Hother).
  destruct (mode_attributes (attr_mode Attr)) as [attributes tag] eqn:Hma.
  destruct (Z.eqb_spec unit 0) as [E | _]; [lia |].
  eexists. split; [reflexivity |].
  unfold file_info_of; cbn.
  split; [intros E; specialize (Hdir E); split; congruence |].
  split; [intros E; specialize (Hnfs E); split; congruence |].
  split; [intros E; specialize (Hlnk E); split; congruence |].
  split.
  { intros. assert (E : (attributes, tag) = (0, 0)) by auto. split; congruence. }
  split; [reflexivity |].
  split; [apply round_up_UINT64; lia |].
  repeat split; reflexivity.
Qed.

End AttrFacts.

Lemma FuseAttrToFileInfo_correct_witness :
  exists FileInfo,
    FuseAttrToFileInfo (HELPERS := helpers0) sample_params sample_attr = Some FileInfo /\
    file_info_of (HELPERS := helpers0) sample_params sample_attr FileInfo.
Proof.
  apply (FuseAttrToFileInfo_correct (HELPERS := helpers0) sample_params sample_attr).
  - unfold params_ok, is_UINT16; cbn; lia.
  - unfold attr_ok, is_UINT64, is_UINT32; cbn; lia.
  - cbn; lia.
  - cbn; lia.
Defined.

(** C5, as stated, fails: with 512-byte sectors, one sector per allocation
    unit and a file size of 2^64 - 1 the sum [size + unit - 1] wraps around
    and the allocation size comes out as 0, below the file size. *)
Lemma FuseAttrToFileInfo_counterexample :
  params_ok unit_512_params /\ attr_ok huge_attr /\
  (exists FileInfo,
     FuseAttrToFileInfo (HELPERS := helpers0) unit_512_params huge_attr = Some FileInfo /\
     FileSize FileInfo = 2 ^ 64 - 1 /\ AllocationSize FileInfo = 0) /\
  ~ (exists FileInfo,
       FuseAttrToFileInfo (HELPERS := helpers0) unit_512_params huge_attr = Some FileInfo /\
       file_info_of (HELPERS := helpers0) unit_512_params huge_attr FileInfo).
Proof.
  split; [unfold params_ok, is_UINT16; cbn; lia |].
  split; [unfold attr_ok, is_UINT64, is_UINT32; cbn; lia |].
  split.
  - eexists. split; [vm_compute; reflexivity |]. split; reflexivity.
  - intros (fi & Hfi & Hspec).
    vm_compute in Hfi. injection Hfi as <-.
    destruct Hspec as (_ & _ & _ & _ & _ & Hround & _).
    unfold rounded_up in Hround. cbn in Hround. lia.
Qed.

(** ** The request encoders *)

Section EncoderFacts.
Context `{PROTO : FUSE_PROTO} `{HELPERS : FUSE_HELPERS}.

Lemma FuseProtoInitRequest_unique c len opcode nodeid :
  req_unique (FuseRequest (FuseProtoInitRequest c len opcode nodeid))
    = to_UINT64 (Address c).
Proof. reflexivity. Qed.

Lemma fill_unique f c :
  CoroState c = 0 ->
  req_unique (FuseRequest (fill f c)) = to_UINT64 (Address c).
Proof.
  intros Hentry.
  destruct f; cbn [fill];
    unfold FuseProtoSendInit, FuseProtoSendLookup, FuseProtoSendGetattr,
      FuseProtoSendOpen, FuseProtoSendOpendir, FuseProtoFillForget,
      FuseProtoFillBatchForget;
    rewrite ?Hentry; cbn [Z.eqb];
    repeat match goal with
           | |- context [let '(_, _) := ?x in _] => destruct x
           end;
    reflexivity.
Qed.

(** C4.  Every fill routine of proto.c stamps the request's [unique] with
    the address of the context it fills for; hence the uniques stamped for
    two contexts at distinct addresses differ, and among live contexts
    (which occupy distinct addresses) no two requests share a unique. *)
Theorem unique_is_context_address :
  (forall f c, context_ok c -> CoroState c = 0 -> stamped (f, c) = Address c) /\
  (forall f1 c1 f2 c2,
     context_ok c1 -> context_ok c2 -> CoroState c1 = 0 -> CoroState c2 = 0 ->
     Address c1 <> Address c2 -> stamped (f1, c1) <> stamped (f2, c2)) /\
  (forall live : list (FILL_ROUTINE * FUSE_CONTEXT),
     Forall (fun fc => context_ok (snd fc) /\ CoroState (snd fc) = 0) live ->
     NoDup (map (fun fc => Address (snd fc)) live) ->
     NoDup (map stamped live)).
Proof.
  assert (Hstamp : forall f c, context_ok c -> CoroState c = 0 ->
                     stamped (f, c) = Address c).
  { intros f c (Haddr & _) Hentry. unfold stamped. cbn [fst snd].
    rewrite fill_unique by assumption. apply to_UINT64_id, Haddr. }
  split; [exact Hstamp |]. split.
  - intros f1 c1 f2 c2 Hok1 Hok2 He1 He2 Hne.
    rewrite !Hstamp by assumption. exact Hne.
  - intros live Hlive Hnodup.
    replace (map stamped live) with (map (fun fc => Address (snd fc)) live);
      [exact Hnodup |].
    induction Hlive as [| [f c] live [Hok He] _ IH]; [reflexivity |].
    cbn [map]. rewrite IH by (inversion Hnodup; assumption).
    f_equal. symmetry. apply Hstamp; assumption.
Qed.


(** The loop of [FuseProtoFillBatchForget] takes the first
    [min (length l) (ceil ((EndP - P) / sizeof tuple))] items. *)
Lemma FillBatchForget_loop_spec EndP :
  0 < sizeof_FUSE_PROTO_FORGET_ONE ->
  forall l P,
    let k := Z.to_nat (Z.min (Z.of_nat (length l))
               (Z.max 0 ((EndP - P + sizeof_FUSE_PROTO_FORGET_ONE - 1)
                           / sizeof_FUSE_PROTO_FORGET_ONE))) in
    FillBatchForget_loop EndP P l =
      (P + Z.of_nat k * sizeof_FUSE_PROTO_FORGET_ONE,
       map (fun Ino => forget_one (to_UINT64 Ino)) (take k l),
       drop k l).
Proof.
  intros Hsz. set (sz := sizeof_FUSE_PROTO_FORGET_ONE) in *.
  assert (Hcap : forall P, EndP <= P -> (EndP - P + sz - 1) / sz <= 0).
  { intros P HP. apply Z.lt_succ_r. apply Z.div_lt_upper_bound; lia. }
  assert (Hcap' : forall P, P < EndP -> 1 <= (EndP - P + sz - 1) / sz).
  { intros P HP. apply Z.div_le_lower_bound; lia. }
  assert (Hstep : forall P, (EndP - (P + sz) + sz - 1) / sz = (EndP - P + sz - 1) / sz - 1).
  { intros P. replace (EndP - (P + sz) + sz - 1) with (EndP - P + sz - 1 + (-1) * sz) by lia.
    rewrite Z.div_add by lia. lia. }
  induction l as [| Ino rest IH]; intros P k.
  - subst k. cbn [length FillBatchForget_loop].
    replace (Z.to_nat _) with 0%nat by lia.
    destruct (EndP >? P); cbn; f_equal; f_equal; lia.
  - cbn [FillBatchForget_loop]. fold sz.
    destruct (Z.gtb_spec EndP P) as [Hlt | Hge].
    + rewrite IH. rewrite Hstep.
      specialize (Hcap' P Hlt).
      set (cap := (EndP - P + sz - 1) / sz) in *.
      assert (Hk : k = S (Z.to_nat (Z.min (Z.of_nat (length rest)) (Z.max 0 (cap - 1))))).
      { subst k. cbn [length]. lia. }
      rewrite Hk. cbn [take drop map]. unfold forget_one at 2.
      do 2 f_equal. lia.
    + specialize (Hcap P Hge).
      assert (Hk : k = 0%nat) by (subst k; lia).
      rewrite Hk. cbn. f_equal. f_equal. lia.
Qed.

Lemma batch_capacity_pos : proto_ok -> 1 <= batch_capacity.
Proof.
  intros (_ & _ & Hsz & Hone & _). unfold batch_capacity.
  apply Z.div_le_lower_bound; lia.
Qed.

Lemma batch_fit_pos : proto_ok -> 1 <= batch_fit.
Proof.
  intros (_ & _ & Hsz & Hone & _). unfold batch_fit.
  apply Z.div_le_lower_bound; lia.
Qed.

Lemma batch_fit_le_capacity : proto_ok -> batch_fit <= batch_capacity.
Proof.
  intros (_ & _ & Hsz & _). unfold batch_fit, batch_capacity.
  apply Z.div_le_mono; lia.
Qed.

(** What one call of [FuseProtoFillBatchForget] does to a context. *)
Lemma FuseProtoFillBatchForget_spec (Context : FUSE_CONTEXT) :
  proto_ok ->
  let l := ForgetList (Forget Context) in
  let k := Z.min (Z.of_nat (length l)) batch_capacity in
  let c := FuseProtoFillBatchForget Context in
  req_opcode (FuseRequest c) = FUSE_PROTO_OPCODE_BATCH_FORGET /\
  req_nodeid (FuseRequest c) = 0 /\
  req (FuseRequest c) =
    req_batch_forget k (map (fun Ino => forget_one (to_UINT64 Ino)) (take (Z.to_nat k) l)) /\
  req_len (FuseRequest c) =
    FUSE_PROTO_REQ_SIZE m_batch_forget + k * sizeof_FUSE_PROTO_FORGET_ONE /\
  ForgetList (Forget c) = drop (Z.to_nat k) l /\
  Address c = Address Context /\
  InternalRequest c = InternalRequest Context /\
  InternalResponse c = InternalResponse Context.
Proof.
  intros Hok l k c. pose proof (batch_capacity_pos Hok) as Hcap.
  destruct Hok as (Hop & Hsize & Hsz & Hone & Hmin & Hsz16 & _).
  destruct Hop as (_ & _ & _ & _ & _ & _ & Hbatch).
  pose proof (Hsize m_batch_forget) as HBF.
  subst c. unfold FuseProtoFillBatchForget.
  rewrite (FillBatchForget_loop_spec _ Hsz). fold l.
  replace (FUSE_PROTO_REQ_SIZE m_batch_forget +
           (FUSE_PROTO_REQ_SIZEMIN - FUSE_PROTO_REQ_SIZE m_batch_forget)
           - FUSE_PROTO_REQ_SIZE m_batch_forget + sizeof_FUSE_PROTO_FORGET_ONE - 1)
    with (FUSE_PROTO_REQ_SIZEMIN - FUSE_PROTO_REQ_SIZE m_batch_forget
          + sizeof_FUSE_PROTO_FORGET_ONE - 1) by lia.
  fold batch_capacity. rewrite (Z.max_r 0 batch_capacity) by lia. fold k.
  assert (Hk0 : 0 <= k) by (subst k; lia).
  assert (Hkc : k <= batch_capacity) by (subst k; lia).
  rewrite Z2Nat.id by exact Hk0.
  assert (Hbytes : k * sizeof_FUSE_PROTO_FORGET_ONE
                   <= FUSE_PROTO_REQ_SIZEMIN - FUSE_PROTO_REQ_SIZE m_batch_forget
                      + sizeof_FUSE_PROTO_FORGET_ONE - 1).
  { unfold batch_capacity in Hkc.
    pose proof (Z.mul_div_le (FUSE_PROTO_REQ_SIZEMIN - FUSE_PROTO_REQ_SIZE m_batch_forget
                              + sizeof_FUSE_PROTO_FORGET_ONE - 1)
                  sizeof_FUSE_PROTO_FORGET_ONE Hsz).
    nia. }
  cbn.
  replace (FUSE_PROTO_REQ_SIZE m_batch_forget + k * sizeof_FUSE_PROTO_FORGET_ONE
           - FUSE_PROTO_REQ_SIZE m_batch_forget)
    with (k * sizeof_FUSE_PROTO_FORGET_ONE) by lia.
  rewrite Z.div_mul by lia.
  rewrite (to_UINT32_id _ Hbatch).
  rewrite (to_UINT32_id k) by (unfold is_UINT32; nia).
  rewrite !(to_UINT32_id (FUSE_PROTO_REQ_SIZE m_batch_forget + _))
    by (unfold is_UINT32; nia).
  repeat split; reflexivity.
Qed.

(** C7.  [FuseProtoFillForget] emits a request with opcode FORGET carrying
    one inode taken off the context's forget list, with [nlookup = 1];
    [FuseProtoFillBatchForget] packs [(nodeid, nlookup = 1)] tuples off the
    forget list until the write position has reached
    [FUSE_PROTO_REQ_SIZEMIN] or the list is exhausted, sets the request
    length to the bytes written and [count] to the number of tuples. *)
Theorem Forget_fill_correct (Context : FUSE_CONTEXT) :
  proto_ok -> context_ok Context ->
  (forall Ino0 ino rest,
     ForgetList (Forget Context) = ino :: rest ->
     let c := FuseProtoFillForget Ino0 Context in
     req_opcode (FuseRequest c) = FUSE_PROTO_OPCODE_FORGET /\
     req_len (FuseRequest c) = FUSE_PROTO_REQ_SIZE m_forget /\
     req_nodeid (FuseRequest c) = ino /\
     req (FuseRequest c) = req_forget 1 /\
     ForgetList (Forget c) = rest) /\
  (let l := ForgetList (Forget Context) in
   let k := Z.min (Z.of_nat (length l)) batch_capacity in
   let c := FuseProtoFillBatchForget Context in
   req_opcode (FuseRequest c) = FUSE_PROTO_OPCODE_BATCH_FORGET /\
   req (FuseRequest c) = req_batch_forget k (map forget_one (take (Z.to_nat k) l)) /\
   req_len (FuseRequest c) =
     FUSE_PROTO_REQ_SIZE m_batch_forget + k * sizeof_FUSE_PROTO_FORGET_ONE /\
   ForgetList (Forget c) = drop (Z.to_nat k) l /\
   (ForgetList (Forget c) = [] \/ FUSE_PROTO_REQ_SIZEMIN <= req_len (FuseRequest c)) /\
   (0 < k ->
    FUSE_PROTO_REQ_SIZE m_batch_forget + (k - 1) * sizeof_FUSE_PROTO_FORGET_ONE
      < FUSE_PROTO_REQ_SIZEMIN)).
Proof.
  intros Hok (_ & _ & Hinos & _). split.
  - intros Ino0 ino rest Hl c.
    destruct Hok as (Hop & Hsize & _ & _ & Hmin & _).
    destruct Hop as (_ & Hforget & _).
    pose proof (Hsize m_forget) as HF.
    rewrite Hl in Hinos. apply Forall_cons_1 in Hinos as [Hino _].
    subst c. unfold FuseProtoFillForget. rewrite Hl. cbn.
    rewrite (to_UINT32_id _ Hforget), (to_UINT64_id _ Hino).
    rewrite to_UINT32_id by (unfold is_UINT32; lia).
    repeat split; reflexivity.
  - intros l k c.
    destruct (FuseProtoFillBatchForget_spec Context Hok)
      as (Hopc & _ & Hreq & Hlen & Hrest & _).
    fold l k c in Hopc, Hreq, Hlen, Hrest.
    pose proof (batch_capacity_pos Hok) as Hcap.
    destruct Hok as (_ & Hsize & Hsz & Hone & _).
    pose proof (Hsize m_batch_forget) as HBF.
    assert (Hk0 : 0 <= k) by (subst k; lia).
    split; [exact Hopc |]. split.
    { rewrite Hreq. f_equal.
      apply map_ext_in. intros i Hi. f_equal. apply to_UINT64_id.
      apply list_elem_of_In in Hi. apply elem_of_take in Hi as (n & Hn & _).
      eapply Forall_lookup_1; eauto. }
    split; [exact Hlen |]. split; [exact Hrest |]. split.
    + rewrite Hrest, Hlen.
      destruct (Z.le_gt_cases (Z.of_nat (length l)) batch_capacity) as [Hall | Hcut].
      * left. apply drop_ge. subst k. lia.
      * right. assert (Hk : k = batch_capacity) by (subst k; lia). rewrite Hk.
        unfold batch_capacity.
        set (span := FUSE_PROTO_REQ_SIZEMIN - FUSE_PROTO_REQ_SIZE m_batch_forget).
        set (sz := sizeof_FUSE_PROTO_FORGET_ONE) in *.
        assert (Hnz : sz <> 0) by lia.
        pose proof (Z.div_mod (span + sz - 1) sz Hnz).
        pose proof (Z.mod_pos_bound (span + sz - 1) sz Hsz).
        nia.
    + intros Hk. assert (Hkc : k <= batch_capacity) by (subst k; lia).
      unfold batch_capacity in Hkc.
      set (span := FUSE_PROTO_REQ_SIZEMIN - FUSE_PROTO_REQ_SIZE m_batch_forget) in *.
      pose proof (Z.mul_div_le (span + sizeof_FUSE_PROTO_FORGET_ONE - 1)
                    sizeof_FUSE_PROTO_FORGET_ONE Hsz).
      assert (Hsz0 : 0 <= sizeof_FUSE_PROTO_FORGET_ONE) by lia.
      pose proof (Z.mul_le_mono_nonneg_r _ _ _ Hsz0 Hkc).
      lia.
Qed.

(** [FuseProtoSendCreate] is a stub: it leaves the request as it is and
    does not suspend. *)
Lemma FuseProtoSendCreate_fills_nothing c :
  FuseRequest (FuseProtoSendCreate c) = FuseRequest c /\
  coro_active (FuseProtoSendCreate c) = false.
Proof. split; reflexivity. Qed.

(** The assertion of [FuseProtoFillForget] is that the list has an item. *)
Lemma FuseProtoFillForget_assert_iff c :
  FuseProtoFillForget_assert c = true <-> ForgetList (Forget c) <> [].
Proof.
  unfold FuseProtoFillForget_assert. rewrite bool_decide_eq_true.
  destruct (ForgetList (Forget c)) as [| ino rest]; cbn.
  - split; [intros [x Hx]; discriminate | congruence].
  - split; [discriminate | eauto].
Qed.

(** The assertion of [FuseProtoFillBatchForget] holds when the room after
    the batch-forget request is a whole number of tuples, as it is for the
    FUSE 7 sizes (8192 - 48 = 509 * 16). *)
Lemma FuseProtoFillBatchForget_assert_holds c :
  proto_ok ->
  (FUSE_PROTO_REQ_SIZEMIN - FUSE_PROTO_REQ_SIZE m_batch_forget)
    mod sizeof_FUSE_PROTO_FORGET_ONE = 0 ->
  FuseProtoFillBatchForget_assert c = true.
Proof.
  intros Hok Hdiv.
  destruct (FuseProtoFillBatchForget_spec c Hok) as (_ & _ & _ & Hlen & _).
  unfold FuseProtoFillBatchForget_assert, len_within_SIZEMIN.
  rewrite Hlen. apply Z.geb_le.
  destruct Hok as (_ & _ & Hsz & _).
  set (span := FUSE_PROTO_REQ_SIZEMIN - FUSE_PROTO_REQ_SIZE m_batch_forget) in *.
  set (sz := sizeof_FUSE_PROTO_FORGET_ONE) in *.
  set (k := Z.min _ _).
  assert (Hcap : batch_capacity = span / sz).
  { unfold batch_capacity. fold span sz.
    assert (Hnz : sz <> 0) by lia.
    pose proof (Z.div_mod span sz Hnz) as Hdm. rewrite Hdiv in Hdm.
    symmetry. apply Z.div_unique with (r := sz - 1); lia. }
  assert (Hk : k <= span / sz) by (subst k; lia).
  assert (Hsz0 : 0 <= sz) by lia.
  pose proof (Z.mul_le_mono_nonneg_r _ _ _ Hsz0 Hk) as Hmul.
  assert (Hnz : sz <> 0) by lia.
  pose proof (Z.div_mod span sz Hnz) as Hdm. rewrite Hdiv in Hdm.
  subst span. lia.
Qed.

End EncoderFacts.

Lemma unique_is_context_address_witness :
  stamped (PROTO := fuse7) (HELPERS := helpers0) (SendLookup, sample_context)
    = Address sample_context /\
  stamped (PROTO := fuse7) (HELPERS := helpers0) (SendLookup, sample_context)
    <> stamped (PROTO := fuse7) (HELPERS := helpers0)
         (FillBatchForget, with_Address 0xFFFF800012346000 sample_context).
Proof.
  pose proof (unique_is_context_address (PROTO := fuse7) (HELPERS := helpers0))
    as (Hstamp & Hdiffer & _).
  assert (Hok : context_ok (with_Address 0xFFFF800012346000 sample_context)).
  { unfold context_ok, is_UINT64, is_UINT16, Name_Length. cbn.
    repeat split; try lia; try discriminate. constructor. }
  split.
  - apply Hstamp; [exact sample_context_ok | reflexivity].
  - apply Hdiffer;
      [exact sample_context_ok | exact Hok | reflexivity | reflexivity | cbn; lia].
Defined.


(** A context with 1100 queued inodes: more than one BATCH_FORGET takes. *)
Lemma Forget_fill_correct_witness :
  let Context := with_ForgetList (map Z.of_nat (seq 1 1100)) sample_context in
  req_len (FuseRequest (FuseProtoFillBatchForget (PROTO := fuse7) Context)) = 8192 /\
  length (ForgetList (Forget (FuseProtoFillBatchForget (PROTO := fuse7) Context)))
    = 591%nat /\
  req_nodeid (FuseRequest (FuseProtoFillForget (PROTO := fuse7) 0 Context)) = 1.
Proof.
  intros Context.
  assert (Hok : context_ok Context).
  { unfold context_ok, is_UINT64, is_UINT16, Name_Length. cbn -[seq].
    repeat split; try lia; try discriminate.
    apply Forall_forall. intros x Hx.
    apply list_elem_of_In, in_map_iff in Hx as (n & <- & Hn).
    apply in_seq in Hn. lia. }
  destruct (Forget_fill_correct (PROTO := fuse7) Context fuse7_ok Hok)
    as (Hforget & _ & _ & Hlen & Hrest & _).
  split; [rewrite Hlen; vm_compute; reflexivity |].
  split; [rewrite Hrest; vm_compute; reflexivity |].
  apply (Hforget 0 1 (map Z.of_nat (seq 2 1099))). reflexivity.
Defined.

(** * Properties of the transact engine *)

Section TransactFacts.
Context `{PROTO : FUSE_PROTO} `{HELPERS : FUSE_HELPERS} `{ENV : COLLABORATORS}.

Lemma bad_response_iff Irp :
  bad_response Irp = true <->
  InputBufferLength Irp <> 0 /\
  (InputBufferLength Irp < FUSE_PROTO_RSP_HEADER_SIZE \/
   rsp_len (SystemBuffer_rsp Irp) < FUSE_PROTO_RSP_HEADER_SIZE \/
   InputBufferLength Irp < rsp_len (SystemBuffer_rsp Irp)).
Proof.
  unfold bad_response.
  rewrite andb_true_iff, !orb_true_iff, negb_true_iff, Z.eqb_neq, !Z.gtb_gt.
  lia.
Qed.

Lemma small_request_iff Irp :
  small_request Irp = true <->
  OutputBufferLength Irp <> 0 /\ OutputBufferLength Irp < FUSE_PROTO_REQ_SIZEMIN.
Proof.
  unfold small_request.
  rewrite andb_true_iff, negb_true_iff, Z.eqb_neq, Z.gtb_gt. lia.
Qed.

(** C1 (amended).  For every transact call: if the input buffer is
    non-empty and its length is below RSP_HEADER_SIZE, or the response's
    [len] is below RSP_HEADER_SIZE, or [len] exceeds the input buffer
    length, the call returns INVALID_PARAMETER; if the input buffer passes
    that check (it is empty or well-formed) and the output buffer is
    non-empty with a length below REQ_SIZEMIN, the call returns
    BUFFER_TOO_SMALL; on either failure the call returns with the instance
    (IOQ and cache) untouched and no call made; a call whose buffers pass
    both checks, such as an output buffer of exactly REQ_SIZEMIN and a
    response with [len] exactly RSP_HEADER_SIZE, goes on to the two
    half-steps. *)
Theorem FuseDeviceTransact_validation (Inst : FUSE_INSTANCE) (Irp : IRP) :
  let InLen := InputBufferLength Irp in
  let OutLen := OutputBufferLength Irp in
  let len := rsp_len (SystemBuffer_rsp Irp) in
  let untouched (s : STATE) := Instance s = Inst /\ Log s = [] in
  let well_formed :=
    InLen = 0 \/
    (FUSE_PROTO_RSP_HEADER_SIZE <= InLen /\ FUSE_PROTO_RSP_HEADER_SIZE <= len <= InLen) in
  (InLen <> 0 ->
   InLen < FUSE_PROTO_RSP_HEADER_SIZE \/ len < FUSE_PROTO_RSP_HEADER_SIZE \/ InLen < len ->
   fst (FuseDeviceTransact Inst Irp) = STATUS_INVALID_PARAMETER /\
   untouched (snd (FuseDeviceTransact Inst Irp))) /\
  (well_formed -> OutLen <> 0 -> OutLen < FUSE_PROTO_REQ_SIZEMIN ->
   fst (FuseDeviceTransact Inst Irp) = STATUS_BUFFER_TOO_SMALL /\
   untouched (snd (FuseDeviceTransact Inst Irp))) /\
  (well_formed -> OutLen = 0 \/ FUSE_PROTO_REQ_SIZEMIN <= OutLen ->
   FuseDeviceTransact Inst Irp = transact_response Irp (transact_enter Inst Irp)) /\
  (InLen <> 0 -> InLen = FUSE_PROTO_RSP_HEADER_SIZE -> len = FUSE_PROTO_RSP_HEADER_SIZE ->
   OutLen = FUSE_PROTO_REQ_SIZEMIN ->
   FuseDeviceTransact Inst Irp = transact_response Irp (transact_enter Inst Irp)).
Proof.
  intros InLen OutLen len untouched well_formed.
  assert (Hwf : well_formed -> bad_response Irp = false).
  { intros Hw. apply not_true_is_false. rewrite bad_response_iff.
    fold InLen len. subst well_formed. cbv beta in Hw. lia. }
  assert (Hpass : well_formed -> OutLen = 0 \/ FUSE_PROTO_REQ_SIZEMIN <= OutLen ->
            FuseDeviceTransact Inst Irp = transact_response Irp (transact_enter Inst Irp)).
  { intros Hw Hout. unfold FuseDeviceTransact. rewrite (Hwf Hw).
    replace (small_request Irp) with false; [reflexivity |].
    symmetry. apply not_true_is_false. rewrite small_request_iff. fold OutLen. lia. }
  split; [| split; [| split]].
  - intros Hne Hbad. unfold FuseDeviceTransact.
    replace (bad_response Irp) with true
      by (symmetry; apply bad_response_iff; fold InLen len; tauto).
    cbn. subst untouched. cbn. auto.
  - intros Hw Hne Hsmall. unfold FuseDeviceTransact. rewrite (Hwf Hw).
    replace (small_request Irp) with true
      by (symmetry; apply small_request_iff; fold OutLen; tauto).
    cbn. subst untouched. cbn. auto.
  - exact Hpass.
  - intros Hne Hin Hlen Hout. apply Hpass.
    + subst well_formed. cbv beta. right. lia.
    + right. lia.
Qed.

(** The log only grows: every step of the engine appends to it. *)
Lemma extends_refl s : extends s s.
Proof. exists []. symmetry. apply app_nil_r. Qed.

Ltac log_step :=
  match goal with
  | |- extends ?s ?s => apply extends_refl
  | |- extends _ (snd (let '(_, _) := ?x in _)) => destruct x eqn:?
  | |- extends _ (snd (match ?x with _ => _ end)) => destruct x eqn:?
  | |- extends _ (snd (if ?x then _ else _)) => destruct x eqn:?
  | |- extends _ (snd (_, _)) => cbn [snd]
  | |- extends _ _ =>
      eexists; cbn; rewrite <- ?app_assoc;
      first [reflexivity | symmetry; apply app_nil_r]
  end.

Lemma transact_dispatch_extends c k s : extends s (snd (transact_dispatch c k s)).
Proof.
  unfold transact_dispatch, transact_done, transact_exit, do_Send.
  repeat log_step.
Qed.

Lemma transact_dispatch_status_extends st ireq s :
  extends s (snd (transact_dispatch_status st ireq s)).
Proof.
  unfold transact_dispatch_status, transact_done, transact_exit, do_Send.
  repeat log_step.
Qed.

Lemma do_Process_log c rsp out s :
  Log (snd (do_Process c rsp out s)) = Log s ++ [EvContextProcess (Address c)].
Proof. unfold do_Process. destruct out; reflexivity. Qed.

Lemma transact_receive_log Irp s :
  exists rest, Log (snd (transact_receive Irp s)) = Log s ++ EvProviderReceive :: rest.
Proof.
  unfold transact_receive.
  destruct FspFsextProviderTransact_receive as [Result [ireq |]];
    destruct (NT_SUCCESS Result); cbn [negb];
    try (unfold transact_exit; eexists; cbn; rewrite <- ?app_assoc; reflexivity).
  destruct (FuseContextCreate (Some ireq)) as [c | st].
  - set (s0 := emit EvContextCreate (emit EvProviderReceive s)).
    destruct (do_Process c None (Some (OutputBufferLength Irp)) s0)
      as [[k c'] s'] eqn:Hp.
    destruct (transact_dispatch_extends c' k s') as [l Hl].
    pose proof (do_Process_log c None (Some (OutputBufferLength Irp)) s0) as Hlog.
    rewrite Hp in Hlog. cbn [snd] in Hlog.
    eexists. rewrite Hl, Hlog. subst s0. cbn. rewrite <- !app_assoc. reflexivity.
  - destruct (transact_dispatch_status_extends st ireq
                (emit EvContextCreate (emit EvProviderReceive s))) as [l Hl].
    eexists. rewrite Hl. cbn. rewrite <- !app_assoc. reflexivity.
Qed.

(** C2 (amended).  In the request half-step, with an output buffer and
    nothing pending: if the version major is 0 the call waits on the init
    event, and a wait that ends in timeout or thread-terminating is
    returned as STATUS_CANCELLED; if the version major is the all-ones
    sentinel (at entry, or when read again after a wait that succeeded) the
    call returns STATUS_ACCESS_DENIED; otherwise the host framework is
    asked for a new internal request.  When it supplies none, the call
    returns STATUS_SUCCESS if the pull succeeded and the failure status of
    the pull if it failed, with the I/O information zero either way. *)
Theorem transact_request_nothing_pending (Irp : IRP) (s : STATE) :
  OutputBufferLength Irp <> 0 ->
  PendingList (Ioq (Instance s)) = [] ->
  let major := VersionMajor (Instance s) in
  let wait := FsRtlCancellableWaitForSingleObject in
  let r := transact_request Irp s in
  let before := Log s ++ [EvIoqNextPending] in
  (major = 0 ->
   (exists rest, Log (snd r) = before ++ EvWaitInitEvent :: rest) /\
   (wait = STATUS_TIMEOUT \/ wait = STATUS_THREAD_IS_TERMINATING ->
    fst r = STATUS_CANCELLED /\ Log (snd r) = before ++ [EvWaitInitEvent])) /\
  (major = to_UINT32 (-1) ->
   fst r = STATUS_ACCESS_DENIED /\ Log (snd r) = before) /\
  (major = 0 -> NT_SUCCESS wait = true -> wait <> STATUS_TIMEOUT ->
   VersionMajor_after_wait = to_UINT32 (-1) ->
   fst r = STATUS_ACCESS_DENIED /\ Log (snd r) = before ++ [EvWaitInitEvent]) /\
  (major <> 0 /\ major <> to_UINT32 (-1) \/
   major = 0 /\ NT_SUCCESS wait = true /\ wait <> STATUS_TIMEOUT /\
     VersionMajor_after_wait <> to_UINT32 (-1) ->
   (exists waited rest,
      Log (snd r) = before ++ waited ++ EvProviderReceive :: rest /\
      (waited = [] \/ waited = [EvWaitInitEvent])) /\
   (forall Result,
      FspFsextProviderTransact_receive = (Result, None) ->
      fst r = (if NT_SUCCESS Result then STATUS_SUCCESS else Result) /\
      Information (snd r) = 0)).
Proof.
  intros Hout Hpending major wait r before.
  assert (Hr : r = transact_idle Irp
                     (put_Ioq (Ioq (Instance s))
                        (emit EvIoqNextPending
                           (put_Buffer (zero_header (Buffer s)) (put_Information 0 s))))).
  { subst r. unfold transact_request.
    destruct (Z.eqb_spec (OutputBufferLength Irp) 0) as [E | _]; [contradiction |].
    cbn [negb]. unfold FuseIoqNextPending. cbn. rewrite Hpending. reflexivity. }
  set (s1 := put_Ioq _ _) in Hr.
  assert (Hlog1 : Log s1 = before) by reflexivity.
  assert (Hmajor1 : VersionMajor (Instance s1) = major) by reflexivity.
  assert (Hlogw : Log (emit EvWaitInitEvent s1) = before ++ [EvWaitInitEvent])
    by reflexivity.
  assert (Hsentinel : to_UINT32 (-1) <> 0) by (vm_compute; discriminate).
  assert (Hnone : forall Result s',
            FspFsextProviderTransact_receive = (Result, None) -> Information s' = 0 ->
            fst (transact_receive Irp s')
              = (if NT_SUCCESS Result then STATUS_SUCCESS else Result) /\
            Information (snd (transact_receive Irp s')) = 0).
  { intros Result s' Hrecv Hinfo. unfold transact_receive. rewrite Hrecv.
    destruct (NT_SUCCESS Result); cbn; auto. }
  rewrite Hr. unfold transact_idle. rewrite Hmajor1.
  split; [| split; [| split]].
  - intros Hzero. rewrite Hzero. cbn [Z.eqb]. fold wait. split.
    + destruct ((wait =? STATUS_TIMEOUT) || (wait =? STATUS_THREAD_IS_TERMINATING)).
      * exists []. reflexivity.
      * destruct (NT_SUCCESS wait); cbn [negb].
        -- destruct (VersionMajor_after_wait =? to_UINT32 (-1)).
           ++ exists []. reflexivity.
           ++ destruct (transact_receive_log Irp (emit EvWaitInitEvent s1)) as [rest Hrest].
              exists (EvProviderReceive :: rest).
              rewrite Hrest, Hlogw, <- app_assoc. reflexivity.
        -- exists []. reflexivity.
    + intros Hwait.
      replace ((wait =? STATUS_TIMEOUT) || (wait =? STATUS_THREAD_IS_TERMINATING))
        with true
        by (symmetry; apply orb_true_iff; rewrite !Z.eqb_eq; exact Hwait).
      cbn. auto.
  - intros Hones. rewrite Hones.
    destruct (Z.eqb_spec (to_UINT32 (-1)) 0) as [E | _]; [contradiction |].
    rewrite Z.eqb_refl. cbn. auto.
  - intros Hzero Hsucc Hnt Hafter. rewrite Hzero. cbn [Z.eqb]. fold wait.
    destruct (Z.eqb_spec wait STATUS_TIMEOUT) as [E | _]; [contradiction |].
    destruct (Z.eqb_spec wait STATUS_THREAD_IS_TERMINATING) as [E | _].
    { rewrite E in Hsucc. discriminate Hsucc. }
    cbn [orb]. rewrite Hsucc. cbn [negb]. rewrite Hafter, Z.eqb_refl. cbn. auto.
  - intros [[Hnz Hno] | (Hzero & Hsucc & Hnt & Hafter)].
    + destruct (Z.eqb_spec major 0) as [E | _]; [contradiction |].
      destruct (Z.eqb_spec major (to_UINT32 (-1))) as [E | _]; [contradiction |].
      split.
      * destruct (transact_receive_log Irp s1) as [rest Hrest].
        exists [], rest. rewrite Hrest, Hlog1. auto.
      * intros Result Hrecv. apply Hnone; [exact Hrecv | reflexivity].
    + rewrite Hzero. cbn [Z.eqb]. fold wait.
      destruct (Z.eqb_spec wait STATUS_TIMEOUT) as [E | _]; [contradiction |].
      destruct (Z.eqb_spec wait STATUS_THREAD_IS_TERMINATING) as [E | _].
      { rewrite E in Hsucc. discriminate Hsucc. }
      cbn [orb]. rewrite Hsucc. cbn [negb].
      destruct (Z.eqb_spec VersionMajor_after_wait (to_UINT32 (-1))) as [E | _];
        [contradiction |].
      split.
      * destruct (transact_receive_log Irp (emit EvWaitInitEvent s1)) as [rest Hrest].
        exists [EvWaitInitEvent], rest. rewrite Hrest, Hlogw, <- app_assoc. auto.
      * intros Result Hrecv. apply Hnone; [exact Hrecv | reflexivity].
Qed.

Lemma put_Ioq_same s : put_Ioq (Ioq (Instance s)) s = s.
Proof. destruct s as [[v q c m] n b l]. reflexivity. Qed.

(** C8 (amended).  For every transact call that passes validation and whose
    input buffer carries a response with a unique that is not in the
    processing map, the response half-step has no effect on the IOQ (no
    context is resumed, re-posted or destroyed: the look-up is the only
    call made and the instance is as before), and the call then is the
    request half-step on that unchanged instance and returns what it
    returns: success when there is no output buffer, and success with the
    request of the first pending context when one is pending and stays in
    flight. *)
Theorem spurious_response (Inst : FUSE_INSTANCE) (Irp : IRP) :
  bad_response Irp = false -> small_request Irp = false ->
  InputBufferLength Irp <> 0 ->
  ProcessMap (Ioq Inst) !! rsp_unique (SystemBuffer_rsp Irp) = None ->
  let looked_up :=
    emit (EvIoqEndProcessing (rsp_unique (SystemBuffer_rsp Irp))) (transact_enter Inst Irp) in
  let r := FuseDeviceTransact Inst Irp in
  Instance looked_up = Inst /\
  r = transact_request Irp looked_up /\
  (OutputBufferLength Irp = 0 ->
   fst r = STATUS_SUCCESS /\ Instance (snd r) = Inst /\ Information (snd r) = 0 /\
   Log (snd r) = [EvIoqEndProcessing (rsp_unique (SystemBuffer_rsp Irp))]) /\
  (OutputBufferLength Irp <> 0 ->
   forall c rest,
     PendingList (Ioq Inst) = c :: rest ->
     let p := FuseContextProcess (Cache Inst) c None
                (Some (zero_header (SystemBuffer_req Irp), OutputBufferLength Irp)) in
     Continue p = true ->
     fst r = STATUS_SUCCESS /\
     Buffer (snd r) = ProcessRequest p /\
     Information (snd r) = req_len (ProcessRequest p) /\
     PendingList (Ioq (Instance (snd r))) = rest /\
     ProcessMap (Ioq (Instance (snd r))) =
       <[ to_UINT64 (Address (ProcessContext p)) := ProcessContext p ]>
         (ProcessMap (Ioq Inst)) /\
     Log (snd r) = [EvIoqEndProcessing (rsp_unique (SystemBuffer_rsp Irp));
                    EvIoqNextPending; EvContextProcess (Address c);
                    EvIoqStartProcessing (Address (ProcessContext p))]).
Proof.
  intros Hbad Hsmall Hin Hmiss looked_up r.
  assert (Hr : r = transact_request Irp looked_up).
  { subst r. unfold FuseDeviceTransact. rewrite Hbad, Hsmall.
    unfold transact_response.
    destruct (Z.eqb_spec (InputBufferLength Irp) 0) as [E | _]; [contradiction |].
    cbn [negb]. unfold FuseIoqEndProcessing.
    change (Ioq (Instance (transact_enter Inst Irp))) with (Ioq Inst).
    rewrite Hmiss.
    change (Ioq Inst) with
      (Ioq (Instance (emit (EvIoqEndProcessing (rsp_unique (SystemBuffer_rsp Irp)))
                        (transact_enter Inst Irp)))).
    rewrite put_Ioq_same. reflexivity. }
  split; [reflexivity |]. split; [exact Hr |]. split.
  - intros Hout. rewrite Hr. unfold transact_request. rewrite Hout. cbn. auto.
  - intros Hout c rest Hpending p Hcont. rewrite Hr. unfold transact_request.
    destruct (Z.eqb_spec (OutputBufferLength Irp) 0) as [E | _]; [contradiction |].
    cbn [negb]. unfold FuseIoqNextPending.
    change (PendingList (Ioq (Instance (put_Buffer
              (zero_header (Buffer (put_Information 0 looked_up)))
              (put_Information 0 looked_up)))))
      with (PendingList (Ioq Inst)).
    rewrite Hpending.
    unfold do_Process.
    cbn.
    fold p.
    rewrite Hcont.
    unfold transact_dispatch. cbn. auto 10.
Qed.

(** C9.  [FuseDeviceInit] forces the volume parameters to the fixed values
    and then, in this order, constructs the IOQ and the cache (case
    sensitive, whatever was asked), initializes the operation-guard lock
    and the init event, brings up the file table and posts an internal INIT
    context to pending; when a step fails it deletes what has been
    constructed up to that point (the cache, then the IOQ) and returns the
    failing status. *)
Theorem FuseDeviceInit_correct (Inst : FUSE_INSTANCE) (Params : FSP_FSCTL_VOLUME_PARAMS) :
  let r := FuseDeviceInit Inst Params in
  let V := InitVolumeParams r in
  let constructed :=
    [EvKeEnterCriticalRegion; EvIoqCreate; EvCacheCreate 0 false] in
  let brought_up :=
    constructed ++ [EvRwlockInitialize; EvKeInitializeEvent; EvFileInstanceInit;
                    EvContextCreate] in
  (CaseSensitiveSearch V = true /\ CasePreservedNames V = true /\
   PersistentAcls V = true /\ ReparsePoints V = true /\
   ReparsePointsAccessCheck V = false /\ NamedStreams V = false /\
   ReadOnlyVolume V = false /\ PostCleanupWhenModifiedOnly V = true /\
   PassQueryDirectoryFileName V = true /\ DeviceControl V = true /\
   DirectoryMarkerAsNextOffset V = true /\
   SectorSize V = SectorSize Params /\
   SectorsPerAllocationUnit V = SectorsPerAllocationUnit Params) /\
  (NT_SUCCESS FuseIoqCreate = true -> NT_SUCCESS FuseCacheCreate = true ->
   forall c, FuseContextCreate None = ContextAlive c ->
     InitResult r = STATUS_SUCCESS /\
     InitLog r = brought_up ++ [EvIoqPostPending (Address c); EvKeLeaveCriticalRegion] /\
     VolumeParams (InitInstance r) = V /\
     Cache (InitInstance r) =
       {| CacheCapacity := 0; CacheCaseInsensitive := false; CacheItems := [] |} /\
     ProcessMap (Ioq (InitInstance r)) = ∅ /\
     PendingList (Ioq (InitInstance r)) =
       [with_InternalResponse
          (with_Hint FUSE_PROTO_OPCODE_INIT (InternalResponse c)) c]) /\
  (NT_SUCCESS FuseIoqCreate = false ->
   InitResult r = FuseIoqCreate /\
   InitLog r = [EvKeEnterCriticalRegion; EvIoqCreate; EvKeLeaveCriticalRegion]) /\
  (NT_SUCCESS FuseIoqCreate = true -> NT_SUCCESS FuseCacheCreate = false ->
   InitResult r = FuseCacheCreate /\
   InitLog r = constructed ++ [EvIoqDelete; EvKeLeaveCriticalRegion]) /\
  (NT_SUCCESS FuseIoqCreate = true -> NT_SUCCESS FuseCacheCreate = true ->
   forall Status, FuseContextCreate None = ContextStatus Status ->
     NT_SUCCESS Status = false ->
     InitResult r = Status /\
     InitLog r = brought_up ++ [EvCacheDelete; EvIoqDelete; EvKeLeaveCriticalRegion]).
Proof.
  intros r V constructed brought_up.
  split; [| split; [| split; [| split]]].
  - subst V r. unfold FuseDeviceInit.
    destruct (NT_SUCCESS FuseIoqCreate); cbn [negb]; [| cbn; auto 20].
    destruct (NT_SUCCESS FuseCacheCreate); cbn [negb]; [| cbn; auto 20].
    destruct (FuseProtoPostInit FuseIoqEmpty) as [[Result q] posted].
    destruct (NT_SUCCESS Result); cbn; auto 20.
  - intros Hioq Hcache c Hcreate. subst r V. unfold FuseDeviceInit.
    rewrite Hioq, Hcache. cbn [negb]. unfold FuseProtoPostInit. rewrite Hcreate.
    cbn. auto 10.
  - intros Hioq. subst r. unfold FuseDeviceInit. rewrite Hioq. cbn. auto.
  - intros Hioq Hcache. subst r. unfold FuseDeviceInit. rewrite Hioq, Hcache. cbn. auto.
  - intros Hioq Hcache Status Hcreate Hfail. subst r. unfold FuseDeviceInit.
    rewrite Hioq, Hcache. cbn [negb]. unfold FuseProtoPostInit. rewrite Hcreate, Hfail.
    cbn. auto.
Qed.

(** [FuseProtoPostForget] queues a FORGET context that owns the list. *)
Lemma FuseProtoPostForget_posts Ioq0 List c0 :
  FuseContextCreate None = ContextAlive c0 -> InternalRequest c0 = None ->
  exists c,
    FuseProtoPostForget Ioq0 List =
      (STATUS_SUCCESS, FuseIoqPostPending Ioq0 c,
       [EvContextCreate; EvIoqPostPending (Address c0)]) /\
    is_forget_context c /\ ForgetList (Forget c) = List /\
    Address c = Address c0 /\ Fini c = Some FuseProtoPostForget_ContextFini.
Proof.
  intros Hcreate Hnone. unfold FuseProtoPostForget. rewrite Hcreate.
  eexists. split; [reflexivity |].
  unfold is_forget_context. cbn. auto 10.
Qed.

End TransactFacts.

Lemma FuseDeviceTransact_validation_witness :
  fst (FuseDeviceTransact (PROTO := fuse7) (HELPERS := helpers0)
         (ENV := sample_collaborators) (idle_instance 7) (sample_irp 0 0 0 100))
    = STATUS_BUFFER_TOO_SMALL /\
  fst (FuseDeviceTransact (PROTO := fuse7) (HELPERS := helpers0)
         (ENV := sample_collaborators) (idle_instance 7) (sample_irp 16 15 0 8192))
    = STATUS_INVALID_PARAMETER.
Proof.
  split.
  - apply (FuseDeviceTransact_validation (PROTO := fuse7) (HELPERS := helpers0)
             (ENV := sample_collaborators) (idle_instance 7) (sample_irp 0 0 0 100)).
    + left. reflexivity.
    + cbn. lia.
    + cbn. lia.
  - apply (FuseDeviceTransact_validation (PROTO := fuse7) (HELPERS := helpers0)
             (ENV := sample_collaborators) (idle_instance 7) (sample_irp 16 15 0 8192)).
    + cbn. lia.
    + cbn. lia.
Defined.

(** C1, as stated, fails: with one byte of input and one byte of output
    both buffers are too short; the claim asks for INVALID_PARAMETER on
    account of the first and for BUFFER_TOO_SMALL on account of the second,
    and the call returns INVALID_PARAMETER. *)
Lemma FuseDeviceTransact_validation_counterexample :
  let Irp := sample_irp 1 0 0 1 in
  let Result := fst (FuseDeviceTransact (PROTO := fuse7) (HELPERS := helpers0)
                       (ENV := sample_collaborators) (idle_instance 7) Irp) in
  (OutputBufferLength Irp <> 0 /\
   OutputBufferLength Irp < FUSE_PROTO_REQ_SIZEMIN (FUSE_PROTO := fuse7)) /\
  Result = STATUS_INVALID_PARAMETER /\
  Result <> STATUS_BUFFER_TOO_SMALL.
Proof.
  cbv zeta. split; [cbn; lia |]. split; [reflexivity |].
  vm_compute. discriminate.
Qed.

Lemma transact_request_nothing_pending_witness :
  fst (transact_request (PROTO := fuse7) (HELPERS := helpers0)
         (ENV := failing_collaborators) (sample_irp 0 0 0 8192)
         (transact_enter (idle_instance 0) (sample_irp 0 0 0 8192)))
    = STATUS_CANCELLED.
Proof.
  apply (transact_request_nothing_pending (PROTO := fuse7) (HELPERS := helpers0)
           (ENV := failing_collaborators) (sample_irp 0 0 0 8192)
           (transact_enter (idle_instance 0) (sample_irp 0 0 0 8192))).
  - cbn. lia.
  - reflexivity.
  - reflexivity.
  - left. reflexivity.
Defined.

(** C2, as stated, fails: at version major 7 with nothing pending, a pull
    that fails and supplies no request makes the call return the failure
    status of the pull, not STATUS_SUCCESS. *)
Lemma transact_request_nothing_pending_counterexample :
  let Irp := sample_irp 0 0 0 8192 in
  let s := transact_enter (idle_instance 7) Irp in
  let r := transact_request (PROTO := fuse7) (HELPERS := helpers0)
             (ENV := failing_collaborators) Irp s in
  OutputBufferLength Irp <> 0 /\ PendingList (Ioq (Instance s)) = [] /\
  VersionMajor (Instance s) <> 0 /\ VersionMajor (Instance s) <> to_UINT32 (-1) /\
  snd (FspFsextProviderTransact_receive (COLLABORATORS := failing_collaborators)) = None /\
  fst r = STATUS_INSUFFICIENT_RESOURCES /\
  ~ (fst r = STATUS_SUCCESS /\ Information (snd r) = 0).
Proof.
  cbv zeta. split; [cbn; lia |]. split; [reflexivity |].
  split; [cbn; lia |]. split; [vm_compute; discriminate |].
  split; [reflexivity |]. split; [reflexivity |].
  intros [Hsuccess _]. vm_compute in Hsuccess. discriminate Hsuccess.
Qed.

Lemma spurious_response_witness :
  fst (FuseDeviceTransact (PROTO := fuse7) (HELPERS := helpers0)
         (ENV := sample_collaborators) (idle_instance 7) (sample_irp 16 16 99 0))
    = STATUS_SUCCESS.
Proof.
  apply (spurious_response (PROTO := fuse7) (HELPERS := helpers0)
           (ENV := sample_collaborators) (idle_instance 7) (sample_irp 16 16 99 0)).
  - reflexivity.
  - reflexivity.
  - cbn. lia.
  - reflexivity.
  - reflexivity.
Defined.

(** C8, as stated, fails: at an instance whose INIT was refused (version
    major all ones) and with nothing pending, a call that brings a
    well-formed response for the unknown unique 99 and an output buffer of
    REQ_SIZEMIN returns STATUS_ACCESS_DENIED, not success. *)
Lemma spurious_response_counterexample :
  let Inst := idle_instance 0xFFFFFFFF in
  let Irp := sample_irp 16 16 99 8192 in
  let Result := fst (FuseDeviceTransact (PROTO := fuse7) (HELPERS := helpers0)
                       (ENV := sample_collaborators) Inst Irp) in
  bad_response (PROTO := fuse7) Irp = false /\
  small_request (PROTO := fuse7) Irp = false /\
  ProcessMap (Ioq Inst) !! rsp_unique (SystemBuffer_rsp Irp) = None /\
  Result = STATUS_ACCESS_DENIED /\
  Result <> STATUS_SUCCESS.
Proof.
  cbv zeta. repeat split; try reflexivity.
  vm_compute. discriminate.
Qed.

Lemma FuseDeviceInit_correct_witness :
  InitResult (FuseDeviceInit (PROTO := fuse7) (ENV := sample_collaborators)
                (idle_instance 0) sample_params) = STATUS_SUCCESS /\
  InitResult (FuseDeviceInit (PROTO := fuse7) (ENV := failing_collaborators)
                (idle_instance 0) sample_params) = STATUS_INSUFFICIENT_RESOURCES.
Proof.
  split.
  - destruct (FuseDeviceInit_correct (PROTO := fuse7) (ENV := sample_collaborators)
                (idle_instance 0) sample_params) as (_ & Hsuccess & _).
    destruct (Hsuccess eq_refl eq_refl _ eq_refl) as [E _]. exact E.
  - destruct (FuseDeviceInit_correct (PROTO := fuse7) (ENV := failing_collaborators)
                (idle_instance 0) sample_params) as (_ & _ & _ & Hcache & _).
    destruct (Hcache eq_refl eq_refl) as [E _]. exact E.
Defined.

(** * Draining a forget list *)

Section ForgetFacts.
Context `{PROTO : FUSE_PROTO} `{HELPERS : FUSE_HELPERS}.
Variables (E : COLLABORATORS) (batch : bool) (Ino0 : Z).

Local Abbreviation FE := (forget_collaborators batch Ino0 E).

Lemma per_message_pos : proto_ok -> 1 <= per_message batch.
Proof.
  intros Hok. unfold per_message. destruct batch; [apply batch_capacity_pos, Hok | lia].
Qed.

Lemma ceil_div_small N m : 0 < N <= m -> ceil_div N m = 1.
Proof.
  intros HN. unfold ceil_div. symmetry. apply Z.div_unique with (r := N - 1); lia.
Qed.

Lemma ceil_div_step N m : 0 < m -> ceil_div (N - m) m = ceil_div N m - 1.
Proof.
  intros Hm. unfold ceil_div.
  replace (N - m + m - 1) with (N + m - 1 + (-1) * m) by lia.
  rewrite Z.div_add by lia. lia.
Qed.

Lemma ceil_div_pos N m : 0 < N -> 0 < m -> 1 <= ceil_div N m.
Proof. intros HN Hm. unfold ceil_div. apply Z.div_le_lower_bound; lia. Qed.

Lemma ceil_div_antitone N m m' : 0 <= N -> 0 < m <= m' -> ceil_div N m' <= ceil_div N m.
Proof.
  intros HN Hm. unfold ceil_div.
  apply Z.div_le_lower_bound; [lia |].
  pose proof (Z.div_mod (N + m' - 1) m' ltac:(lia)) as H1.
  pose proof (Z.mod_pos_bound (N + m' - 1) m' ltac:(lia)) as H2.
  pose proof (Z.div_mod (N + m - 1) m ltac:(lia)) as H3.
  pose proof (Z.mod_pos_bound (N + m - 1) m ltac:(lia)) as H4.
  set (q' := (N + m' - 1) / m') in *. set (q := (N + m - 1) / m) in *.
  assert (Hq' : 0 <= q') by (subst q'; apply Z.div_pos; lia).
  assert (Hq : 0 <= q) by (subst q; apply Z.div_pos; lia).
  destruct (Z.le_gt_cases q' q) as [Hle | Hgt]; [nia |].
  exfalso. assert (q + 1 <= q') by lia.
  assert (m * (q + 1) <= m' * q') by nia.
  assert (N <= m * q) by nia.
  assert (m' * q' <= N + m' - 1) by lia.
  destruct (Z.eq_dec q' 0) as [-> | Hq0]; [lia |].
  assert (m' * (q' - 1) < N) by nia. nia.
Qed.

(** One resume of a FORGET context by the dispatcher. *)
Lemma forget_step cache c buffer n :
  proto_ok -> is_forget_context c -> ForgetList (Forget c) <> [] ->
  let N := Z.of_nat (length (ForgetList (Forget c))) in
  let p := FuseContextProcess (COLLABORATORS := FE) cache c None (Some (buffer, n)) in
  Continue p = false /\
  ProcessCache p = cache /\
  ProcessRequest p = FuseRequest (ProcessContext p) /\
  Address (ProcessContext p) = Address c /\
  is_forget_context (ProcessContext p) /\
  ForgetList (Forget (ProcessContext p)) =
    drop (Z.to_nat (Z.min N (per_message batch))) (ForgetList (Forget c)).
Proof.
  intros Hok [Hnone Hhint] Hne N p. subst p. cbn [FuseContextProcess forget_collaborators].
  unfold FuseContextProcess_forget, per_message, is_forget_context.
  destruct batch.
  - destruct (FuseProtoFillBatchForget_spec (with_FuseRequest buffer c) Hok)
      as (_ & _ & _ & _ & Hrest & Haddr & Hireq & Hirsp).
    cbn [Continue ProcessCache ProcessRequest ProcessContext].
    rewrite Hrest, Haddr, Hireq, Hirsp. cbn. auto 10.
  - destruct (ForgetList (Forget c)) as [| ino rest] eqn:Hl; [contradiction |].
    unfold FuseProtoFillForget. cbn. rewrite Hl. cbn.
    repeat split; auto.
    replace (Z.to_nat _) with 1%nat by (subst N; cbn [length]; lia).
    reflexivity.
Qed.

Lemma request_only_irp_passes :
  proto_ok ->
  bad_response request_only_irp = false /\ small_request request_only_irp = false /\
  OutputBufferLength request_only_irp <> 0.
Proof.
  intros (_ & Hsize & Hsz & Hone & _). pose proof (Hsize m_batch_forget).
  unfold bad_response, small_request. cbn.
  split; [reflexivity |]. split; [| lia].
  apply andb_false_iff. right. rewrite Z.gtb_ltb. apply Z.ltb_irrefl.
Qed.

(** One call that finds the FORGET context [c] at the head of pending. *)
Lemma forget_call Inst c rest :
  proto_ok -> is_forget_context c -> ForgetList (Forget c) <> [] ->
  PendingList (Ioq Inst) = c :: rest ->
  let N := Z.of_nat (length (ForgetList (Forget c))) in
  let r := FuseDeviceTransact (ENV := FE) Inst request_only_irp in
  exists c',
    Address c' = Address c /\ is_forget_context c' /\
    ForgetList (Forget c') =
      drop (Z.to_nat (Z.min N (per_message batch))) (ForgetList (Forget c)) /\
    fst r = STATUS_SUCCESS /\
    Information (snd r) = req_len (FuseRequest c') /\
    (ForgetList (Forget c') <> [] ->
     PendingList (Ioq (Instance (snd r))) = rest ++ [c'] /\
     Log (snd r) = [EvIoqNextPending; EvContextProcess (Address c);
                    EvIoqPostPending (Address c)]) /\
    (ForgetList (Forget c') = [] ->
     PendingList (Ioq (Instance (snd r))) = rest /\
     Log (snd r) = [EvIoqNextPending; EvContextProcess (Address c);
                    EvContextDelete (Address c)]).
Proof.
  intros Hok Hforget Hne Hpending N r.
  destruct (request_only_irp_passes Hok) as (Hbad & Hsmall & Hout).
  set (buffer := zero_header (SystemBuffer_req request_only_irp)).
  destruct (forget_step (Cache Inst) c buffer (OutputBufferLength request_only_irp)
              Hok Hforget Hne) as (Hcont & Hcache & Hreq & Haddr & Hforget' & Hlist).
  set (p := FuseContextProcess (COLLABORATORS := FE) (Cache Inst) c None
              (Some (buffer, OutputBufferLength request_only_irp))) in *.
  exists (ProcessContext p).
  split; [exact Haddr |]. split; [exact Hforget' |]. split; [exact Hlist |].
  assert (Hr : r = transact_dispatch (ENV := FE) (ProcessContext p) false
                     (put_Buffer (ProcessRequest p)
                        (put_Cache (ProcessCache p)
                           (emit (EvContextProcess (Address c))
                              (put_Ioq {| PendingList := rest;
                                          ProcessMap := ProcessMap (Ioq Inst) |}
                                 (emit EvIoqNextPending
                                    (put_Buffer buffer
                                       (put_Information 0
                                          (transact_enter Inst request_only_irp))))))))).
  { subst r. unfold FuseDeviceTransact. rewrite Hbad, Hsmall.
    unfold transact_response.
    change (InputBufferLength request_only_irp =? 0) with true. cbn [negb].
    unfold transact_request.
    destruct (Z.eqb_spec (OutputBufferLength request_only_irp) 0) as [E0 | _];
      [contradiction |].
    cbn [negb]. unfold FuseIoqNextPending.
    change (PendingList (Ioq (Instance (put_Buffer
              (zero_header (Buffer (put_Information 0 (transact_enter Inst request_only_irp))))
              (put_Information 0 (transact_enter Inst request_only_irp))))))
      with (PendingList (Ioq Inst)).
    rewrite Hpending. unfold do_Process.
    change (FuseContextProcess _ c None _) with p.
    rewrite Hcont. reflexivity. }
  destruct Hforget' as [Hnone Hhint].
  assert (Hsel : (irsp_Hint (InternalResponse (ProcessContext p)) =? FUSE_PROTO_OPCODE_FORGET)
                 || (irsp_Hint (InternalResponse (ProcessContext p))
                       =? FUSE_PROTO_OPCODE_BATCH_FORGET) = true).
  { apply orb_true_iff. rewrite !Z.eqb_eq. exact Hhint. }
  rewrite Hr. clear Hr. clearbody p buffer.
  unfold transact_dispatch. rewrite Hnone, Hsel, Hreq.
  destruct (ForgetList (Forget (ProcessContext p))) as [| i l'] eqn:Hl'.
  - rewrite bool_decide_eq_true_2 by reflexivity. cbn [negb].
    cbn. rewrite Haddr. repeat split; auto; intros; congruence.
  - rewrite bool_decide_eq_false_2 by discriminate. cbn [negb].
    cbn. rewrite Haddr. repeat split; auto; intros; congruence.
Qed.

Lemma nonempty_length (l : list Z) : l <> [] <-> 0 < Z.of_nat (length l).
Proof. destruct l; cbn [length]; split; intros; try lia; congruence. Qed.

(** [k] calls drain a list that needs [k] messages, and no fewer do. *)
Lemma drain_in_ceil_div_calls :
  proto_ok ->
  forall (k : nat) Inst c,
    is_forget_context c -> PendingList (Ioq Inst) = [c] ->
    ForgetList (Forget c) <> [] ->
    ceil_div (Z.of_nat (length (ForgetList (Forget c)))) (per_message batch) = Z.of_nat k ->
    PendingList (Ioq (after_calls (ENV := FE) k Inst)) = [] /\
    (forall j, (j < k)%nat ->
       exists cj, PendingList (Ioq (after_calls (ENV := FE) j Inst)) = [cj] /\
                  ForgetList (Forget cj) <> [] /\ Address cj = Address c).
Proof.
  intros Hok. pose proof (per_message_pos Hok) as Hpm.
  induction k as [| k IH]; intros Inst c Hforget Hpending Hne Hk.
  - apply nonempty_length in Hne.
    assert (Hpm0 : 0 < per_message batch) by lia.
    pose proof (ceil_div_pos _ _ Hne Hpm0). lia.
  - destruct (forget_call Inst c [] Hok Hforget Hne Hpending)
      as (c' & Haddr & Hforget' & Hlist & _ & _ & Hrepost & Hdelete).
    cbn [after_calls].
    set (Inst1 := Instance (snd (FuseDeviceTransact (ENV := FE) Inst request_only_irp))) in *.
    pose proof Hne as HN. apply nonempty_length in HN.
    set (N := Z.of_nat (length (ForgetList (Forget c)))) in *.
    assert (Hlen' : Z.of_nat (length (ForgetList (Forget c')))
                    = N - Z.min N (per_message batch)).
    { rewrite Hlist, length_drop. subst N. lia. }
    destruct (Z.le_gt_cases N (per_message batch)) as [Hlast | Hmore].
    + (* the last message *)
      assert (Hempty : ForgetList (Forget c') = []).
      { destruct (ForgetList (Forget c')); [reflexivity | cbn [length] in Hlen'; lia]. }
      destruct (Hdelete Hempty) as [Hp1 _].
      rewrite ceil_div_small in Hk by lia.
      assert (k = 0%nat) by lia. subst k. cbn [after_calls].
      split; [exact Hp1 |].
      intros j Hj. assert (j = 0%nat) by lia. subst j.
      exists c. cbn [after_calls]. auto.
    + (* more to come *)
      assert (Hne' : ForgetList (Forget c') <> []).
      { apply nonempty_length. lia. }
      destruct (Hrepost Hne') as [Hp1 _]. cbn [app] in Hp1.
      assert (Hk' : ceil_div (Z.of_nat (length (ForgetList (Forget c'))))
                      (per_message batch) = Z.of_nat k).
      { rewrite Hlen', Z.min_r by lia. rewrite ceil_div_step by lia. lia. }
      destruct (IH Inst1 c' Hforget' Hp1 Hne' Hk') as [Hdone Hbefore].
      split; [exact Hdone |].
      intros [| j] Hj.
      * exists c. cbn [after_calls]. auto.
      * cbn [after_calls]. fold Inst1.
        assert (Hj' : (j < k)%nat) by lia.
        destruct (Hbefore j Hj') as (cj & Hcj & Hnej & Haddrj).
        exists cj. split; [exact Hcj |]. split; [exact Hnej |]. congruence.
Qed.

(** C3.  A self-generated FORGET/BATCH_FORGET context that finishes a
    request half-step is re-posted to the pending queue iff its forget list
    is still non-empty and is destroyed otherwise; consequently a context
    that starts with N entries and is alone in the queue is fully drained
    (and destroyed) after exactly [ceil (N / per-message count)] request
    half-steps, which for BATCH_FORGET is at most [ceil (N / capacity)],
    the capacity being the number of forget-one tuples that fit between
    the batch-forget request size and REQ_SIZEMIN, and for single FORGET is
    exactly N. *)
Theorem forget_context_drains (Inst : FUSE_INSTANCE) (c : FUSE_CONTEXT) :
  proto_ok -> is_forget_context c -> ForgetList (Forget c) <> [] ->
  let N := Z.of_nat (length (ForgetList (Forget c))) in
  let steps := ceil_div N (per_message batch) in
  (forall rest,
     PendingList (Ioq Inst) = c :: rest ->
     let r := FuseDeviceTransact (ENV := FE) Inst request_only_irp in
     exists c',
       Address c' = Address c /\ is_forget_context c' /\
       ForgetList (Forget c') =
         drop (Z.to_nat (Z.min N (per_message batch))) (ForgetList (Forget c)) /\
       fst r = STATUS_SUCCESS /\
       (ForgetList (Forget c') <> [] ->
        PendingList (Ioq (Instance (snd r))) = rest ++ [c'] /\
        Log (snd r) = [EvIoqNextPending; EvContextProcess (Address c);
                       EvIoqPostPending (Address c)]) /\
       (ForgetList (Forget c') = [] ->
        PendingList (Ioq (Instance (snd r))) = rest /\
        Log (snd r) = [EvIoqNextPending; EvContextProcess (Address c);
                       EvContextDelete (Address c)])) /\
  (PendingList (Ioq Inst) = [c] ->
   PendingList (Ioq (after_calls (ENV := FE) (Z.to_nat steps) Inst)) = [] /\
   (forall j, (j < Z.to_nat steps)%nat ->
      exists cj, PendingList (Ioq (after_calls (ENV := FE) j Inst)) = [cj] /\
                 ForgetList (Forget cj) <> [] /\ Address cj = Address c)) /\
  (batch = true -> steps <= ceil_div N batch_fit) /\
  (batch = false -> steps = N).
Proof.
  intros Hok Hforget Hne N steps.
  pose proof (per_message_pos Hok) as Hpm.
  pose proof Hne as HN. apply nonempty_length in HN. fold N in HN.
  split; [| split; [| split]].
  - intros rest Hpending r.
    destruct (forget_call Inst c rest Hok Hforget Hne Hpending)
      as (c' & Haddr & Hforget' & Hlist & Hres & _ & Hrepost & Hdelete).
    exists c'. auto 10.
  - intros Hpending.
    apply (drain_in_ceil_div_calls Hok (Z.to_nat steps) Inst c Hforget Hpending Hne).
    fold N. fold steps.
    assert (Hpm0 : 0 < per_message batch) by lia.
    pose proof (ceil_div_pos N (per_message batch) HN Hpm0). subst steps. lia.
  - intros Hbatch. subst steps. unfold per_message. rewrite Hbatch.
    apply ceil_div_antitone; [lia |].
    pose proof (batch_fit_pos Hok). pose proof (batch_fit_le_capacity Hok). lia.
  - intros Hbatch. subst steps. unfold per_message. rewrite Hbatch.
    unfold ceil_div. replace (N + 1 - 1) with N by lia. apply Z.div_1_r.
Qed.

End ForgetFacts.

Lemma ten_tuple_proto_ok : proto_ok (PROTO := ten_tuple_proto).
Proof.
  unfold proto_ok, is_UINT32. cbn.
  repeat split; try lia. all: destruct m; lia.
Qed.

Lemma forget_context_drains_witness :
  PendingList
    (Ioq (after_calls (PROTO := ten_tuple_proto) (HELPERS := helpers0)
            (ENV := forget_collaborators (PROTO := ten_tuple_proto) true 0
                      sample_collaborators)
            2 seventeen_instance)) = [].
Proof.
  assert (Hforget : is_forget_context (PROTO := ten_tuple_proto) seventeen_context).
  { split; [reflexivity | left; reflexivity]. }
  assert (Hne : ForgetList (Forget seventeen_context) <> []) by discriminate.
  destruct (forget_context_drains (PROTO := ten_tuple_proto) (HELPERS := helpers0)
              sample_collaborators true 0 seventeen_instance seventeen_context
              ten_tuple_proto_ok Hforget Hne)
    as (_ & Hdrain & _).
  destruct (Hdrain eq_refl) as [Hdone _].
  exact Hdone.
Defined.

(** * Further properties of the encoders *)

Section MoreAttrFacts.
Context `{HELPERS : FUSE_HELPERS}.

(** X1.  [FuseAttrToFileInfo] yields no file info exactly when the
    allocation unit is zero.  Otherwise the allocation size is a multiple
    of the allocation unit within [UINT64], and it is at least the file
    size exactly when [size + unit - 1] does not leave the 64-bit range. *)
Theorem FuseAttrToFileInfo_allocation (Params : FSP_FSCTL_VOLUME_PARAMS)
    (Attr : FUSE_PROTO_ATTR) :
  params_ok Params -> attr_ok Attr ->
  let unit := SectorSize Params * SectorsPerAllocationUnit Params in
  (FuseAttrToFileInfo Params Attr = None <-> unit = 0) /\
  (forall FileInfo,
     FuseAttrToFileInfo Params Attr = Some FileInfo ->
     AllocationSize FileInfo mod unit = 0 /\
     is_UINT64 (AllocationSize FileInfo) /\
     (FileSize FileInfo <= AllocationSize FileInfo <->
      attr_size Attr + unit - 1 < 2 ^ 64)).
Proof.
  intros [Hss Hspau] (Hsize & _) unit.
  unfold is_UINT16 in Hss, Hspau. unfold is_UINT64 in Hsize.
  assert (Hu64 : to_UINT64 (to_UINT64 (SectorSize Params) *
                            to_UINT64 (SectorsPerAllocationUnit Params)) = unit).
  { rewrite (to_UINT64_id (SectorSize Params)) by (unfold is_UINT64; lia).
    rewrite (to_UINT64_id (SectorsPerAllocationUnit Params)) by (unfold is_UINT64; lia).
    apply to_UINT64_id. unfold is_UINT64. subst unit. nia. }
  assert (Hunit : 0 <= unit < 2 ^ 32) by (subst unit; nia).
  unfold FuseAttrToFileInfo. rewrite Hu64.
  destruct (mode_attributes (attr_mode Attr)) as [attributes tag].
  destruct (Z.eqb_spec unit 0) as [E0 | Hnz].
  - split; [tauto | discriminate].
  - split; [split; [discriminate | contradiction] |].
    intros FileInfo [= <-]. cbn [AllocationSize FileSize].
    set (size := attr_size Attr) in *.
    set (x := to_UINT64 (to_UINT64 (size + unit) - 1)).
    assert (Hx : x = (size + unit - 1) mod 2 ^ 64).
    { subst x. unfold to_UINT64. apply Zminus_mod_idemp_l. }
    assert (Hxr : 0 <= x < 2 ^ 64) by (rewrite Hx; apply Z.mod_pos_bound; lia).
    assert (Hpos : 0 < unit) by lia.
    pose proof (Z.div_mod x unit Hnz) as Hdm.
    pose proof (Z.mod_pos_bound x unit Hpos) as Hmb.
    assert (Hq : 0 <= x / unit) by (apply Z.div_pos; lia).
    assert (Hprod : 0 <= x / unit * unit <= x) by nia.
    rewrite (to_UINT64_id (x / unit * unit)) by (unfold is_UINT64; lia).
    split; [apply Z.mod_mul; exact Hnz |].
    split; [unfold is_UINT64; lia |].
    destruct (Z.lt_ge_cases (size + unit - 1) (2 ^ 64)) as [Hfit | Hwrap].
    + rewrite Z.mod_small in Hx by lia. split; [intros _; exact Hfit | intros _].
      nia.
    + assert (Hx' : x = size + unit - 1 - 2 ^ 64).
      { rewrite Hx. symmetry. apply Z.mod_unique with (q := 1); lia. }
      split; intros; lia.
Qed.

(** X2.  The attributes and the reparse tag depend on the file-type bits
    of the mode alone (permission bits never matter); the reparse-point
    attribute goes with a non-zero tag and with nothing else, the directory
    attribute with the directory type and with nothing else; hard links and
    EA size are always reported as zero. *)
Theorem FuseAttrToFileInfo_attributes (Params : FSP_FSCTL_VOLUME_PARAMS)
    (Attr : FUSE_PROTO_ATTR) (FileInfo : FSP_FSCTL_FILE_INFO) :
  FuseAttrToFileInfo Params Attr = Some FileInfo ->
  (forall Attr' FileInfo',
     Z.land (attr_mode Attr') S_IFMT = Z.land (attr_mode Attr) S_IFMT ->
     FuseAttrToFileInfo Params Attr' = Some FileInfo' ->
     FileAttributes FileInfo' = FileAttributes FileInfo /\
     ReparseTag FileInfo' = ReparseTag FileInfo) /\
  (FileAttributes FileInfo = FILE_ATTRIBUTE_REPARSE_POINT <-> ReparseTag FileInfo <> 0) /\
  (FileAttributes FileInfo = FILE_ATTRIBUTE_DIRECTORY <->
   Z.land (attr_mode Attr) S_IFMT = S_IFDIR) /\
  (FileAttributes FileInfo = 0 \/
   FileAttributes FileInfo = FILE_ATTRIBUTE_DIRECTORY \/
   FileAttributes FileInfo = FILE_ATTRIBUTE_REPARSE_POINT) /\
  HardLinks FileInfo = 0 /\ EaSize FileInfo = 0.
Proof.
  intros Hfi.
  assert (Hshape : forall A F, FuseAttrToFileInfo Params A = Some F ->
            (FileAttributes F, ReparseTag F) = mode_attributes (attr_mode A) /\
            HardLinks F = 0 /\ EaSize F = 0).
  { intros A F. unfold FuseAttrToFileInfo.
    destruct (mode_attributes (attr_mode A)) as [a t].
    destruct (_ =? 0); [discriminate |]. intros [= <-]. cbn. auto. }
  destruct (Hshape _ _ Hfi) as (Hma & Hhl & Hea).
  assert (Hcases :
    let t := Z.land (attr_mode Attr) S_IFMT in
    (t = S_IFDIR /\ FileAttributes FileInfo = FILE_ATTRIBUTE_DIRECTORY /\
     ReparseTag FileInfo = 0) \/
    (t <> S_IFDIR /\ FileAttributes FileInfo = FILE_ATTRIBUTE_REPARSE_POINT /\
     (ReparseTag FileInfo = IO_REPARSE_TAG_NFS \/
      ReparseTag FileInfo = IO_REPARSE_TAG_SYMLINK)) \/
    (t <> S_IFDIR /\ FileAttributes FileInfo = 0 /\ ReparseTag FileInfo = 0)).
  { cbv zeta. unfold mode_attributes in Hma.
    destruct (Z.eqb_spec (Z.land (attr_mode Attr) S_IFMT) S_IFDIR) as [E | NE].
    - injection Hma as Ha Ht. auto.
    - destruct (_ || _); [injection Hma as Ha Ht; auto 10 |].
      destruct (_ =? S_IFLNK); injection Hma as Ha Ht; auto 10. }
  cbv zeta in Hcases.
  split; [| split; [| split; [| split; [| split]]]]; try assumption.
  - intros Attr' FileInfo' Hmode Hfi'.
    destruct (Hshape _ _ Hfi') as (Hma' & _).
    assert (E : mode_attributes (attr_mode Attr') = mode_attributes (attr_mode Attr)).
    { unfold mode_attributes. rewrite Hmode. reflexivity. }
    rewrite E, <- Hma in Hma'. injection Hma' as Ha Ht. auto.
  - destruct Hcases as [(_ & Ha & Ht) | [(_ & Ha & [Ht | Ht]) | (_ & Ha & Ht)]];
      rewrite Ha, Ht; split; intros H; try discriminate; try reflexivity;
      try (exfalso; apply H; reflexivity).
  - destruct Hcases as [(E & Ha & Ht) | [(NE & Ha & _) | (NE & Ha & _)]];
      rewrite Ha; split; intros H; try discriminate; try reflexivity; try assumption;
      contradiction.
  - destruct Hcases as [(_ & Ha & _) | [(_ & Ha & _) | (_ & Ha & _)]]; auto.
Qed.

End MoreAttrFacts.

Lemma FuseAttrToFileInfo_allocation_witness :
  FuseAttrToFileInfo (HELPERS := helpers0) sample_params sample_attr <> None /\
  (forall FileInfo,
     FuseAttrToFileInfo (HELPERS := helpers0) sample_params sample_attr = Some FileInfo ->
     AllocationSize FileInfo mod 4096 = 0 /\ FileSize FileInfo <= AllocationSize FileInfo).
Proof.
  assert (Hp : params_ok sample_params) by (unfold params_ok, is_UINT16; cbn; lia).
  assert (Ha : attr_ok sample_attr) by (unfold attr_ok, is_UINT64, is_UINT32; cbn; lia).
  destruct (FuseAttrToFileInfo_allocation (HELPERS := helpers0) sample_params sample_attr
              Hp Ha) as [Hnone Hsome].
  split.
  - intros E. apply Hnone in E. discriminate E.
  - intros FileInfo Hfi. destruct (Hsome FileInfo Hfi) as (Hmul & _ & Hge).
    split; [exact Hmul |]. apply Hge. cbn. lia.
Defined.

Lemma FuseAttrToFileInfo_attributes_witness :
  exists FileInfo,
    FuseAttrToFileInfo (HELPERS := helpers0) sample_params sample_attr = Some FileInfo /\
    FileAttributes FileInfo <> FILE_ATTRIBUTE_DIRECTORY /\ HardLinks FileInfo = 0.
Proof.
  destruct (FuseAttrToFileInfo (HELPERS := helpers0) sample_params sample_attr)
    as [FileInfo |] eqn:Hfi; [| vm_compute in Hfi; discriminate Hfi].
  exists FileInfo. split; [reflexivity |].
  destruct (FuseAttrToFileInfo_attributes (HELPERS := helpers0) sample_params sample_attr
              FileInfo Hfi) as (_ & _ & Hdir & _ & Hhl & _).
  split; [| exact Hhl].
  intros E. apply Hdir in E. vm_compute in E. discriminate E.
Defined.

Section MoreEncoderFacts.
Context `{PROTO : FUSE_PROTO} `{HELPERS : FUSE_HELPERS}.


(** X4.  On its first entry a fill routine changes nothing of a context
    but the request, the coroutine state and, for the two forget routines,
    the forget list: the identity, both internal messages, the originator's
    uid, gid and pid, the inode, the lookup scratch, the [Fini] hook and
    the response pointer stay, so that the result is the context given with
    those three fields replaced.  It stamps the request with the uid, gid
    and pid of the originator.  GETATTR and OPENDIR write the
    header only and leave the payload of the buffer as they find it.  The
    routines with a fixed request size write that size, which is within the
    minimum request size. *)
Theorem fill_first_entry_frame (f : FILL_ROUTINE) (c : FUSE_CONTEXT) :
  CoroState c = 0 ->
  let c' := fill f c in
  (Address c' = Address c /\ InternalRequest c' = InternalRequest c /\
   InternalResponse c' = InternalResponse c /\
   OrigUid c' = OrigUid c /\ OrigGid c' = OrigGid c /\ OrigPid c' = OrigPid c /\
   Ino c' = Ino c /\ Lookup c' = Lookup c /\ Fini c' = Fini c /\
   FuseResponse c' = FuseResponse c) /\
  c' = {| Address := Address c; InternalRequest := InternalRequest c;
          InternalResponse := InternalResponse c; OrigUid := OrigUid c;
          OrigGid := OrigGid c; OrigPid := OrigPid c; Ino := Ino c;
          Lookup := Lookup c; Forget := Forget c'; CoroState := CoroState c';
          Fini := Fini c; FuseRequest := FuseRequest c';
          FuseResponse := FuseResponse c |} /\
  (req_uid (FuseRequest c') = OrigUid c /\ req_gid (FuseRequest c') = OrigGid c /\
   req_pid (FuseRequest c') = OrigPid c) /\
  (is_send_routine f = true -> Forget c' = Forget c) /\
  (f = SendGetattr \/ f = SendOpendir -> req (FuseRequest c') = req (FuseRequest c)) /\
  (proto_ok -> forall m, fixed_size_member f = Some m ->
     req_len (FuseRequest c') = FUSE_PROTO_REQ_SIZE m /\
     req_len (FuseRequest c') <= FUSE_PROTO_REQ_SIZEMIN).
Proof.
  intros Hentry c'.
  assert (Hfixed : proto_ok -> forall m,
            to_UINT32 (FUSE_PROTO_REQ_SIZE m) = FUSE_PROTO_REQ_SIZE m /\
            FUSE_PROTO_REQ_SIZE m <= FUSE_PROTO_REQ_SIZEMIN).
  { intros (_ & Hsize & _ & _ & Hmin & _) m. specialize (Hsize m).
    split; [| lia]. apply to_UINT32_id. unfold is_UINT32. lia. }
  subst c'.
  destruct f; cbn [fill is_send_routine fixed_size_member];
    unfold FuseProtoSendInit, FuseProtoSendLookup, FuseProtoSendGetattr,
      FuseProtoSendOpen, FuseProtoSendOpendir, FuseProtoFillForget,
      FuseProtoFillBatchForget;
    rewrite ?Hentry; cbn [Z.eqb];
    repeat match goal with
           | |- context [let '(_, _) := ?x in _] => destruct x
           end;
    cbn;
    (split; [repeat split; reflexivity |]); (split; [reflexivity |]);
    (split; [auto |]); (split; [auto; discriminate |]);
    (split; [intros [E | E]; try discriminate E; reflexivity |]);
    intros Hok m [= <-];
    match goal with
    | |- to_UINT32 (FUSE_PROTO_REQ_SIZE ?m) = _ /\ _ =>
        destruct (Hfixed Hok m) as [E L]; rewrite E; split; [reflexivity | exact L]
    end.
Qed.

(** X5.  The length [FuseProtoFillBatchForget] writes stays below the
    minimum request size plus one tuple, and its assertion (the length is
    within the minimum request size) holds exactly when the whole list fits
    or the room after the batch-forget request is a whole number of tuples:
    the loop tests where a tuple starts, not where it ends. *)
Theorem FuseProtoFillBatchForget_assert_iff (c : FUSE_CONTEXT) :
  proto_ok ->
  let N := Z.of_nat (length (ForgetList (Forget c))) in
  let span := FUSE_PROTO_REQ_SIZEMIN - FUSE_PROTO_REQ_SIZE m_batch_forget in
  (FuseProtoFillBatchForget_assert c = true <->
   N <= batch_fit \/ span mod sizeof_FUSE_PROTO_FORGET_ONE = 0) /\
  req_len (FuseRequest (FuseProtoFillBatchForget c))
    < FUSE_PROTO_REQ_SIZEMIN + sizeof_FUSE_PROTO_FORGET_ONE.
Proof.
  intros Hok N span.
  destruct (FuseProtoFillBatchForget_spec c Hok) as (_ & _ & _ & Hlen & _).
  unfold FuseProtoFillBatchForget_assert, len_within_SIZEMIN.
  rewrite Hlen, Z.geb_le. fold N.
  destruct Hok as (_ & Hsize & Hsz & Hone & _).
  pose proof (Hsize m_batch_forget) as HBF.
  set (sz := sizeof_FUSE_PROTO_FORGET_ONE) in *.
  assert (Hnz : sz <> 0) by lia.
  assert (Hspan : 0 <= span) by (subst span; lia).
  pose proof (Z.div_mod span sz Hnz) as Hdm.
  pose proof (Z.mod_pos_bound span sz Hsz) as Hmb.
  assert (Hfit : batch_fit = span / sz) by reflexivity.
  assert (Hfit0 : 0 <= span / sz) by (apply Z.div_pos; lia).
  assert (Hcap : batch_capacity = if span mod sz =? 0 then span / sz else span / sz + 1).
  { unfold batch_capacity. fold span sz.
    destruct (Z.eqb_spec (span mod sz) 0) as [E | NE].
    - symmetry. apply Z.div_unique with (r := sz - 1); lia.
    - symmetry. apply Z.div_unique with (r := span mod sz - 1); lia. }
  set (k := Z.min N batch_capacity).
  assert (HN : 0 <= N) by (subst N; lia).
  assert (Hle : FUSE_PROTO_REQ_SIZE m_batch_forget + k * sz <= FUSE_PROTO_REQ_SIZEMIN
                <-> k <= span / sz).
  { split; intros H.
    - apply Z.div_le_lower_bound; [lia |]. subst span. lia.
    - assert (Hsz0 : 0 <= sz) by lia.
      pose proof (Z.mul_le_mono_nonneg_r _ _ _ Hsz0 H). subst span. lia. }
  split.
  - rewrite Hle, Hfit. subst k. rewrite Hcap.
    destruct (Z.eqb_spec (span mod sz) 0) as [E | NE]; lia.
  - assert (Hk : k <= span / sz + 1).
    { subst k. rewrite Hcap. destruct (span mod sz =? 0); lia. }
    assert (Hk0 : 0 <= k) by (subst k; rewrite Hcap; destruct (span mod sz =? 0); lia).
    destruct (Z.eqb_spec (span mod sz) 0) as [E | NE].
    + assert (k <= span / sz) by (subst k; rewrite Hcap; lia).
      assert (Hsz0 : 0 <= sz) by lia.
      pose proof (Z.mul_le_mono_nonneg_r _ _ _ Hsz0 H). subst span. lia.
    + assert (Hsz0 : 0 <= sz) by lia.
      pose proof (Z.mul_le_mono_nonneg_r _ _ _ Hsz0 Hk). subst span. lia.
Qed.

End MoreEncoderFacts.


Lemma fill_first_entry_frame_witness :
  req_len (FuseRequest (FuseProtoSendInit (PROTO := fuse7) (HELPERS := helpers0)
                          sample_context)) = 56 /\
  req_uid (FuseRequest (FuseProtoSendInit (PROTO := fuse7) (HELPERS := helpers0)
                          sample_context)) = 1000.
Proof.
  destruct (fill_first_entry_frame (PROTO := fuse7) (HELPERS := helpers0)
              SendInit sample_context eq_refl)
    as (_ & _ & (Huid & _) & _ & _ & Hfixed).
  split; [| exact Huid].
  apply (Hfixed fuse7_ok m_init eq_refl).
Defined.

Lemma ragged_proto_ok : proto_ok (PROTO := ragged_proto).
Proof.
  unfold proto_ok, is_UINT32. cbn.
  repeat split; try lia. all: destruct m; lia.
Qed.

(** With 152 bytes of room, seventeen queued inodes make the loop write a
    tenth tuple that ends at byte 208. *)
Lemma FuseProtoFillBatchForget_assert_iff_witness :
  FuseProtoFillBatchForget_assert (PROTO := ragged_proto) seventeen_context = false /\
  FuseProtoFillBatchForget_assert (PROTO := fuse7) seventeen_context = true.
Proof.
  split.
  - apply not_true_is_false. intros Hassert.
    apply (FuseProtoFillBatchForget_assert_iff (PROTO := ragged_proto)
             seventeen_context ragged_proto_ok) in Hassert.
    vm_compute in Hassert. destruct Hassert as [H | H]; [apply H; reflexivity | discriminate].
  - apply (FuseProtoFillBatchForget_assert_iff (PROTO := fuse7)
             seventeen_context fuse7_ok).
    left. vm_compute. discriminate.
Defined.

(** * Further properties of the transact engine *)

Section MoreTransactFacts.
Context `{PROTO : FUSE_PROTO} `{HELPERS : FUSE_HELPERS} `{ENV : COLLABORATORS}.

Lemma occurrences_app {A} (p : A -> bool) (l1 l2 : list A) :
  occurrences p (l1 ++ l2) = (occurrences p l1 + occurrences p l2)%nat.
Proof.
  induction l1 as [| e l1 IH]; cbn [occurrences app]; [reflexivity |].
  destruct (p e); rewrite IH; reflexivity.
Qed.

Lemma NT_SUCCESS_denied : NT_SUCCESS STATUS_ACCESS_DENIED = false.
Proof. reflexivity. Qed.

Lemma NT_SUCCESS_cancelled : NT_SUCCESS STATUS_CANCELLED = false.
Proof. reflexivity. Qed.

(** Split on the next test the routine makes. *)
Ltac next_test :=
  match goal with
  | |- context [negb ?b] => destruct b eqn:?; cbn [negb]
  | |- context [orb ?a ?b] => destruct a eqn:?; cbn [orb]
  | |- context [match ?x with _ => _ end] =>
      lazymatch x with
      | context [match _ with _ => _ end] => fail
      | _ => destruct x eqn:?
      end
  end.

(** What the dispatch on a live context leaves behind. *)
Lemma transact_dispatch_outcome c k s :
  let r := transact_dispatch c k s in
  ends_well (Information s) r /\ Buffer (snd r) = Buffer s /\
  exists l, continues s r l /\ quiet l /\ occurrences is_process l = O /\
            (length l <= 2)%nat.
Proof.
  cbv zeta.
  unfold transact_dispatch, transact_done, transact_exit, do_Send, ends_well,
    continues, quiet.
  repeat next_test; cbn [fst snd] in *;
    (split; [cbn; auto 6 |]); (split; [reflexivity |]);
    eexists;
    (split; [cbn; rewrite <- ?app_assoc;
             first [reflexivity | symmetry; apply app_nil_r] |]);
    cbn; auto 8 with arith.
Qed.

(** What the dispatch on a status-only context leaves behind. *)
Lemma transact_dispatch_status_outcome st ireq s :
  let rsp := {| irsp_Size := sizeof_FSP_FSCTL_TRANSACT_RSP; irsp_Kind := ireq_Kind ireq;
                irsp_Hint := ireq_Hint ireq; irsp_Status := st |} in
  let r := transact_dispatch_status st ireq s in
  ends_well (Information s) r /\ Buffer (snd r) = Buffer s /\
  Instance (snd r) = Instance s /\
  continues s r [EvProviderSend rsp; EvFreeExternal ireq] /\
  fst r = (if NT_SUCCESS (FspFsextProviderTransact_send rsp) then STATUS_SUCCESS
           else FspFsextProviderTransact_send rsp).
Proof.
  cbv zeta.
  unfold transact_dispatch_status, transact_done, transact_exit, do_Send, ends_well,
    continues.
  repeat next_test; cbn [fst snd] in *;
    (split; [cbn; auto 6 |]); (split; [reflexivity |]); (split; [reflexivity |]);
    (split; [cbn; rewrite <- ?app_assoc; reflexivity |]); reflexivity.
Qed.

Lemma do_Process_frame c rsp out s :
  let r := do_Process c rsp out s in
  Information (snd r) = Information s /\ Ioq (Instance (snd r)) = Ioq (Instance s) /\
  VersionMajor (Instance (snd r)) = VersionMajor (Instance s) /\
  Log (snd r) = Log s ++ [EvContextProcess (Address c)].
Proof. unfold do_Process. destruct out; cbn; auto. Qed.

(** What pulling a request from the host framework leaves behind. *)
Lemma transact_receive_outcome Irp s :
  let r := transact_receive Irp s in
  (Information s = 0 -> ends_well 0 r) /\
  exists l, continues s r (EvProviderReceive :: l) /\
            occurrences is_wait l = O /\ occurrences is_receive l = O /\
            (occurrences is_process l <= 1)%nat.
Proof.
  cbv zeta. unfold transact_receive.
  destruct FspFsextProviderTransact_receive as [Result [ireq |]];
    destruct (NT_SUCCESS Result) eqn:Hsucc; cbn [negb].
  - destruct (FuseContextCreate (Some ireq)) as [c | st].
    + set (s0 := emit EvContextCreate (emit EvProviderReceive s)).
      destruct (do_Process c None (Some (OutputBufferLength Irp)) s0)
        as [[k c'] s'] eqn:Hp.
      pose proof (do_Process_frame c None (Some (OutputBufferLength Irp)) s0) as Hframe.
      rewrite Hp in Hframe. cbn [snd] in Hframe.
      destruct Hframe as (Hinfo & _ & _ & Hlog).
      destruct (transact_dispatch_outcome c' k s')
        as (Hends & _ & l & Hl & (Hw & Hr & _) & Hproc & _).
      split.
      * intros H0. rewrite Hinfo in Hends. subst s0. cbn in Hends. rewrite H0 in Hends.
        exact Hends.
      * exists (EvContextCreate :: EvContextProcess (Address c) :: l).
        unfold continues in *. rewrite Hl, Hlog. subst s0. cbn.
        rewrite <- !app_assoc. cbn. rewrite Hw, Hr, Hproc. auto.
    + destruct (transact_dispatch_status_outcome st ireq
                  (emit EvContextCreate (emit EvProviderReceive s)))
        as (Hends & _ & _ & Hl & _).
      split.
      * intros H0. cbn in Hends. rewrite H0 in Hends. exact Hends.
      * eexists. unfold continues in *. rewrite Hl. cbn. rewrite <- !app_assoc. cbn.
        split; [reflexivity |]. cbn. auto.
  - split.
    + intros H0. right. cbn. auto.
    + exists [EvFreeExternal ireq]. unfold continues. cbn. rewrite <- !app_assoc. auto.
  - split.
    + intros H0. left. cbn. auto.
    + exists []. unfold continues. cbn. auto.
  - split.
    + intros H0. right. cbn. auto.
    + exists []. unfold continues. cbn. auto.
Qed.

(** What the request half-step leaves behind when nothing is pending. *)
Lemma transact_idle_outcome Irp s :
  let r := transact_idle Irp s in
  (Information s = 0 -> ends_well 0 r) /\
  exists l, continues s r l /\
            (occurrences is_process l <= 1)%nat /\
            (occurrences is_receive l <= 1)%nat /\
            (occurrences is_wait l = O \/
             occurrences is_wait l = 1%nat /\ VersionMajor (Instance s) = 0).
Proof.
  cbv zeta.
  destruct (transact_receive_outcome Irp s) as (Hends & l & Hl & Hw & Hr & Hp).
  destruct (transact_receive_outcome Irp (emit EvWaitInitEvent s))
    as (Hends' & l' & Hl' & Hw' & Hr' & Hp').
  unfold transact_idle.
  destruct (Z.eqb_spec (VersionMajor (Instance s)) 0) as [Hzero | Hnz].
  - destruct ((_ =? STATUS_TIMEOUT) || _).
    + cbn [negb]. rewrite NT_SUCCESS_cancelled. cbn [negb]. split.
      * intros H0. right. cbn. auto.
      * exists [EvWaitInitEvent]. unfold continues. cbn. auto 6.
    + destruct (NT_SUCCESS FsRtlCancellableWaitForSingleObject) eqn:Hwait; cbn [negb].
      * destruct (VersionMajor_after_wait =? to_UINT32 (-1)).
        -- split.
           ++ intros H0. right. cbn. auto.
           ++ exists [EvWaitInitEvent]. unfold continues. cbn. auto 6.
        -- split; [exact Hends' |].
           exists (EvWaitInitEvent :: EvProviderReceive :: l').
           unfold continues in *. rewrite Hl'. cbn. rewrite <- !app_assoc. cbn.
           rewrite Hw', Hr'. auto 6 with arith.
      * split.
        -- intros H0. right. cbn. auto.
        -- exists [EvWaitInitEvent]. unfold continues. cbn. auto 6.
  - destruct (VersionMajor (Instance s) =? to_UINT32 (-1)).
    + split.
      * intros H0. right. cbn. auto.
      * exists []. unfold continues. cbn. rewrite app_nil_r. auto 6.
    + split; [exact Hends |].
      exists (EvProviderReceive :: l). unfold continues in *. rewrite Hl. cbn.
      rewrite Hw, Hr. auto 6 with arith.
Qed.

(** The request half-step on a context it finds pending. *)
Lemma transact_request_pending Irp s c rest :
  OutputBufferLength Irp <> 0 -> PendingList (Ioq (Instance s)) = c :: rest ->
  let s1 := put_Ioq {| PendingList := rest; ProcessMap := ProcessMap (Ioq (Instance s)) |}
              (emit EvIoqNextPending
                 (put_Buffer (zero_header (Buffer s)) (put_Information 0 s))) in
  let p := FuseContextProcess (Cache (Instance s)) c None
             (Some (zero_header (Buffer s), OutputBufferLength Irp)) in
  let s2 := put_Buffer (ProcessRequest p)
              (put_Cache (ProcessCache p) (emit (EvContextProcess (Address c)) s1)) in
  transact_request Irp s = transact_dispatch (ProcessContext p) (Continue p) s2.
Proof.
  intros Hout Hpending. cbv zeta. unfold transact_request.
  destruct (Z.eqb_spec (OutputBufferLength Irp) 0) as [E | _]; [contradiction |].
  cbn [negb]. unfold FuseIoqNextPending.
  change (PendingList (Ioq (Instance (put_Buffer
            (zero_header (Buffer (put_Information 0 s))) (put_Information 0 s)))))
    with (PendingList (Ioq (Instance s))).
  rewrite Hpending. reflexivity.
Qed.

(** What the request half-step leaves behind. *)
Lemma transact_request_outcome Irp s :
  let r := transact_request Irp s in
  let pending := PendingList (Ioq (Instance s)) in
  ends_well 0 r /\
  (OutputBufferLength Irp = 0 ->
   fst r = STATUS_SUCCESS /\ Information (snd r) = 0 /\ Log (snd r) = Log s) /\
  exists l, continues s r l /\
            (occurrences is_process l <= 1)%nat /\
            (occurrences is_receive l <= 1)%nat /\
            (occurrences is_wait l = O \/
             occurrences is_wait l = 1%nat /\ VersionMajor (Instance s) = 0 /\
             pending = [] /\ OutputBufferLength Irp <> 0) /\
            (occurrences is_receive l = 1%nat -> pending = []) /\
            (pending <> [] -> quiet l).
Proof.
  cbv zeta.
  destruct (Z.eq_dec (OutputBufferLength Irp) 0) as [Hzero | Hout].
  - unfold transact_request. rewrite Hzero. cbn.
    split; [left; auto |]. split; [auto |].
    exists []. unfold continues, quiet. cbn. rewrite app_nil_r.
    repeat split; auto; discriminate.
  - split; [| split; [contradiction |]].
    + destruct (PendingList (Ioq (Instance s))) as [| c rest] eqn:Hpending.
      * unfold transact_request.
        destruct (Z.eqb_spec (OutputBufferLength Irp) 0) as [E | _]; [contradiction |].
        cbn [negb]. unfold FuseIoqNextPending.
        change (PendingList (Ioq (Instance (put_Buffer
                  (zero_header (Buffer (put_Information 0 s))) (put_Information 0 s)))))
          with (PendingList (Ioq (Instance s))).
        rewrite Hpending.
        eapply transact_idle_outcome. reflexivity.
      * rewrite (transact_request_pending Irp s c rest Hout Hpending).
        eapply transact_dispatch_outcome.
    + destruct (PendingList (Ioq (Instance s))) as [| c rest] eqn:Hpending.
      * unfold transact_request.
        destruct (Z.eqb_spec (OutputBufferLength Irp) 0) as [E | _]; [contradiction |].
        cbn [negb]. unfold FuseIoqNextPending.
        change (PendingList (Ioq (Instance (put_Buffer
                  (zero_header (Buffer (put_Information 0 s))) (put_Information 0 s)))))
          with (PendingList (Ioq (Instance s))).
        rewrite Hpending.
        set (s1 := put_Ioq _ _).
        destruct (transact_idle_outcome Irp s1) as (_ & l & Hl & Hp & Hr & Hw).
        exists (EvIoqNextPending :: l). unfold continues in *. rewrite Hl.
        split; [subst s1; cbn; rewrite <- app_assoc; reflexivity |].
        cbn. split; [exact Hp |]. split; [exact Hr |].
        split; [| split; [reflexivity | intros H; contradiction]].
        destruct Hw as [Hw | [Hw Hv]]; [left; exact Hw | right; auto].
      * rewrite (transact_request_pending Irp s c rest Hout Hpending).
        set (s2 := put_Buffer _ _).
        destruct (transact_dispatch_outcome
                    (ProcessContext (FuseContextProcess (Cache (Instance s)) c None
                       (Some (zero_header (Buffer s), OutputBufferLength Irp))))
                    (Continue (FuseContextProcess (Cache (Instance s)) c None
                       (Some (zero_header (Buffer s), OutputBufferLength Irp)))) s2)
          as (_ & _ & l & Hl & (Hw & Hr & Hc & Hf) & Hp & _).
        exists (EvIoqNextPending :: EvContextProcess (Address c) :: l).
        unfold continues in *. rewrite Hl.
        split; [subst s2; cbn; rewrite <- !app_assoc; reflexivity |].
        unfold quiet. cbn. rewrite Hw, Hr, Hc, Hf, Hp.
        repeat split; auto; discriminate.
Qed.

(** X6.  The request half-step waits on the init event at most once, and
    only when nothing is pending and the version major is 0; it asks the
    host framework for a new request at most once and only when nothing is
    pending; it resumes at most one context; and while a context is pending
    it neither waits, nor asks the host, nor creates a context, nor frees
    an internal request. *)
Theorem request_half_step_calls (Irp : IRP) (s : STATE) :
  let pending := PendingList (Ioq (Instance s)) in
  exists l,
    Log (snd (transact_request Irp s)) = Log s ++ l /\
    (occurrences is_process l <= 1)%nat /\
    (occurrences is_receive l <= 1)%nat /\
    (occurrences is_wait l <= 1)%nat /\
    (occurrences is_wait l = 1%nat -> VersionMajor (Instance s) = 0 /\ pending = []) /\
    (occurrences is_receive l = 1%nat -> pending = []) /\
    (pending <> [] ->
     occurrences is_wait l = O /\ occurrences is_receive l = O /\
     occurrences is_create l = O /\ occurrences is_free l = O).
Proof.
  cbv zeta.
  destruct (transact_request_outcome Irp s) as (_ & _ & l & Hl & Hp & Hr & Hw & Hrp & Hq).
  exists l. split; [exact Hl |]. split; [exact Hp |]. split; [exact Hr |].
  split; [destruct Hw as [-> | [-> _]]; auto |].
  split; [| split; [exact Hrp | exact Hq]].
  intros H1. destruct Hw as [H0 | (_ & Hv & Hpe & _)]; [| auto].
  rewrite H0 in H1. discriminate H1.
Qed.

(** What the response half-step, and the request half-step after it, leave
    behind. *)
Lemma transact_response_outcome Irp s :
  let r := transact_response Irp s in
  (ends_well 0 r \/
   NT_SUCCESS (fst r) = false /\ Information (snd r) = Information s) /\
  exists l, continues s r l /\ (occurrences is_process l <= 2)%nat.
Proof.
  cbv zeta. unfold transact_response.
  assert (Hreq : forall s', exists l',
            continues s' (transact_request Irp s') l' /\
            (occurrences is_process l' <= 1)%nat).
  { intros s'. destruct (transact_request_outcome Irp s') as (_ & _ & l' & Hl' & Hp' & _).
    eauto. }
  destruct (InputBufferLength Irp =? 0); cbn [negb].
  - split; [left; apply transact_request_outcome |].
    destruct (Hreq s) as (l & Hl & Hp). exists l. split; [exact Hl | lia].
  - destruct (FuseIoqEndProcessing _ _) as [[c |] q].
    + set (s0 := put_Ioq q _).
      destruct (do_Process c (Some (SystemBuffer_rsp Irp)) None s0) as [[k c'] s1] eqn:Hdo.
      pose proof (do_Process_frame c (Some (SystemBuffer_rsp Irp)) None s0) as Hframe.
      rewrite Hdo in Hframe. cbn [snd] in Hframe.
      destruct Hframe as (Hinfo & _ & _ & Hlog).
      assert (Hlog0 : Log s0 = Log s ++ [EvIoqEndProcessing (rsp_unique (SystemBuffer_rsp Irp))])
        by reflexivity.
      destruct k.
      * split; [left; apply transact_request_outcome |].
        destruct (Hreq (do_PostPending c' s1)) as (l & Hl & Hp).
        eexists. unfold continues in *. rewrite Hl. cbn. rewrite Hlog, Hlog0.
        rewrite <- !app_assoc. split; [reflexivity |].
        cbn. lia.
      * destruct (InternalRequest c').
        -- unfold do_Send.
           destruct (NT_SUCCESS (FspFsextProviderTransact_send (InternalResponse c')))
             eqn:Hsend; cbn [negb].
           ++ split; [left; apply transact_request_outcome |].
              set (s2 := do_Delete c' _).
              destruct (Hreq s2) as (l & Hl & Hp).
              eexists. unfold continues in *. rewrite Hl. subst s2. cbn.
              rewrite Hlog, Hlog0. rewrite <- !app_assoc. split; [reflexivity |].
              cbn. lia.
           ++ split.
              ** right. cbn. split; [exact Hsend |]. rewrite Hinfo. reflexivity.
              ** eexists. unfold continues. cbn. rewrite Hlog, Hlog0.
                 rewrite <- !app_assoc. split; [reflexivity |]. cbn. lia.
        -- split; [left; apply transact_request_outcome |].
           destruct (Hreq (do_Delete c' s1)) as (l & Hl & Hp).
           eexists. unfold continues in *. rewrite Hl. cbn. rewrite Hlog, Hlog0.
           rewrite <- !app_assoc. split; [reflexivity |].
           cbn. lia.
    + split; [left; apply transact_request_outcome |].
      set (s0 := put_Ioq q _).
      destruct (Hreq s0) as (l & Hl & Hp).
      eexists. unfold continues in *. rewrite Hl. subst s0. cbn.
      rewrite <- !app_assoc. split; [reflexivity |]. cbn. lia.
Qed.

(** X7.  A transact call returns STATUS_SUCCESS or a failure status, never
    another success code (the STATUS_TIMEOUT of the wait and any
    informational success of the host framework are not passed up).  When
    it succeeds, the I/O information is the length of the request in the
    buffer or zero, and zero when there is no output buffer; when it fails,
    the I/O information is zero or is left as the caller had it.  A call
    resumes at most two contexts. *)
Theorem FuseDeviceTransact_status_information (Inst : FUSE_INSTANCE) (Irp : IRP) :
  let r := FuseDeviceTransact Inst Irp in
  (fst r = STATUS_SUCCESS \/ NT_SUCCESS (fst r) = false) /\
  (fst r = STATUS_SUCCESS ->
   (Information (snd r) = 0 \/ Information (snd r) = req_len (Buffer (snd r))) /\
   (OutputBufferLength Irp = 0 -> Information (snd r) = 0)) /\
  (NT_SUCCESS (fst r) = false ->
   Information (snd r) = 0 \/ Information (snd r) = IoStatus_Information Irp) /\
  (occurrences is_process (Log (snd r)) <= 2)%nat.
Proof.
  cbv zeta.
  assert (Hzero : OutputBufferLength Irp = 0 ->
            forall s, Information (snd (transact_response Irp s)) = 0 \/
                      NT_SUCCESS (fst (transact_response Irp s)) = false).
  { intros Hout s.
    assert (Hreq : forall s', Information (snd (transact_request Irp s')) = 0).
    { intros s'. apply transact_request_outcome. exact Hout. }
    unfold transact_response.
    repeat next_test; cbn [fst snd]; auto. }
  unfold FuseDeviceTransact. cbv zeta.
  destruct (bad_response Irp).
  { cbn [fst snd]. split; [right; reflexivity |]. split; [intros E; discriminate E |].
    split; [intros _; right; reflexivity | cbn; lia]. }
  destruct (small_request Irp).
  { cbn [fst snd]. split; [right; reflexivity |]. split; [intros E; discriminate E |].
    split; [intros _; right; reflexivity | cbn; lia]. }
  destruct (transact_response_outcome Irp (transact_enter Inst Irp))
    as (Hends & l & Hl & Hp).
  unfold continues in Hl.
  change (Log (transact_enter Inst Irp)) with (@nil EVENT) in Hl. cbn [app] in Hl.
  rewrite Hl.
  unfold ends_well in Hends.
  split; [| split; [| split]]; [| | | exact Hp].
  - destruct Hends as [[[E _] | [E _]] | [E _]]; auto.
  - intros Hok. split.
    + destruct Hends as [[[_ E] | [E _]] | [E _]];
        [exact E | rewrite Hok in E; discriminate E | rewrite Hok in E; discriminate E].
    + intros Hout. destruct (Hzero Hout (transact_enter Inst Irp)) as [E | E];
        [exact E | rewrite Hok in E; discriminate E].
  - intros Hfail.
    destruct Hends as [[[E _] | [_ E]] | [_ E]]; auto.
    rewrite E in Hfail. discriminate Hfail.
Qed.

(** X8.  An internal request pulled from the host framework is released
    by the call exactly when it is not handed to a live context.  When the
    pull fails the request that came with it is released and the failure
    returned.  When context creation yields a status-only context, the host
    gets a response with the Kind and Hint of the request and the status of
    the context, and the request is released whether or not that response
    could be delivered; no context is resumed and the instance is as
    before.  A request bound to a live context is not released by the
    call. *)
Theorem internal_request_ownership (Irp : IRP) (s : STATE) (Result : Z)
    (ireq : FSP_FSCTL_TRANSACT_REQ) :
  FspFsextProviderTransact_receive = (Result, Some ireq) ->
  let r := transact_receive Irp s in
  (NT_SUCCESS Result = false ->
   fst r = Result /\ Instance (snd r) = Instance s /\
   Log (snd r) = Log s ++ [EvProviderReceive; EvFreeExternal ireq]) /\
  (NT_SUCCESS Result = true ->
   forall st, FuseContextCreate (Some ireq) = ContextStatus st ->
     let rsp := {| irsp_Size := sizeof_FSP_FSCTL_TRANSACT_RSP;
                   irsp_Kind := ireq_Kind ireq; irsp_Hint := ireq_Hint ireq;
                   irsp_Status := st |} in
     Log (snd r) = Log s ++ [EvProviderReceive; EvContextCreate; EvProviderSend rsp;
                             EvFreeExternal ireq] /\
     Instance (snd r) = Instance s /\
     fst r = (if NT_SUCCESS (FspFsextProviderTransact_send rsp) then STATUS_SUCCESS
              else FspFsextProviderTransact_send rsp)) /\
  (NT_SUCCESS Result = true ->
   forall c, FuseContextCreate (Some ireq) = ContextAlive c ->
     exists l,
       Log (snd r) = Log s ++ [EvProviderReceive; EvContextCreate;
                               EvContextProcess (Address c)] ++ l /\
       occurrences is_free l = O).
Proof.
  intros Hrecv r. subst r. unfold transact_receive. rewrite Hrecv.
  split; [| split].
  - intros Hfail. rewrite Hfail. cbn. rewrite <- app_assoc. auto.
  - intros Hok st Hcreate. rewrite Hok, Hcreate. cbn [negb].
    destruct (transact_dispatch_status_outcome st ireq
                (emit EvContextCreate (emit EvProviderReceive s)))
      as (_ & _ & Hinst & Hl & Hres).
    unfold continues in Hl. rewrite Hl, Hinst, Hres. cbn. rewrite <- !app_assoc.
    auto.
  - intros Hok c Hcreate. rewrite Hok, Hcreate. cbn [negb].
    set (s0 := emit EvContextCreate (emit EvProviderReceive s)).
    destruct (do_Process c None (Some (OutputBufferLength Irp)) s0) as [[k c'] s'] eqn:Hp.
    pose proof (do_Process_frame c None (Some (OutputBufferLength Irp)) s0) as Hframe.
    rewrite Hp in Hframe. cbn [snd] in Hframe. destruct Hframe as (_ & _ & _ & Hlog).
    destruct (transact_dispatch_outcome c' k s') as (_ & _ & l & Hl & (_ & _ & _ & Hf) & _).
    exists l. unfold continues in Hl. rewrite Hl, Hlog. subst s0. cbn.
    rewrite <- !app_assoc. auto.
Qed.

(** X9.  A context with an internal request that finishes in the request
    half-step has its internal response forwarded to the host exactly once
    and is then deleted, whether or not the forward succeeds; the queue
    keeps neither it nor anything new.  If the forward succeeds the call
    returns success with the length of the request as I/O information; if
    it fails the call returns that status with zero I/O information. *)
Theorem finished_context_forwarded (Irp : IRP) (s : STATE) (c : FUSE_CONTEXT)
    (rest : list FUSE_CONTEXT) :
  OutputBufferLength Irp <> 0 -> PendingList (Ioq (Instance s)) = c :: rest ->
  let p := FuseContextProcess (Cache (Instance s)) c None
             (Some (zero_header (Buffer s), OutputBufferLength Irp)) in
  let c' := ProcessContext p in
  let status := FspFsextProviderTransact_send (InternalResponse c') in
  let r := transact_request Irp s in
  Continue p = false -> is_Some (InternalRequest c') ->
  Log (snd r) = Log s ++ [EvIoqNextPending; EvContextProcess (Address c);
                          EvProviderSend (InternalResponse c');
                          EvContextDelete (Address c')] /\
  PendingList (Ioq (Instance (snd r))) = rest /\
  ProcessMap (Ioq (Instance (snd r))) = ProcessMap (Ioq (Instance s)) /\
  Cache (Instance (snd r)) = FuseContextDelete (ProcessCache p) c' /\
  (NT_SUCCESS status = true ->
   fst r = STATUS_SUCCESS /\ Information (snd r) = req_len (ProcessRequest p)) /\
  (NT_SUCCESS status = false -> fst r = status /\ Information (snd r) = 0).
Proof.
  intros Hout Hpending p c' status r Hcont [ireq Hireq].
  subst r. rewrite (transact_request_pending Irp s c rest Hout Hpending).
  fold p. fold c'. rewrite Hcont. unfold transact_dispatch. rewrite Hireq.
  unfold do_Send. fold status.
  destruct (NT_SUCCESS status); cbn; rewrite <- !app_assoc; cbn;
    repeat split; auto; discriminate.
Qed.

(** X10.  A context without an internal request whose hint is neither
    FORGET nor BATCH_FORGET and that finishes in the request half-step is
    neither re-posted, nor put in processing, nor deleted: the switch on
    the hint has no case for it.  The call returns success with the length
    of the request as I/O information. *)
Theorem finished_context_unclaimed (Irp : IRP) (s : STATE) (c : FUSE_CONTEXT)
    (rest : list FUSE_CONTEXT) :
  OutputBufferLength Irp <> 0 -> PendingList (Ioq (Instance s)) = c :: rest ->
  let p := FuseContextProcess (Cache (Instance s)) c None
             (Some (zero_header (Buffer s), OutputBufferLength Irp)) in
  let c' := ProcessContext p in
  let r := transact_request Irp s in
  Continue p = false -> InternalRequest c' = None ->
  irsp_Hint (InternalResponse c') <> FUSE_PROTO_OPCODE_FORGET ->
  irsp_Hint (InternalResponse c') <> FUSE_PROTO_OPCODE_BATCH_FORGET ->
  fst r = STATUS_SUCCESS /\
  Information (snd r) = req_len (ProcessRequest p) /\
  Log (snd r) = Log s ++ [EvIoqNextPending; EvContextProcess (Address c)] /\
  PendingList (Ioq (Instance (snd r))) = rest /\
  ProcessMap (Ioq (Instance (snd r))) = ProcessMap (Ioq (Instance s)) /\
  Cache (Instance (snd r)) = ProcessCache p.
Proof.
  intros Hout Hpending p c' r Hcont Hnone Hf Hb.
  subst r. rewrite (transact_request_pending Irp s c rest Hout Hpending).
  fold p. fold c'. rewrite Hcont. unfold transact_dispatch. rewrite Hnone.
  destruct (Z.eqb_spec (irsp_Hint (InternalResponse c')) FUSE_PROTO_OPCODE_FORGET)
    as [E | _]; [contradiction |].
  destruct (Z.eqb_spec (irsp_Hint (InternalResponse c')) FUSE_PROTO_OPCODE_BATCH_FORGET)
    as [E | _]; [contradiction |].
  cbn. rewrite <- !app_assoc. auto 10.
Qed.

(** X11.  A response that completes a context with an internal request:
    the context leaves the processing map, is resumed with the response,
    its internal response is forwarded once and it is deleted, whether or
    not the forward succeeds.  If the forward fails the call returns that
    status at once: the request half-step does not run, and the buffer and
    the I/O information are left as they were.  If it succeeds the call
    goes on to the request half-step. *)
Theorem completing_response (Inst : FUSE_INSTANCE) (Irp : IRP) (c : FUSE_CONTEXT) :
  bad_response Irp = false -> small_request Irp = false ->
  InputBufferLength Irp <> 0 ->
  let unique := rsp_unique (SystemBuffer_rsp Irp) in
  ProcessMap (Ioq Inst) !! unique = Some c ->
  let p := FuseContextProcess (Cache Inst) c (Some (SystemBuffer_rsp Irp)) None in
  let c' := ProcessContext p in
  let status := FspFsextProviderTransact_send (InternalResponse c') in
  let s1 :=
    {| Instance :=
         with_Cache (FuseContextDelete (ProcessCache p) c')
           (with_Ioq {| PendingList := PendingList (Ioq Inst);
                        ProcessMap := delete unique (ProcessMap (Ioq Inst)) |} Inst);
       Information := IoStatus_Information Irp;
       Buffer := SystemBuffer_req Irp;
       Log := [EvIoqEndProcessing unique; EvContextProcess (Address c);
               EvProviderSend (InternalResponse c'); EvContextDelete (Address c')] |} in
  let r := FuseDeviceTransact Inst Irp in
  Continue p = false -> is_Some (InternalRequest c') ->
  (NT_SUCCESS status = false -> r = (status, s1)) /\
  (NT_SUCCESS status = true -> r = transact_request Irp s1).
Proof.
  intros Hbad Hsmall Hin unique Hfound p c' status s1 r Hcont [ireq Hireq].
  subst r. unfold FuseDeviceTransact. cbv zeta. rewrite Hbad, Hsmall.
  unfold transact_response.
  destruct (Z.eqb_spec (InputBufferLength Irp) 0) as [E | _]; [contradiction |].
  cbn [negb]. unfold FuseIoqEndProcessing.
  change (Ioq (Instance (transact_enter Inst Irp))) with (Ioq Inst).
  fold unique. rewrite Hfound. unfold do_Process.
  change (FuseContextProcess _ c (Some (SystemBuffer_rsp Irp)) (option_map _ None)) with p.
  rewrite Hcont. fold c'. rewrite Hireq. unfold do_Send. fold status.
  split; intros Hst; rewrite Hst; reflexivity.
Qed.

(** X12.  The first request-only call after a successful [FuseDeviceInit]
    finds the INIT context that was posted and resumes it: it does not
    wait on the init event, although the version major may still be 0, and
    it does not ask the host framework for a request.  If the context
    emits its request, it is the one context in processing and nothing is
    pending. *)
Theorem first_call_after_init (Inst : FUSE_INSTANCE) (Params : FSP_FSCTL_VOLUME_PARAMS)
    (Irp : IRP) (c : FUSE_CONTEXT) :
  NT_SUCCESS FuseIoqCreate = true -> NT_SUCCESS FuseCacheCreate = true ->
  FuseContextCreate None = ContextAlive c ->
  InputBufferLength Irp = 0 -> OutputBufferLength Irp <> 0 ->
  FUSE_PROTO_REQ_SIZEMIN <= OutputBufferLength Irp ->
  let Inst1 := InitInstance (FuseDeviceInit Inst Params) in
  let c0 := with_InternalResponse
              (with_Hint FUSE_PROTO_OPCODE_INIT (InternalResponse c)) c in
  let p := FuseContextProcess (Cache Inst1) c0 None
             (Some (zero_header (SystemBuffer_req Irp), OutputBufferLength Irp)) in
  let r := FuseDeviceTransact Inst1 Irp in
  (exists l,
     Log (snd r) = [EvIoqNextPending; EvContextProcess (Address c)] ++ l /\
     occurrences is_wait l = O /\ occurrences is_receive l = O /\
     occurrences is_process l = O) /\
  (Continue p = true ->
   fst r = STATUS_SUCCESS /\
   Information (snd r) = req_len (ProcessRequest p) /\
   PendingList (Ioq (Instance (snd r))) = [] /\
   ProcessMap (Ioq (Instance (snd r))) =
     {[ to_UINT64 (Address (ProcessContext p)) := ProcessContext p ]}).
Proof.
  intros Hioq Hcache Hcreate Hin Hout Hbig Inst1 c0 p r.
  destruct (FuseDeviceInit_correct Inst Params) as (_ & Hinit & _).
  destruct (Hinit Hioq Hcache c Hcreate) as (_ & _ & _ & _ & Hmap & Hpending).
  fold Inst1 in Hmap, Hpending. fold c0 in Hpending.
  assert (Hr : r = transact_request Irp (transact_enter Inst1 Irp)).
  { subst r. unfold FuseDeviceTransact. cbv zeta.
    replace (bad_response Irp) with false
      by (unfold bad_response; rewrite Hin; reflexivity).
    replace (small_request Irp) with false.
    - unfold transact_response. rewrite Hin. reflexivity.
    - symmetry. apply not_true_is_false. rewrite small_request_iff. lia. }
  rewrite Hr.
  rewrite (transact_request_pending Irp (transact_enter Inst1 Irp) c0 [] Hout Hpending).
  change (FuseContextProcess _ c0 None _) with p.
  set (s2 := put_Buffer _ _).
  assert (Hlog2 : Log s2 = [EvIoqNextPending; EvContextProcess (Address c)]) by reflexivity.
  split.
  - destruct (transact_dispatch_outcome (ProcessContext p) (Continue p) s2)
      as (_ & _ & l & Hl & (Hw & Hrc & _) & Hp & _).
    exists l. unfold continues in Hl. rewrite Hl, Hlog2. auto.
  - intros Hcont. rewrite Hcont. unfold transact_dispatch. subst s2. cbn.
    rewrite Hmap. auto.
Qed.

(** The response half-step on a response whose context is in processing. *)
Lemma transact_response_found Irp s c :
  InputBufferLength Irp <> 0 ->
  ProcessMap (Ioq (Instance s)) !! rsp_unique (SystemBuffer_rsp Irp) = Some c ->
  exists l,
    Log (snd (transact_response Irp s)) =
      Log s ++ [EvIoqEndProcessing (rsp_unique (SystemBuffer_rsp Irp));
                EvContextProcess (Address c)] ++ l.
Proof.
  intros Hin Hfound. unfold transact_response.
  assert (Hreq : forall s', exists l', Log (snd (transact_request Irp s')) = Log s' ++ l').
  { intros s'. destruct (transact_request_outcome Irp s') as (_ & _ & l' & Hl' & _).
    eauto. }
  destruct (Z.eqb_spec (InputBufferLength Irp) 0) as [E | _]; [contradiction |].
  cbn [negb]. unfold FuseIoqEndProcessing. rewrite Hfound.
  set (s0 := put_Ioq _ _).
  assert (Hlog0 : Log s0 = Log s ++ [EvIoqEndProcessing (rsp_unique (SystemBuffer_rsp Irp))])
    by reflexivity.
  destruct (do_Process c (Some (SystemBuffer_rsp Irp)) None s0) as [[k c'] s1] eqn:Hdo.
  pose proof (do_Process_frame c (Some (SystemBuffer_rsp Irp)) None s0) as Hframe.
  rewrite Hdo in Hframe. cbn [snd] in Hframe.
  destruct Hframe as (_ & _ & _ & Hlog).
  destruct k.
  - destruct (Hreq (do_PostPending c' s1)) as (l & Hl).
    eexists. rewrite Hl. cbn. rewrite Hlog, Hlog0. rewrite <- !app_assoc. reflexivity.
  - destruct (InternalRequest c').
    + unfold do_Send.
      destruct (NT_SUCCESS (FspFsextProviderTransact_send (InternalResponse c')));
        cbn [negb].
      * set (s2 := do_Delete c' _).
        destruct (Hreq s2) as (l & Hl).
        eexists. rewrite Hl. subst s2. cbn. rewrite Hlog, Hlog0.
        rewrite <- !app_assoc. reflexivity.
      * eexists. cbn. rewrite Hlog, Hlog0. rewrite <- !app_assoc. reflexivity.
    + destruct (Hreq (do_Delete c' s1)) as (l & Hl).
      eexists. rewrite Hl. cbn. rewrite Hlog, Hlog0. rewrite <- !app_assoc. reflexivity.
Qed.

(** X13.  A response that carries the unique of an emitted request reaches
    the context that emitted it.  When a request-only call resumes the
    first pending context and the context emits a request stamped with its
    own address (as every fill routine does), the context is filed in
    processing under the unique in the buffer and the rest of the pending
    list stays.  A later call whose response carries that unique takes
    exactly this context out of processing, so that the unique is no longer
    filed, and resumes it with that response and without a request buffer;
    the call then goes on as the outcome of the resumption says: re-post
    and request half-step, or delete and request half-step, or forward,
    delete and request half-step unless the forward fails.  Without an
    output buffer the unique is still not filed when the call returns, and
    the pending list has grown by the context exactly if it continues. *)
Theorem response_reaches_emitter (Inst : FUSE_INSTANCE) (Irp1 Irp2 : IRP)
    (c : FUSE_CONTEXT) (rest : list FUSE_CONTEXT) :
  InputBufferLength Irp1 = 0 -> OutputBufferLength Irp1 <> 0 ->
  FUSE_PROTO_REQ_SIZEMIN <= OutputBufferLength Irp1 ->
  PendingList (Ioq Inst) = c :: rest ->
  let p := FuseContextProcess (Cache Inst) c None
             (Some (zero_header (SystemBuffer_req Irp1), OutputBufferLength Irp1)) in
  let c1 := ProcessContext p in
  Continue p = true ->
  req_unique (ProcessRequest p) = to_UINT64 (Address c1) ->
  let r1 := FuseDeviceTransact Inst Irp1 in
  let Inst1 := Instance (snd r1) in
  let unique := req_unique (Buffer (snd r1)) in
  (ProcessMap (Ioq Inst1) !! unique = Some c1 /\ PendingList (Ioq Inst1) = rest) /\
  (bad_response Irp2 = false -> small_request Irp2 = false ->
   InputBufferLength Irp2 <> 0 -> rsp_unique (SystemBuffer_rsp Irp2) = unique ->
   let p2 := FuseContextProcess (Cache Inst1) c1 (Some (SystemBuffer_rsp Irp2)) None in
   let c2 := ProcessContext p2 in
   let taken := {| PendingList := rest;
                   ProcessMap := delete unique (ProcessMap (Ioq Inst1)) |} in
   let s2 := {| Instance := with_Cache (ProcessCache p2) (with_Ioq taken Inst1);
                Information := IoStatus_Information Irp2;
                Buffer := SystemBuffer_req Irp2;
                Log := [EvIoqEndProcessing unique; EvContextProcess (Address c1)] |} in
   let status := FspFsextProviderTransact_send (InternalResponse c2) in
   let s3 := do_Delete c2 (emit (EvProviderSend (InternalResponse c2)) s2) in
   let r2 := FuseDeviceTransact Inst1 Irp2 in
   FuseIoqEndProcessing (Ioq Inst1) unique = (Some c1, taken) /\
   ProcessMap taken !! unique = None /\
   r2 = (if Continue p2 then transact_request Irp2 (do_PostPending c2 s2)
         else match InternalRequest c2 with
              | None => transact_request Irp2 (do_Delete c2 s2)
              | Some _ => if NT_SUCCESS status then transact_request Irp2 s3
                          else (status, s3)
              end) /\
   (exists l,
      Log (snd r2) = [EvIoqEndProcessing unique; EvContextProcess (Address c1)] ++ l) /\
   (OutputBufferLength Irp2 = 0 ->
    ProcessMap (Ioq (Instance (snd r2))) !! unique = None /\
    PendingList (Ioq (Instance (snd r2))) = rest ++ (if Continue p2 then [c2] else []))).
Proof.
  intros Hin Hout Hbig Hpending p c1 Hcont Hstamp r1 Inst1 unique.
  assert (Hr1 : r1 = transact_request Irp1 (transact_enter Inst Irp1)).
  { subst r1. unfold FuseDeviceTransact. cbv zeta.
    replace (bad_response Irp1) with false
      by (unfold bad_response; rewrite Hin; reflexivity).
    replace (small_request Irp1) with false.
    - unfold transact_response. rewrite Hin. reflexivity.
    - symmetry. apply not_true_is_false. rewrite small_request_iff. lia. }
  assert (Hr1' : r1 = transact_dispatch c1 true
                        (put_Buffer (ProcessRequest p)
                           (put_Cache (ProcessCache p)
                              (emit (EvContextProcess (Address c))
                                 (put_Ioq {| PendingList := rest;
                                             ProcessMap := ProcessMap (Ioq Inst) |}
                                    (emit EvIoqNextPending
                                       (put_Buffer (zero_header (SystemBuffer_req Irp1))
                                          (put_Information 0
                                             (transact_enter Inst Irp1))))))))).
  { rewrite Hr1.
    rewrite (transact_request_pending Irp1 (transact_enter Inst Irp1) c rest Hout Hpending).
    change (FuseContextProcess _ c None _) with p. rewrite Hcont. reflexivity. }
  assert (Hunique : unique = to_UINT64 (Address c1)).
  { subst unique. rewrite Hr1'. cbn. exact Hstamp. }
  assert (Hfound : ProcessMap (Ioq Inst1) !! unique = Some c1).
  { subst Inst1. rewrite Hr1', Hunique. cbn. apply lookup_insert_eq. }
  assert (Hrest : PendingList (Ioq Inst1) = rest).
  { subst Inst1. rewrite Hr1'. reflexivity. }
  split; [split; [exact Hfound | exact Hrest] |].
  clearbody Inst1 unique. clear Hr1 Hr1' Hunique r1.
  intros Hbad Hsmall Hin2 Hrsp p2 c2 taken s2 status s3 r2.
  assert (Hend : FuseIoqEndProcessing (Ioq Inst1) unique = (Some c1, taken)).
  { unfold FuseIoqEndProcessing. rewrite Hfound. subst taken. rewrite Hrest. reflexivity. }
  assert (Hgone : ProcessMap taken !! unique = None) by apply lookup_delete_eq.
  assert (Hr2 : r2 = (if Continue p2 then transact_request Irp2 (do_PostPending c2 s2)
                      else match InternalRequest c2 with
                           | None => transact_request Irp2 (do_Delete c2 s2)
                           | Some _ => if NT_SUCCESS status then transact_request Irp2 s3
                                       else (status, s3)
                           end)).
  { subst r2. unfold FuseDeviceTransact. cbv zeta. rewrite Hbad, Hsmall.
    unfold transact_response.
    destruct (Z.eqb_spec (InputBufferLength Irp2) 0) as [E | _]; [contradiction |].
    cbn [negb].
    change (Ioq (Instance (transact_enter Inst1 Irp2))) with (Ioq Inst1).
    rewrite Hrsp, Hend. unfold do_Process.
    change (FuseContextProcess _ c1 (Some (SystemBuffer_rsp Irp2)) (option_map _ None))
      with p2.
    fold c2. destruct (Continue p2); [reflexivity |].
    destruct (InternalRequest c2); [| reflexivity].
    unfold do_Send. fold status. destruct (NT_SUCCESS status); reflexivity. }
  split; [exact Hend |]. split; [exact Hgone |]. split; [exact Hr2 |]. split.
  - subst r2. unfold FuseDeviceTransact. cbv zeta. rewrite Hbad, Hsmall.
    rewrite <- Hrsp in Hfound |- *.
    apply (transact_response_found Irp2 (transact_enter Inst1 Irp2) c1 Hin2 Hfound).
  - intros Hzero.
    assert (Hreq : forall s, transact_request Irp2 s = (STATUS_SUCCESS, put_Information 0 s)).
    { intros s. unfold transact_request. rewrite Hzero. reflexivity. }
    rewrite Hr2.
    destruct (Continue p2); [| destruct (InternalRequest c2);
                                [destruct (NT_SUCCESS status) |]];
      rewrite ?Hreq; cbn; (split; [exact Hgone | rewrite ?app_nil_r; reflexivity]).
Qed.

End MoreTransactFacts.

Section LifeCycleFacts.
Context `{PROTO : FUSE_PROTO} `{ENV : COLLABORATORS}.

(** X14.  Every path through [FuseDeviceInit] enters and leaves the
    critical region exactly once, as do [FuseDeviceFini] and
    [FuseDeviceExpirationRoutine].  [FuseDeviceInit] returns
    STATUS_SUCCESS or a failure status.  When it fails, the IOQ and the
    cache are deleted exactly if they had been constructed, while the
    rwlock and the file table, once initialized, are not finalized on that
    path.  When it succeeds nothing is deleted, and a [FuseDeviceFini]
    after it tears down each of the four (IOQ, file table, cache, rwlock)
    exactly once. *)
Theorem lifecycle_calls_balance (Inst : FUSE_INSTANCE) (Params : FSP_FSCTL_VOLUME_PARAMS)
    (ExpirationTime : Z) :
  let r := FuseDeviceInit Inst Params in
  let init := life (InitLog r) in
  let both := NT_SUCCESS FuseIoqCreate && NT_SUCCESS FuseCacheCreate in
  let count (b : bool) := if b then 1%nat else O in
  (occurrences is_enter init = 1%nat /\ occurrences is_leave init = 1%nat /\
   occurrences is_enter FuseDeviceFini = 1%nat /\
   occurrences is_leave FuseDeviceFini = 1%nat /\
   occurrences is_enter (FuseDeviceExpirationRoutine ExpirationTime) = 1%nat /\
   occurrences is_leave (FuseDeviceExpirationRoutine ExpirationTime) = 1%nat) /\
  (InitResult r = STATUS_SUCCESS \/ NT_SUCCESS (InitResult r) = false) /\
  (NT_SUCCESS (InitResult r) = false ->
   occurrences is_ioq_delete init = count (NT_SUCCESS FuseIoqCreate) /\
   occurrences is_cache_delete init = count both /\
   occurrences is_rwlock_initialize init = count both /\
   occurrences is_file_init init = count both /\
   occurrences is_rwlock_finalize init = O /\
   occurrences is_file_fini init = O) /\
  (InitResult r = STATUS_SUCCESS ->
   occurrences is_ioq_delete init = O /\ occurrences is_cache_delete init = O /\
   let whole := init ++ FuseDeviceFini in
   (occurrences is_ioq_create whole = 1%nat /\ occurrences is_ioq_delete whole = 1%nat) /\
   (occurrences is_cache_create whole = 1%nat /\
    occurrences is_cache_delete whole = 1%nat) /\
   (occurrences is_rwlock_initialize whole = 1%nat /\
    occurrences is_rwlock_finalize whole = 1%nat) /\
   (occurrences is_file_init whole = 1%nat /\ occurrences is_file_fini whole = 1%nat)).
Proof.
  cbv zeta. unfold FuseDeviceInit, FuseProtoPostInit.
  destruct (NT_SUCCESS FuseIoqCreate) eqn:Hioq;
    [destruct (NT_SUCCESS FuseCacheCreate) eqn:Hcache;
       [destruct (FuseContextCreate None) as [c | st];
          [change (NT_SUCCESS STATUS_SUCCESS) with true
          | destruct (NT_SUCCESS st) eqn:Hst] |] |];
    cbn; repeat first [split | intro];
    try reflexivity; try (left; reflexivity); try (right; assumption);
    match goal with
    | E : NT_SUCCESS STATUS_SUCCESS = false |- _ => vm_compute in E; discriminate E
    | E : ?x = STATUS_SUCCESS, H : NT_SUCCESS ?x = false |- _ =>
        rewrite E in H; vm_compute in H; discriminate H
    end.
Qed.

End LifeCycleFacts.

Section MoreForgetFacts.
Context `{PROTO : FUSE_PROTO} `{HELPERS : FUSE_HELPERS}.
Variables (E : COLLABORATORS) (batch : bool) (Ino0 : Z).

Local Abbreviation FE := (forget_collaborators batch Ino0 E).

(** The message one resume of a FORGET context writes. *)
Lemma forget_step_message cache c buffer n :
  proto_ok -> ForgetList (Forget c) <> [] ->
  Forall is_UINT64 (ForgetList (Forget c)) ->
  let N := Z.of_nat (length (ForgetList (Forget c))) in
  let p := FuseContextProcess (COLLABORATORS := FE) cache c None (Some (buffer, n)) in
  message_inodes (ProcessRequest p) =
    take (Z.to_nat (Z.min N (per_message batch))) (ForgetList (Forget c)) /\
  req_opcode (ProcessRequest p) =
    (if batch then FUSE_PROTO_OPCODE_BATCH_FORGET else FUSE_PROTO_OPCODE_FORGET).
Proof.
  intros Hok Hne Hinos N p. subst p. cbn [FuseContextProcess forget_collaborators].
  unfold FuseContextProcess_forget, per_message.
  assert (Hctx : context_ok
            (with_FuseRequest buffer
               {| Address := 0; InternalRequest := None;
                  InternalResponse := InternalResponse c; OrigUid := 0; OrigGid := 0;
                  OrigPid := 0; Ino := 0; Lookup := {| Name := []; GrantedAccess := 0 |};
                  Forget := Forget c; CoroState := 0; Fini := None;
                  FuseRequest := buffer; FuseResponse := None |})).
  { unfold context_ok, is_UINT64, is_UINT16, Name_Length. cbn.
    repeat split; try lia; try discriminate. exact Hinos. }
  destruct batch; cbn [ProcessRequest].
  - destruct (FuseProtoFillBatchForget_spec (with_FuseRequest buffer c) Hok)
      as (Hopc & _ & Hreq & _).
    split; [| exact Hopc].
    unfold message_inodes. rewrite Hreq. cbn [ForgetList Forget with_FuseRequest].
    rewrite map_map. cbn [one_nodeid forget_one]. fold N.
    rewrite <- (map_id (take _ _)) at 2. apply map_ext_in.
    intros i Hi. apply to_UINT64_id.
    apply list_elem_of_In, elem_of_take in Hi as (j & Hj & _).
    eapply Forall_lookup_1; eauto.
  - destruct (ForgetList (Forget c)) as [| ino rest] eqn:Hl; [contradiction |].
    apply Forall_cons_1 in Hinos as [Hino _].
    destruct Hok as (Hop & _). destruct Hop as (_ & Hforget & _).
    unfold FuseProtoFillForget, message_inodes. cbn. rewrite Hl. cbn.
    rewrite (to_UINT64_id _ Hino), (to_UINT32_id _ Hforget).
    replace (Z.to_nat _) with 1%nat by (subst N; cbn [length]; lia).
    auto.
Qed.

(** The buffer a call that finds the FORGET context [c] pending hands out. *)
Lemma forget_call_buffer Inst c rest :
  proto_ok -> PendingList (Ioq Inst) = c :: rest ->
  Buffer (snd (FuseDeviceTransact (ENV := FE) Inst request_only_irp)) =
    ProcessRequest
      (FuseContextProcess (COLLABORATORS := FE) (Cache Inst) c None
         (Some (zero_header (SystemBuffer_req request_only_irp),
                OutputBufferLength request_only_irp))).
Proof.
  intros Hok Hpending.
  destruct (request_only_irp_passes Hok) as (Hbad & Hsmall & Hout).
  unfold FuseDeviceTransact. cbv zeta. rewrite Hbad, Hsmall.
  unfold transact_response.
  change (InputBufferLength request_only_irp =? 0) with true. cbn [negb].
  rewrite (transact_request_pending (ENV := FE) request_only_irp
             (transact_enter Inst request_only_irp) c rest Hout Hpending).
  set (p := FuseContextProcess _ c None _).
  set (s2 := put_Buffer _ _).
  destruct (transact_dispatch_outcome (ENV := FE) (ProcessContext p) (Continue p) s2)
    as (_ & Hbuf & _).
  rewrite Hbuf. reflexivity.
Qed.

Lemma emitted_conserves :
  proto_ok ->
  forall (k : nat) Inst c,
    is_forget_context c -> PendingList (Ioq Inst) = [c] ->
    ForgetList (Forget c) <> [] -> Forall is_UINT64 (ForgetList (Forget c)) ->
    ceil_div (Z.of_nat (length (ForgetList (Forget c)))) (per_message batch) = Z.of_nat k ->
    concat (map message_inodes (emitted (ENV := FE) k Inst)) = ForgetList (Forget c) /\
    Forall (fun m => req_opcode m =
              if batch then FUSE_PROTO_OPCODE_BATCH_FORGET else FUSE_PROTO_OPCODE_FORGET)
      (emitted (ENV := FE) k Inst) /\
    length (emitted (ENV := FE) k Inst) = k.
Proof.
  intros Hok. pose proof (per_message_pos batch Hok) as Hpm.
  induction k as [| k IH]; intros Inst c Hforget Hpending Hne Hinos Hk.
  - apply nonempty_length in Hne.
    assert (Hpm0 : 0 < per_message batch) by lia.
    pose proof (ceil_div_pos _ _ Hne Hpm0). lia.
  - destruct (forget_call E batch Ino0 Inst c [] Hok Hforget Hne Hpending)
      as (c' & _ & Hforget' & Hlist & _ & _ & Hrepost & Hdelete).
    pose proof (forget_call_buffer Inst c [] Hok Hpending) as Hbuf.
    destruct (forget_step_message (Cache Inst) c
                (zero_header (SystemBuffer_req request_only_irp))
                (OutputBufferLength request_only_irp) Hok Hne Hinos) as [Hmsg Hopc].
    cbn [emitted map concat]. rewrite Hbuf, Hmsg.
    set (Inst1 := Instance (snd (FuseDeviceTransact (ENV := FE) Inst request_only_irp))) in *.
    pose proof Hne as HN. apply nonempty_length in HN.
    set (N := Z.of_nat (length (ForgetList (Forget c)))) in *.
    assert (Hlen' : Z.of_nat (length (ForgetList (Forget c')))
                    = N - Z.min N (per_message batch)).
    { rewrite Hlist, length_drop. subst N. lia. }
    destruct (Z.le_gt_cases N (per_message batch)) as [Hlast | Hmore].
    + rewrite ceil_div_small in Hk by lia.
      assert (k = 0%nat) by lia. subst k. cbn [emitted map concat].
      rewrite app_nil_r, Z.min_l by lia.
      split; [apply take_ge; subst N; lia |].
      split; [constructor; [exact Hopc | constructor] | reflexivity].
    + assert (Hne' : ForgetList (Forget c') <> []) by (apply nonempty_length; lia).
      destruct (Hrepost Hne') as [Hp1 _]. cbn [app] in Hp1.
      assert (Hk' : ceil_div (Z.of_nat (length (ForgetList (Forget c'))))
                      (per_message batch) = Z.of_nat k).
      { rewrite Hlen', Z.min_r by lia. rewrite ceil_div_step by lia. lia. }
      assert (Hinos' : Forall is_UINT64 (ForgetList (Forget c'))).
      { rewrite Hlist. apply Forall_drop, Hinos. }
      destruct (IH Inst1 c' Hforget' Hp1 Hne' Hinos' Hk') as (Hcat & Hops & Hlen).
      rewrite Hcat, Hlist. split; [apply take_drop |].
      split; [constructor; [exact Hopc | exact Hops] | cbn [length]; congruence].
Qed.

(** X15.  Draining loses nothing and repeats nothing: the requests handed
    out while a FORGET context, alone in the queue, drains a list of N
    inode numbers carry, read in order, exactly the inode numbers of the
    list, each once; there are [ceil (N / per-message count)] of them and
    all bear the opcode of the routine that filled them. *)
Theorem forget_drain_conserves (Inst : FUSE_INSTANCE) (c : FUSE_CONTEXT) :
  proto_ok -> is_forget_context c -> PendingList (Ioq Inst) = [c] ->
  ForgetList (Forget c) <> [] -> Forall is_UINT64 (ForgetList (Forget c)) ->
  let N := Z.of_nat (length (ForgetList (Forget c))) in
  let steps := Z.to_nat (ceil_div N (per_message batch)) in
  let messages := emitted (ENV := FE) steps Inst in
  concat (map message_inodes messages) = ForgetList (Forget c) /\
  Forall (fun m => req_opcode m =
            if batch then FUSE_PROTO_OPCODE_BATCH_FORGET else FUSE_PROTO_OPCODE_FORGET)
    messages /\
  length messages = steps.
Proof.
  intros Hok Hforget Hpending Hne Hinos N steps messages.
  apply (emitted_conserves Hok steps Inst c Hforget Hpending Hne Hinos).
  pose proof (per_message_pos batch Hok) as Hpm.
  pose proof Hne as HN. apply nonempty_length in HN. fold N in HN.
  assert (Hpm0 : 0 < per_message batch) by lia.
  pose proof (ceil_div_pos N (per_message batch) HN Hpm0). subst steps. fold N. lia.
Qed.

End MoreForgetFacts.

Lemma internal_request_ownership_witness :
  Log (snd (transact_receive (PROTO := fuse7) (HELPERS := helpers0)
              (ENV := busy_collaborators) (sample_irp 0 0 0 8192)
              (transact_enter (idle_instance 7) (sample_irp 0 0 0 8192))))
    = [EvProviderReceive; EvContextCreate;
       EvProviderSend {| irsp_Size := 128; irsp_Kind := 5; irsp_Hint := 9;
                         irsp_Status := STATUS_INSUFFICIENT_RESOURCES |};
       EvFreeExternal {| ireq_Kind := 5; ireq_Hint := 9 |}].
Proof.
  destruct (internal_request_ownership (PROTO := fuse7) (HELPERS := helpers0)
              (ENV := busy_collaborators) (sample_irp 0 0 0 8192)
              (transact_enter (idle_instance 7) (sample_irp 0 0 0 8192))
              STATUS_SUCCESS {| ireq_Kind := 5; ireq_Hint := 9 |} eq_refl)
    as (_ & Hstatus & _).
  destruct (Hstatus eq_refl STATUS_INSUFFICIENT_RESOURCES eq_refl) as (Hlog & _).
  exact Hlog.
Defined.

Lemma finished_context_forwarded_witness :
  let Irp := sample_irp 0 0 0 8192 in
  let ireq := {| ireq_Kind := 5; ireq_Hint := 9 |} in
  let s := transact_enter (queued_instance [suspended_context (Some ireq)] ∅) Irp in
  fst (transact_request (PROTO := fuse7) (HELPERS := helpers0)
         (ENV := sample_collaborators) Irp s) = STATUS_SUCCESS.
Proof.
  intros Irp ireq s.
  assert (Hsome : is_Some (InternalRequest
            (ProcessContext
               (FuseContextProcess (COLLABORATORS := sample_collaborators)
                  (Cache (Instance s)) (suspended_context (Some ireq)) None
                  (Some (zero_header (Buffer s), OutputBufferLength Irp)))))).
  { exists ireq. reflexivity. }
  assert (Hout : OutputBufferLength Irp <> 0) by (cbn; lia).
  destruct (finished_context_forwarded (PROTO := fuse7) (HELPERS := helpers0)
              (ENV := sample_collaborators) Irp s (suspended_context (Some ireq)) []
              Hout eq_refl eq_refl Hsome) as (_ & _ & _ & _ & Hok & _).
  apply Hok. reflexivity.
Defined.

Lemma finished_context_unclaimed_witness :
  let Irp := sample_irp 0 0 0 8192 in
  let s := transact_enter (queued_instance [suspended_context None] ∅) Irp in
  PendingList (Ioq (Instance (snd (transact_request (PROTO := fuse7) (HELPERS := helpers0)
                                     (ENV := sample_collaborators) Irp s)))) = [] /\
  Log (snd (transact_request (PROTO := fuse7) (HELPERS := helpers0)
              (ENV := sample_collaborators) Irp s))
    = [EvIoqNextPending; EvContextProcess (Address sample_context)].
Proof.
  intros Irp s.
  assert (Hout : OutputBufferLength Irp <> 0) by (cbn; lia).
  assert (Hf : irsp_Hint (InternalResponse
                 (ProcessContext
                    (FuseContextProcess (COLLABORATORS := sample_collaborators)
                       (Cache (Instance s)) (suspended_context None) None
                       (Some (zero_header (Buffer s), OutputBufferLength Irp)))))
               <> FUSE_PROTO_OPCODE_FORGET (FUSE_PROTO := fuse7))
    by (vm_compute; discriminate).
  assert (Hb : irsp_Hint (InternalResponse
                 (ProcessContext
                    (FuseContextProcess (COLLABORATORS := sample_collaborators)
                       (Cache (Instance s)) (suspended_context None) None
                       (Some (zero_header (Buffer s), OutputBufferLength Irp)))))
               <> FUSE_PROTO_OPCODE_BATCH_FORGET (FUSE_PROTO := fuse7))
    by (vm_compute; discriminate).
  destruct (finished_context_unclaimed (PROTO := fuse7) (HELPERS := helpers0)
              (ENV := sample_collaborators) Irp s (suspended_context None) []
              Hout eq_refl eq_refl eq_refl Hf Hb) as (_ & _ & Hlog & Hpending & _).
  split; [exact Hpending | exact Hlog].
Defined.

Lemma completing_response_witness :
  let ireq := {| ireq_Kind := 5; ireq_Hint := 9 |} in
  let Inst := queued_instance [] {[ 99 := suspended_context (Some ireq) ]} in
  fst (FuseDeviceTransact (PROTO := fuse7) (HELPERS := helpers0)
         (ENV := failing_collaborators) Inst (sample_irp 16 16 99 8192))
    = STATUS_INSUFFICIENT_RESOURCES.
Proof.
  intros ireq Inst.
  assert (Hin : InputBufferLength (sample_irp 16 16 99 8192) <> 0) by (cbn; lia).
  assert (Hfound : ProcessMap (Ioq Inst) !! rsp_unique (SystemBuffer_rsp (sample_irp 16 16 99 8192))
                   = Some (suspended_context (Some ireq)))
    by apply lookup_singleton_eq.
  assert (Hsome : is_Some (InternalRequest
            (ProcessContext
               (FuseContextProcess (COLLABORATORS := failing_collaborators)
                  (Cache Inst) (suspended_context (Some ireq))
                  (Some (SystemBuffer_rsp (sample_irp 16 16 99 8192))) None)))).
  { exists ireq. reflexivity. }
  destruct (completing_response (PROTO := fuse7) (HELPERS := helpers0)
              (ENV := failing_collaborators) Inst (sample_irp 16 16 99 8192)
              (suspended_context (Some ireq)) eq_refl eq_refl Hin Hfound eq_refl Hsome)
    as (Hfail & _).
  rewrite (Hfail eq_refl). reflexivity.
Defined.

Lemma first_call_after_init_witness :
  fst (FuseDeviceTransact (PROTO := fuse7) (HELPERS := helpers0)
         (ENV := sample_collaborators)
         (InitInstance (FuseDeviceInit (PROTO := fuse7) (ENV := sample_collaborators)
                          (idle_instance 0) sample_params))
         (sample_irp 0 0 0 8192)) = STATUS_SUCCESS.
Proof.
  assert (Hout : OutputBufferLength (sample_irp 0 0 0 8192) <> 0) by (cbn; lia).
  assert (Hbig : FUSE_PROTO_REQ_SIZEMIN (FUSE_PROTO := fuse7)
                 <= OutputBufferLength (sample_irp 0 0 0 8192)) by (cbn; lia).
  destruct (first_call_after_init (PROTO := fuse7) (HELPERS := helpers0)
              (ENV := sample_collaborators) (idle_instance 0) sample_params
              (sample_irp 0 0 0 8192) _ eq_refl eq_refl eq_refl eq_refl Hout Hbig)
    as (_ & Hemit).
  destruct (Hemit eq_refl) as (Hok & _). exact Hok.
Defined.

Lemma response_reaches_emitter_witness :
  let Inst := queued_instance [sample_context] ∅ in
  let Irp2 := sample_irp 16 16 (Address sample_context) 0 in
  let r1 := FuseDeviceTransact (PROTO := fuse7) (HELPERS := helpers0)
              (ENV := sample_collaborators) Inst (sample_irp 0 0 0 8192) in
  let r2 := FuseDeviceTransact (PROTO := fuse7) (HELPERS := helpers0)
              (ENV := sample_collaborators) (Instance (snd r1)) Irp2 in
  req_unique (Buffer (snd r1)) = Address sample_context /\
  is_Some (ProcessMap (Ioq (Instance (snd r1))) !! Address sample_context) /\
  ProcessMap (Ioq (Instance (snd r2))) !! Address sample_context = None /\
  PendingList (Ioq (Instance (snd r2))) = [].
Proof.
  intros Inst Irp2 r1 r2.
  assert (Hout : OutputBufferLength (sample_irp 0 0 0 8192) <> 0) by (cbn; lia).
  assert (Hbig : FUSE_PROTO_REQ_SIZEMIN (FUSE_PROTO := fuse7)
                 <= OutputBufferLength (sample_irp 0 0 0 8192)) by (cbn; lia).
  assert (Hin2 : InputBufferLength Irp2 <> 0) by (cbn; lia).
  assert (Hu : req_unique (Buffer (snd r1)) = Address sample_context)
    by (vm_compute; reflexivity).
  destruct (response_reaches_emitter (PROTO := fuse7) (HELPERS := helpers0)
              (ENV := sample_collaborators) Inst (sample_irp 0 0 0 8192) Irp2
              sample_context [] eq_refl Hout Hbig eq_refl eq_refl eq_refl)
    as ((Hfound & _) & Hsecond).
  fold r1 in Hfound, Hsecond.
  destruct (Hsecond eq_refl eq_refl Hin2 (eq_sym Hu)) as (_ & _ & _ & _ & Hfinal).
  destruct (Hfinal eq_refl) as (Hgone & Hpending).
  fold r2 in Hgone, Hpending. rewrite Hu in Hfound, Hgone.
  split; [exact Hu |]. split; [eauto |]. split; [exact Hgone | exact Hpending].
Defined.

Lemma forget_drain_conserves_witness :
  concat (map message_inodes
            (emitted (PROTO := ten_tuple_proto) (HELPERS := helpers0)
               (ENV := forget_collaborators (PROTO := ten_tuple_proto) true 0
                         sample_collaborators)
               2 seventeen_instance))
    = map Z.of_nat (seq 1 17).
Proof.
  assert (Hforget : is_forget_context (PROTO := ten_tuple_proto) seventeen_context).
  { split; [reflexivity | left; reflexivity]. }
  assert (Hne : ForgetList (Forget seventeen_context) <> []) by discriminate.
  assert (Hinos : Forall is_UINT64 (ForgetList (Forget seventeen_context))).
  { apply Forall_forall. intros x Hx.
    apply list_elem_of_In, in_map_iff in Hx as (n & <- & Hn).
    apply in_seq in Hn. unfold is_UINT64. lia. }
  destruct (forget_drain_conserves (PROTO := ten_tuple_proto) (HELPERS := helpers0)
              sample_collaborators true 0 seventeen_instance seventeen_context
              ten_tuple_proto_ok Hforget eq_refl Hne Hinos) as (Hcat & _).
  exact Hcat.
Defined.

Section ComposedFacts.
Context `{PROTO : FUSE_PROTO} `{HELPERS : FUSE_HELPERS}.

(** X16.  A response after which the context wants another round trip, in
    a call that also takes a request: the context goes to the tail of
    pending in the response half-step and, when nothing else was pending,
    is taken from there and resumed a second time by the request half-step
    of the same call, this time with the output buffer. *)
Theorem response_then_next_request `{ENV : COLLABORATORS}
    (Inst : FUSE_INSTANCE) (Irp : IRP) (c : FUSE_CONTEXT) :
  bad_response Irp = false -> small_request Irp = false ->
  InputBufferLength Irp <> 0 -> OutputBufferLength Irp <> 0 ->
  let unique := rsp_unique (SystemBuffer_rsp Irp) in
  ProcessMap (Ioq Inst) !! unique = Some c ->
  PendingList (Ioq Inst) = [] ->
  let p1 := FuseContextProcess (Cache Inst) c (Some (SystemBuffer_rsp Irp)) None in
  let c1 := ProcessContext p1 in
  let p2 := FuseContextProcess (ProcessCache p1) c1 None
              (Some (zero_header (SystemBuffer_req Irp), OutputBufferLength Irp)) in
  Continue p1 = true ->
  let r := FuseDeviceTransact Inst Irp in
  Buffer (snd r) = ProcessRequest p2 /\
  exists l,
    Log (snd r) = [EvIoqEndProcessing unique; EvContextProcess (Address c);
                   EvIoqPostPending (Address c1); EvIoqNextPending;
                   EvContextProcess (Address c1)] ++ l /\
    occurrences is_process l = O /\ quiet l.
Proof.
  intros Hbad Hsmall Hin Hout unique Hfound Hpending p1 c1 p2 Hcont r.
  subst r. unfold FuseDeviceTransact. cbv zeta. rewrite Hbad, Hsmall.
  unfold transact_response.
  destruct (Z.eqb_spec (InputBufferLength Irp) 0) as [E | _]; [contradiction |].
  cbn [negb]. unfold FuseIoqEndProcessing.
  change (Ioq (Instance (transact_enter Inst Irp))) with (Ioq Inst).
  fold unique. rewrite Hfound. unfold do_Process.
  change (FuseContextProcess _ c (Some (SystemBuffer_rsp Irp)) (option_map _ None)) with p1.
  rewrite Hcont. fold c1.
  set (s1 := do_PostPending c1 _).
  assert (Hp1 : PendingList (Ioq (Instance s1)) = [c1]).
  { subst s1. cbn. rewrite Hpending. reflexivity. }
  rewrite (transact_request_pending Irp s1 c1 [] Hout Hp1).
  change (FuseContextProcess (Cache (Instance s1)) c1 None _) with p2.
  set (s2 := put_Buffer _ _).
  destruct (transact_dispatch_outcome (ProcessContext p2) (Continue p2) s2)
    as (_ & Hbuf & l & Hl & Hquiet & Hproc & _).
  split; [rewrite Hbuf; reflexivity |].
  exists l. unfold continues in Hl. rewrite Hl. auto.
Qed.

Variables (E : COLLABORATORS) (batch : bool) (Ino0 : Z).

Local Abbreviation FE := (forget_collaborators batch Ino0 E).

(** X17.  A list of inode numbers handed to [FuseProtoPostForget] on an
    instance with nothing pending is forgotten completely and in order:
    the post succeeds when a context can be created, and the requests of
    the following [ceil (N / per-message count)] request-only calls carry
    exactly the inode numbers of the list; when no context can be created
    the post returns the creation status and queues nothing. *)
Theorem posted_list_is_forgotten (Inst : FUSE_INSTANCE) (List : list Z) :
  proto_ok -> PendingList (Ioq Inst) = [] ->
  List <> [] -> Forall is_UINT64 List ->
  let posted := FuseProtoPostForget (ENV := FE) (Ioq Inst) List in
  let steps := Z.to_nat (ceil_div (Z.of_nat (length List)) (per_message batch)) in
  (forall c0,
     FuseContextCreate (COLLABORATORS := E) None = ContextAlive c0 ->
     InternalRequest c0 = None ->
     fst (fst posted) = STATUS_SUCCESS /\
     concat (map message_inodes
               (emitted (ENV := FE) steps (with_Ioq (snd (fst posted)) Inst))) = List /\
     PendingList (Ioq (after_calls (ENV := FE) steps (with_Ioq (snd (fst posted)) Inst)))
       = []) /\
  (forall st,
     FuseContextCreate (COLLABORATORS := E) None = ContextStatus st ->
     fst (fst posted) = st /\ snd (fst posted) = Ioq Inst).
Proof.
  intros Hok Hpending Hne Hinos posted steps. split.
  - intros c0 Hcreate Hnone.
    destruct (FuseProtoPostForget_posts (ENV := FE) (Ioq Inst) List c0 Hcreate Hnone)
      as (c & Hpost & Hforget & Hlist & _).
    subst posted. rewrite Hpost. cbn [fst snd].
    assert (Hq : PendingList (Ioq (with_Ioq (FuseIoqPostPending (Ioq Inst) c) Inst)) = [c]).
    { cbn. rewrite Hpending. reflexivity. }
    assert (Hne' : ForgetList (Forget c) <> []) by (rewrite Hlist; exact Hne).
    assert (Hinos' : Forall is_UINT64 (ForgetList (Forget c))) by (rewrite Hlist; exact Hinos).
    assert (Hsteps : ceil_div (Z.of_nat (length (ForgetList (Forget c))))
                       (per_message batch) = Z.of_nat steps).
    { rewrite Hlist. subst steps.
      pose proof (per_message_pos batch Hok) as Hpm.
      assert (Hpm0 : 0 < per_message batch) by lia.
      assert (HN : 0 < Z.of_nat (length List)) by (apply nonempty_length; exact Hne).
      pose proof (ceil_div_pos _ _ HN Hpm0). lia. }
    split; [reflexivity |]. split.
    + destruct (emitted_conserves E batch Ino0 Hok steps _ c Hforget Hq Hne' Hinos' Hsteps)
        as (Hcat & _).
      rewrite Hlist in Hcat. exact Hcat.
    + destruct (drain_in_ceil_div_calls E batch Ino0 Hok steps _ c Hforget Hq Hne' Hsteps)
        as (Hdone & _).
      exact Hdone.
  - intros st Hcreate. subst posted. unfold FuseProtoPostForget.
    cbn [FuseContextCreate forget_collaborators]. rewrite Hcreate. auto.
Qed.

End ComposedFacts.

Lemma response_then_next_request_witness :
  let Inst := queued_instance [] {[ 99 := sample_context ]} in
  let r := FuseDeviceTransact (PROTO := fuse7) (HELPERS := helpers0)
             (ENV := sample_collaborators) Inst (sample_irp 16 16 99 8192) in
  exists l,
    Log (snd r) = [EvIoqEndProcessing 99; EvContextProcess (Address sample_context);
                   EvIoqPostPending (Address sample_context); EvIoqNextPending;
                   EvContextProcess (Address sample_context)] ++ l.
Proof.
  intros Inst r.
  assert (Hin : InputBufferLength (sample_irp 16 16 99 8192) <> 0) by (cbn; lia).
  assert (Hout : OutputBufferLength (sample_irp 16 16 99 8192) <> 0) by (cbn; lia).
  assert (Hfound : ProcessMap (Ioq Inst) !! rsp_unique (SystemBuffer_rsp (sample_irp 16 16 99 8192))
                   = Some sample_context)
    by apply lookup_singleton_eq.
  destruct (response_then_next_request (PROTO := fuse7) (HELPERS := helpers0)
              (ENV := sample_collaborators) Inst (sample_irp 16 16 99 8192) sample_context
              eq_refl eq_refl Hin Hout Hfound eq_refl eq_refl) as (_ & l & Hl & _).
  exists l. exact Hl.
Defined.

Lemma posted_list_is_forgotten_witness :
  let posted := FuseProtoPostForget (PROTO := ten_tuple_proto)
                  (ENV := forget_collaborators (PROTO := ten_tuple_proto) true 0
                            sample_collaborators)
                  (Ioq (idle_instance 7)) (map Z.of_nat (seq 1 17)) in
  concat (map message_inodes
            (emitted (PROTO := ten_tuple_proto) (HELPERS := helpers0)
               (ENV := forget_collaborators (PROTO := ten_tuple_proto) true 0
                         sample_collaborators)
               2 (with_Ioq (snd (fst posted)) (idle_instance 7))))
    = map Z.of_nat (seq 1 17).
Proof.
  intros posted.
  assert (Hne : map Z.of_nat (seq 1 17) <> []) by discriminate.
  assert (Hinos : Forall is_UINT64 (map Z.of_nat (seq 1 17))).
  { apply Forall_forall. intros x Hx.
    apply list_elem_of_In, in_map_iff in Hx as (n & <- & Hn).
    apply in_seq in Hn. unfold is_UINT64. lia. }
  destruct (posted_list_is_forgotten (PROTO := ten_tuple_proto) (HELPERS := helpers0)
              sample_collaborators true 0 (idle_instance 7) (map Z.of_nat (seq 1 17))
              ten_tuple_proto_ok eq_refl Hne Hinos) as (Halive & _).
  destruct (Halive _ eq_refl eq_refl) as (_ & Hcat & _).
  exact Hcat.
Defined.
